(** * SceneManager: a shallow embedding of Source/SceneManager.cpp

    The scene manager keeps two small registries (textures, materials),
    pushes uniforms to a shader manager and replays a fixed script of
    draw directives.  This development embeds the C++ methods as
    functions in a state-and-error monad over the [SceneManager] object
    and the collaborators it talks to (OpenGL, the image decoder, the
    shader manager, the mesh library), and proves the properties the
    specification states about them.

    Conventions.
    - [float] arithmetic is idealised over the real numbers: rounding,
      infinities and NaN are not modelled.
    - [int] values are [Z]; the only conversion that matters, between the
      unsigned texture name and [int], is written out.
    - Every call to a collaborator is recorded, in order, in the list of
      calls a method returns.  What a collaborator answers (decoded
      images, generated texture names) and what an uninitialised local
      holds are inputs, carried by the [World].
    - Accesses outside the 16-slot texture array and calls through a NULL
      pointer have undefined behaviour in C++; the embedding reports
      them as [UB]. *)

From Stdlib Require Import Reals Lra ZArith Lia String List Bool.
From stdpp Require Import list gmap strings.

Open Scope Z_scope.

(** ** Scalars *)

Definition float : Type := R.
Bind Scope R_scope with float.

(** ** The part of GLM the scene manager uses

    GLM is a third-party library; the functions below are written after
    its [translate], [rotate], [scale] (matrix_transform), [radians],
    [normalize] and the [mat4] operators.  Matrices are column-major, as
    in [glm::mat4]: [col0 .. col3] are the columns [m[0] .. m[3]]. *)

Module glm.

Record vec2 : Type := Vec2 { x2 : float; y2 : float }.
Record vec3 : Type := Vec3 { x3 : float; y3 : float; z3 : float }.
Record vec4 : Type := Vec4 { x : float; y : float; z : float; w : float }.
Record mat4 : Type := Mat4 { col0 : vec4; col1 : vec4; col2 : vec4; col3 : vec4 }.

Section Ops.
Local Open Scope R_scope.

(** [glm::radians] *)
Definition radians (degrees : float) : float := degrees * (PI / 180).

(** [glm::dot], [glm::inversesqrt], [glm::normalize] on [vec3] *)
Definition dot (a b : vec3) : float :=
  x3 a * x3 b + y3 a * y3 b + z3 a * z3 b.

Definition inversesqrt (v : float) : float := 1 / sqrt v.

Definition smul3 (v : vec3) (s : float) : vec3 :=
  Vec3 (x3 v * s) (y3 v * s) (z3 v * s).

Definition normalize (v : vec3) : vec3 := smul3 v (inversesqrt (dot v v)).

(** [vec4 * scalar] and [vec4 + vec4] *)
Definition smul (v : vec4) (s : float) : vec4 :=
  Vec4 (x v * s) (y v * s) (z v * s) (w v * s).

Definition vadd (a b : vec4) : vec4 :=
  Vec4 (x a + x b) (y a + y b) (z a + z b) (w a + w b).

(** [glm::mat4(1.0f)] *)
Definition identity : mat4 :=
  Mat4 (Vec4 1 0 0 0) (Vec4 0 1 0 0) (Vec4 0 0 1 0) (Vec4 0 0 0 1).

(** [glm::translate(m, v)]:
    [Result[3] = m[0]*v[0] + m[1]*v[1] + m[2]*v[2] + m[3]] *)
Definition translate_m (m : mat4) (v : vec3) : mat4 :=
  Mat4 (col0 m) (col1 m) (col2 m)
       (vadd (vadd (vadd (smul (col0 m) (x3 v)) (smul (col1 m) (y3 v)))
                   (smul (col2 m) (z3 v)))
             (col3 m)).

(** [glm::scale(m, v)] *)
Definition scale_m (m : mat4) (v : vec3) : mat4 :=
  Mat4 (smul (col0 m) (x3 v)) (smul (col1 m) (y3 v))
       (smul (col2 m) (z3 v)) (col3 m).

(** [glm::rotate(m, angle, v)] *)
Definition rotate_m (m : mat4) (angle : float) (v : vec3) : mat4 :=
  let a := angle in
  let c := cos a in
  let s := sin a in
  let axis := normalize v in
  let temp := smul3 axis (1 - c) in
  let r00 := c + x3 temp * x3 axis in
  let r01 := x3 temp * y3 axis + s * z3 axis in
  let r02 := x3 temp * z3 axis - s * y3 axis in
  let r10 := y3 temp * x3 axis - s * z3 axis in
  let r11 := c + y3 temp * y3 axis in
  let r12 := y3 temp * z3 axis + s * x3 axis in
  let r20 := z3 temp * x3 axis + s * y3 axis in
  let r21 := z3 temp * y3 axis - s * x3 axis in
  let r22 := c + z3 temp * z3 axis in
  Mat4
    (vadd (vadd (smul (col0 m) r00) (smul (col1 m) r01)) (smul (col2 m) r02))
    (vadd (vadd (smul (col0 m) r10) (smul (col1 m) r11)) (smul (col2 m) r12))
    (vadd (vadd (smul (col0 m) r20) (smul (col1 m) r21)) (smul (col2 m) r22))
    (col3 m).

(** The one-argument forms of [glm/gtx/transform.hpp] start from the
    identity matrix. *)
Definition translate (v : vec3) : mat4 := translate_m identity v.
Definition rotate (angle : float) (v : vec3) : mat4 := rotate_m identity angle v.
Definition scale (v : vec3) : mat4 := scale_m identity v.

(** [mat4 * vec4] *)
Definition mul_vec (m : mat4) (v : vec4) : vec4 :=
  vadd (vadd (smul (col0 m) (x v)) (smul (col1 m) (y v)))
       (vadd (smul (col2 m) (z v)) (smul (col3 m) (w v))).

(** [mat4 * mat4]: column [j] of the product is [a] applied to
    column [j] of [b]. *)
Definition mul_col (a : mat4) (b : vec4) : vec4 :=
  vadd (vadd (vadd (smul (col0 a) (x b)) (smul (col1 a) (y b)))
             (smul (col2 a) (z b)))
       (smul (col3 a) (w b)).

Definition mul (a b : mat4) : mat4 :=
  Mat4 (mul_col a (col0 b)) (mul_col a (col1 b))
       (mul_col a (col2 b)) (mul_col a (col3 b)).
End Ops.

End glm.

Declare Scope mat_scope.
Delimit Scope mat_scope with mat.
Infix "*" := glm.mul : mat_scope.

(** ** Data owned by the scene manager *)

(** Modelled from the spec: the declaration of [struct TEXTURE_INFO]
    is in SceneManager.h, which is not among the sources.  A texture
    entry is a tag and a GPU handle.  The code passes the address of
    [ID] to [glGenTextures], so [ID] is a GL texture name, an unsigned
    32-bit integer, kept here as its value in [0, 2^32). *)
Module TEXTURE_INFO.
Record t : Type := Build { tag : string; ID : Z }.
End TEXTURE_INFO.

(** Modelled from the spec: the declaration of [struct OBJECT_MATERIAL]
    is in SceneManager.h as well.  A material entry is a tag, three RGB
    colours and two scalars; the members are the six that
    [DefineObjectMaterials] assigns. *)
Module OBJECT_MATERIAL.
Record t : Type := Build {
  ambientColor : glm.vec3;
  ambientStrength : float;
  diffuseColor : glm.vec3;
  specularColor : glm.vec3;
  shininess : float;
  tag : string
}.
End OBJECT_MATERIAL.

(** A pointer to a collaborator is either NULL or points to it. *)
Inductive pointer : Type := NULL | NonNull.

(** Modelled from the spec: the data members of [class SceneManager]
    (declared in SceneManager.h), as the methods use them: a texture
    table of fixed capacity 16 with the number of loaded textures, and
    the sequence of material entries. *)
Record SceneManager : Type := {
  m_pShaderManager : pointer;
  m_basicMeshes : pointer;
  m_textureIDs : list TEXTURE_INFO.t;   (* TEXTURE_INFO m_textureIDs[16] *)
  m_loadedTextures : Z;
  m_objectMaterials : list OBJECT_MATERIAL.t
}.

(** The texture array has 16 slots ([for (int i = 0; i < 16; i++)]). *)
Definition texture_slots : Z := 16.

(** Conversions between [int] and the 32-bit unsigned texture name. *)
Definition uint32_of_int (i : Z) : Z := i mod 2 ^ 32.
Definition int_of_uint32 (u : Z) : Z := if u <? 2 ^ 31 then u else u - 2 ^ 32.

(** ** Collaborators: what the scene manager can observe and cause *)

Inductive mesh : Type :=
| PlaneMesh | BoxMesh | CylinderMesh | TaperedCylinderMesh
| SphereMesh | TorusMesh | PrismMesh.

(** A value handed to one of the shader manager's typed setters. *)
Inductive uniform : Type :=
| Mat4Value (m : glm.mat4)
| Vec4Value (v : glm.vec4)
| Vec3Value (v : glm.vec3)
| Vec2Value (v : glm.vec2)
| FloatValue (f : float)
| IntValue (i : Z)
| BoolValue (b : bool)
| Sampler2DValue (slot : Z).

(** What [std::cout] receives. *)
Inductive message : Type :=
| LoadedImage (filename : string) (width height channels : Z)
| UnhandledChannels (channels : Z)
| CouldNotLoad (filename : string).

(** Every call that leaves the scene manager, in the order it is made. *)
Inductive event : Type :=
| SetUniform (name : string) (v : uniform)
| LoadMesh (m : mesh)
| DrawMesh (m : mesh)
| DeleteMeshes
| StbiSetFlipVerticallyOnLoad (flag : bool)
| StbiLoad (filename : string)
| StbiImageFree
| GlGenTextures (name : Z)
| GlDeleteTextures (name : Z)
| GlBindTexture (target name : Z)
| GlActiveTexture (texture : Z)
| GlTexParameteri (target pname param : Z)
| GlTexImage2D (target internalformat width height format type : Z)
| GlGenerateMipmap (target : Z)
| Cout (m : message).

(** What [stbi_load] reports about a decoded file; the pixels are only
    passed on to GL. *)
Record image : Type := { width : Z; height : Z; colorChannels : Z }.

(** The world outside the object.
    - [decoder]: what [stbi_load] yields for each file name ([None] is
      the NULL result).
    - [gl_fresh], [gl_generated]: the names the GL driver hands out, and
      how many it has handed out.
    - [gl_active], [gl_bound]: the active texture unit and the 2D texture
      bound to each unit.
    - [indeterminate], [declared]: the contents found in the k-th local
      that is declared without an initialiser, and how many such locals
      have been declared. *)
Record World : Type := {
  decoder : string -> option image;
  gl_fresh : nat -> Z;
  gl_generated : nat;
  gl_active : Z;
  gl_bound : gmap Z Z;
  indeterminate : nat -> OBJECT_MATERIAL.t;
  declared : nat
}.

(** ** The monad: object state, world state, emitted calls, undefined
    behaviour

    A computation takes the object and the world and either has
    undefined behaviour or yields its value, the new object, the new
    world and the calls it made, oldest first. *)

Inductive Result (A : Type) : Type :=
| Ok (a : A)
| UB.
Arguments Ok {A} a.
Arguments UB {A}.

Definition M (A : Type) : Type :=
  SceneManager -> World -> Result (A * SceneManager * World * list event).

#[global] Instance M_ret : MRet M := fun A a this w => Ok (a, this, w, []).

#[global] Instance M_bind : MBind M := fun A B f c this w =>
  match c this w with
  | Ok (a, this1, w1, t1) =>
      match f a this1 w1 with
      | Ok (b, this2, w2, t2) => Ok (b, this2, w2, t1 ++ t2)
      | UB => UB
      end
  | UB => UB
  end.

Definition undefined {A : Type} : M A := fun _ _ => UB.

Definition get_this : M SceneManager := fun this w => Ok (this, this, w, []).
Definition put_this (this' : SceneManager) : M unit := fun _ w => Ok (tt, this', w, []).
Definition get_world : M World := fun this w => Ok (w, this, w, []).
Definition put_world (w' : World) : M unit := fun this _ => Ok (tt, this, w', []).

Definition emit (e : event) : M unit := fun this w => Ok (tt, this, w, [e]).

(** [for (int i = lo; i < lo + n; i++) body(i)], for a body that leaves
    the bound alone. *)
Fixpoint for_range (n : nat) (i : Z) (body : Z -> M unit) : M unit :=
  match n with
  | O => mret tt
  | S n' => body i ;; for_range n' (i + 1) body
  end.

(** *** The shader manager *)

(** [m_pShaderManager->setXValue(name, v)]: a call through NULL is
    undefined. *)
Definition m_pShaderManager_set (name : string) (v : uniform) : M unit :=
  this ← get_this;
  match m_pShaderManager this with
  | NULL => undefined
  | NonNull => emit (SetUniform name v)
  end.

(** *** The image decoder *)

Definition stbi_load (filename : string) : M (option image) :=
  emit (StbiLoad filename) ;;
  w ← get_world;
  mret (decoder w filename).

(** *** OpenGL *)

Definition GL_TEXTURE_2D : Z := 0x0DE1.
Definition GL_TEXTURE_WRAP_S : Z := 0x2802.
Definition GL_TEXTURE_WRAP_T : Z := 0x2803.
Definition GL_TEXTURE_MIN_FILTER : Z := 0x2801.
Definition GL_TEXTURE_MAG_FILTER : Z := 0x2800.
Definition GL_REPEAT : Z := 0x2901.
Definition GL_LINEAR : Z := 0x2601.
Definition GL_RGB : Z := 0x1907.
Definition GL_RGBA : Z := 0x1908.
Definition GL_RGB8 : Z := 0x8051.
Definition GL_RGBA8 : Z := 0x8058.
Definition GL_UNSIGNED_BYTE : Z := 0x1401.
Definition GL_TEXTURE0 : Z := 0x84C0.

(** [glGenTextures(1, &name)]: the driver picks the name. *)
Definition glGenTextures : M Z :=
  w ← get_world;
  let name := uint32_of_int (gl_fresh w (gl_generated w)) in
  put_world {| decoder := decoder w;
               gl_fresh := gl_fresh w; gl_generated := S (gl_generated w);
               gl_active := gl_active w; gl_bound := gl_bound w;
               indeterminate := indeterminate w; declared := declared w |} ;;
  emit (GlGenTextures name) ;;
  mret name.

(** [glActiveTexture(texture)] *)
Definition glActiveTexture (texture : Z) : M unit :=
  w ← get_world;
  put_world {| decoder := decoder w;
               gl_fresh := gl_fresh w; gl_generated := gl_generated w;
               gl_active := texture - GL_TEXTURE0; gl_bound := gl_bound w;
               indeterminate := indeterminate w; declared := declared w |} ;;
  emit (GlActiveTexture texture).

(** [glBindTexture(target, name)] binds on the active unit. *)
Definition glBindTexture (target name : Z) : M unit :=
  w ← get_world;
  put_world {| decoder := decoder w;
               gl_fresh := gl_fresh w; gl_generated := gl_generated w;
               gl_active := gl_active w;
               gl_bound := <[gl_active w := name]> (gl_bound w);
               indeterminate := indeterminate w; declared := declared w |} ;;
  emit (GlBindTexture target name).

(** The 2D texture bound to a unit; 0 (no texture) until one is bound. *)
Definition bound_texture (w : World) (unit : Z) : Z :=
  default 0 (gl_bound w !! unit).

(** *** Locals declared without an initialiser *)

(** [OBJECT_MATERIAL material;]: a local declared without an
    initialiser.  The string member is default-constructed (empty); the
    numeric members are what the sources treat as plain data, assigned
    member by member wherever a material is built or copied, so they hold
    whatever the storage held. *)
Definition declare_OBJECT_MATERIAL : M OBJECT_MATERIAL.t :=
  w ← get_world;
  let g := indeterminate w (declared w) in
  put_world {| decoder := decoder w;
               gl_fresh := gl_fresh w; gl_generated := gl_generated w;
               gl_active := gl_active w; gl_bound := gl_bound w;
               indeterminate := indeterminate w; declared := S (declared w) |} ;;
  mret {| OBJECT_MATERIAL.ambientColor := OBJECT_MATERIAL.ambientColor g;
          OBJECT_MATERIAL.ambientStrength := OBJECT_MATERIAL.ambientStrength g;
          OBJECT_MATERIAL.diffuseColor := OBJECT_MATERIAL.diffuseColor g;
          OBJECT_MATERIAL.specularColor := OBJECT_MATERIAL.specularColor g;
          OBJECT_MATERIAL.shininess := OBJECT_MATERIAL.shininess g;
          OBJECT_MATERIAL.tag := "" |}.

(** *** The texture array *)

(** Read [m_textureIDs[i]]. *)
Definition m_textureIDs_at (i : Z) : M TEXTURE_INFO.t :=
  this ← get_this;
  if (0 <=? i) && (i <? texture_slots) then
    match m_textureIDs this !! Z.to_nat i with
    | Some e => mret e
    | None => undefined
    end
  else undefined.

(** Write [m_textureIDs[i] = e]. *)
Definition m_textureIDs_set (i : Z) (e : TEXTURE_INFO.t) : M unit :=
  this ← get_this;
  if (0 <=? i) && (i <? texture_slots) && (i <? Z.of_nat (length (m_textureIDs this))) then
    put_this {| m_pShaderManager := m_pShaderManager this;
                m_basicMeshes := m_basicMeshes this;
                m_textureIDs := <[Z.to_nat i := e]> (m_textureIDs this);
                m_loadedTextures := m_loadedTextures this;
                m_objectMaterials := m_objectMaterials this |}
  else undefined.

Definition set_m_loadedTextures (n : Z) : M unit :=
  this ← get_this;
  put_this {| m_pShaderManager := m_pShaderManager this;
              m_basicMeshes := m_basicMeshes this;
              m_textureIDs := m_textureIDs this;
              m_loadedTextures := n;
              m_objectMaterials := m_objectMaterials this |}.

(** [m_objectMaterials.push_back(m)] *)
Definition m_objectMaterials_push_back (m : OBJECT_MATERIAL.t) : M unit :=
  this ← get_this;
  put_this {| m_pShaderManager := m_pShaderManager this;
              m_basicMeshes := m_basicMeshes this;
              m_textureIDs := m_textureIDs this;
              m_loadedTextures := m_loadedTextures this;
              m_objectMaterials := m_objectMaterials this ++ [m] |}.

(** ** The methods of [SceneManager] *)

Section Methods.
Local Open Scope string_scope.
Local Open Scope Z_scope.

(** Global names of the shader's uniforms. *)
Definition g_ModelName : string := "model".
Definition g_ColorValueName : string := "objectColor".
Definition g_TextureValueName : string := "objectTexture".
Definition g_UseTextureName : string := "bUseTexture".
Definition g_UseLightingName : string := "bUseLighting".

(** [SceneManager::SceneManager]: the loop stores the same entry,
    tag ["/0"] and ID [-1], in each of the 16 slots. *)
Definition SceneManager_ctor (pShaderManager : pointer) : SceneManager :=
  {| m_pShaderManager := pShaderManager;
     m_basicMeshes := NonNull;
     m_textureIDs :=
       replicate (Z.to_nat texture_slots)
                 (TEXTURE_INFO.Build "/0" (uint32_of_int (-1)));
     m_loadedTextures := 0;
     m_objectMaterials := [] |}.

(** [m_basicMeshes->...] *)
Definition m_basicMeshes_call (e : event) : M unit :=
  this ← get_this;
  match m_basicMeshes this with
  | NULL => undefined
  | NonNull => emit e
  end.

(** [SceneManager::CreateGLTexture] *)
Definition CreateGLTexture (filename tag : string) : M bool :=
  emit (StbiSetFlipVerticallyOnLoad true) ;;
  image ← stbi_load filename;
  match image with
  | Some img =>
      emit (Cout (LoadedImage filename (width img) (height img) (colorChannels img))) ;;
      textureID ← glGenTextures;
      glBindTexture GL_TEXTURE_2D textureID ;;
      emit (GlTexParameteri GL_TEXTURE_2D GL_TEXTURE_WRAP_S GL_REPEAT) ;;
      emit (GlTexParameteri GL_TEXTURE_2D GL_TEXTURE_WRAP_T GL_REPEAT) ;;
      emit (GlTexParameteri GL_TEXTURE_2D GL_TEXTURE_MIN_FILTER GL_LINEAR) ;;
      emit (GlTexParameteri GL_TEXTURE_2D GL_TEXTURE_MAG_FILTER GL_LINEAR) ;;
      let register : M bool :=
        emit (GlGenerateMipmap GL_TEXTURE_2D) ;;
        emit StbiImageFree ;;
        glBindTexture GL_TEXTURE_2D 0 ;;
        this ← get_this;
        e ← m_textureIDs_at (m_loadedTextures this);
        m_textureIDs_set (m_loadedTextures this)
          (TEXTURE_INFO.Build (TEXTURE_INFO.tag e) textureID) ;;
        e ← m_textureIDs_at (m_loadedTextures this);
        m_textureIDs_set (m_loadedTextures this)
          (TEXTURE_INFO.Build tag (TEXTURE_INFO.ID e)) ;;
        set_m_loadedTextures (m_loadedTextures this + 1) ;;
        mret true in
      if colorChannels img =? 3 then
        emit (GlTexImage2D GL_TEXTURE_2D GL_RGB8 (width img) (height img)
                           GL_RGB GL_UNSIGNED_BYTE) ;;
        register
      else if colorChannels img =? 4 then
        emit (GlTexImage2D GL_TEXTURE_2D GL_RGBA8 (width img) (height img)
                           GL_RGBA GL_UNSIGNED_BYTE) ;;
        register
      else
        emit (Cout (UnhandledChannels (colorChannels img))) ;;
        mret false
  | None =>
      emit (Cout (CouldNotLoad filename)) ;;
      mret false
  end.

(** [SceneManager::BindGLTextures] *)
Definition BindGLTextures : M unit :=
  this ← get_this;
  for_range (Z.to_nat (m_loadedTextures this)) 0 (fun i =>
    glActiveTexture (GL_TEXTURE0 + i) ;;
    e ← m_textureIDs_at i;
    glBindTexture GL_TEXTURE_2D (TEXTURE_INFO.ID e)).

(** [SceneManager::DestroyGLTextures] *)
Definition DestroyGLTextures : M unit :=
  this ← get_this;
  for_range (Z.to_nat (m_loadedTextures this)) 0 (fun i =>
    e ← m_textureIDs_at i;
    name ← glGenTextures;
    m_textureIDs_set i (TEXTURE_INFO.Build (TEXTURE_INFO.tag e) name)).

(** [SceneManager::~SceneManager]; [delete] of a NULL pointer does
    nothing. *)
Definition SceneManager_dtor : M unit :=
  this ← get_this;
  put_this {| m_pShaderManager := NULL;
              m_basicMeshes := m_basicMeshes this;
              m_textureIDs := m_textureIDs this;
              m_loadedTextures := m_loadedTextures this;
              m_objectMaterials := m_objectMaterials this |} ;;
  match m_basicMeshes this with
  | NULL => mret tt
  | NonNull => emit DeleteMeshes
  end ;;
  this ← get_this;
  put_this {| m_pShaderManager := m_pShaderManager this;
              m_basicMeshes := NULL;
              m_textureIDs := m_textureIDs this;
              m_loadedTextures := m_loadedTextures this;
              m_objectMaterials := m_objectMaterials this |} ;;
  DestroyGLTextures.

(** The [while] loop of [FindTextureID], with its three variables.
    [n] bounds the passes through the body that remain; the caller
    gives [m_loadedTextures], which is enough (see
    [FindTextureID_loop_spec]). *)
Fixpoint FindTextureID_loop (n : nat) (tag : string)
         (textureID index : Z) (bFound : bool) : M Z :=
  this ← get_this;
  if (index <? m_loadedTextures this) && negb bFound then
    match n with
    | O => mret textureID
    | S n' =>
        e ← m_textureIDs_at index;
        if String.eqb (TEXTURE_INFO.tag e) tag then
          FindTextureID_loop n' tag (int_of_uint32 (TEXTURE_INFO.ID e)) index true
        else
          FindTextureID_loop n' tag textureID (index + 1) bFound
    end
  else mret textureID.

(** [SceneManager::FindTextureID] *)
Definition FindTextureID (tag : string) : M Z :=
  this ← get_this;
  FindTextureID_loop (Z.to_nat (m_loadedTextures this)) tag (-1) 0 false.

Fixpoint FindTextureSlot_loop (n : nat) (tag : string)
         (textureSlot index : Z) (bFound : bool) : M Z :=
  this ← get_this;
  if (index <? m_loadedTextures this) && negb bFound then
    match n with
    | O => mret textureSlot
    | S n' =>
        e ← m_textureIDs_at index;
        if String.eqb (TEXTURE_INFO.tag e) tag then
          FindTextureSlot_loop n' tag index index true
        else
          FindTextureSlot_loop n' tag textureSlot (index + 1) bFound
    end
  else mret textureSlot.

(** [SceneManager::FindTextureSlot] *)
Definition FindTextureSlot (tag : string) : M Z :=
  this ← get_this;
  FindTextureSlot_loop (Z.to_nat (m_loadedTextures this)) tag (-1) 0 false.

(** The [while] loop of [FindMaterial]; it returns the out-parameter. *)
Fixpoint FindMaterial_loop (n : nat) (tag : string)
         (material : OBJECT_MATERIAL.t) (index : Z) (bFound : bool)
  : M OBJECT_MATERIAL.t :=
  this ← get_this;
  if (index <? Z.of_nat (length (m_objectMaterials this))) && negb bFound then
    match n with
    | O => mret material
    | S n' =>
        match m_objectMaterials this !! Z.to_nat index with
        | None => undefined
        | Some e =>
            if String.eqb (OBJECT_MATERIAL.tag e) tag then
              FindMaterial_loop n' tag
                {| OBJECT_MATERIAL.ambientColor := OBJECT_MATERIAL.ambientColor e;
                   OBJECT_MATERIAL.ambientStrength := OBJECT_MATERIAL.ambientStrength e;
                   OBJECT_MATERIAL.diffuseColor := OBJECT_MATERIAL.diffuseColor e;
                   OBJECT_MATERIAL.specularColor := OBJECT_MATERIAL.specularColor e;
                   OBJECT_MATERIAL.shininess := OBJECT_MATERIAL.shininess e;
                   OBJECT_MATERIAL.tag := OBJECT_MATERIAL.tag material |}
                index true
            else
              FindMaterial_loop n' tag material (index + 1) bFound
        end
    end
  else mret material.

(** [SceneManager::FindMaterial]: the result pairs the returned flag
    with the out-parameter [material] as the call leaves it. *)
Definition FindMaterial (tag : string) (material : OBJECT_MATERIAL.t)
  : M (bool * OBJECT_MATERIAL.t) :=
  this ← get_this;
  if Z.of_nat (length (m_objectMaterials this)) =? 0 then
    mret (false, material)
  else
    material' ← FindMaterial_loop (length (m_objectMaterials this)) tag material 0 false;
    mret (true, material').

(** The matrix [SetTransformations] computes in [modelView]. *)
Definition modelView (scaleXYZ : glm.vec3)
           (XrotationDegrees YrotationDegrees ZrotationDegrees : float)
           (positionXYZ : glm.vec3) : glm.mat4 :=
  let scale := glm.scale scaleXYZ in
  let rotationX := glm.rotate (glm.radians XrotationDegrees) (glm.Vec3 1 0 0) in
  let rotationY := glm.rotate (glm.radians YrotationDegrees) (glm.Vec3 0 1 0) in
  let rotationZ := glm.rotate (glm.radians ZrotationDegrees) (glm.Vec3 0 0 1) in
  let translation := glm.translate positionXYZ in
  (translation * rotationX * rotationY * rotationZ * scale)%mat.

(** [SceneManager::SetTransformations] *)
Definition SetTransformations (scaleXYZ : glm.vec3)
           (XrotationDegrees YrotationDegrees ZrotationDegrees : float)
           (positionXYZ : glm.vec3) : M unit :=
  this ← get_this;
  match m_pShaderManager this with
  | NULL => mret tt
  | NonNull =>
      m_pShaderManager_set g_ModelName
        (Mat4Value (modelView scaleXYZ XrotationDegrees YrotationDegrees
                              ZrotationDegrees positionXYZ))
  end.

(** [SceneManager::SetShaderColor] *)
Definition SetShaderColor
           (redColorValue greenColorValue blueColorValue alphaValue : float) : M unit :=
  let currentColor :=
    glm.Vec4 redColorValue greenColorValue blueColorValue alphaValue in
  this ← get_this;
  match m_pShaderManager this with
  | NULL => mret tt
  | NonNull =>
      m_pShaderManager_set g_UseTextureName (IntValue 0) ;;
      m_pShaderManager_set g_ColorValueName (Vec4Value currentColor)
  end.

(** [SceneManager::SetShaderTexture] *)
Definition SetShaderTexture (textureTag : string) : M unit :=
  this ← get_this;
  match m_pShaderManager this with
  | NULL => mret tt
  | NonNull =>
      m_pShaderManager_set g_UseTextureName (IntValue 1) ;;
      textureID ← FindTextureSlot textureTag;
      m_pShaderManager_set g_TextureValueName (Sampler2DValue textureID)
  end.

(** [SceneManager::SetTextureUVScale] *)
Definition SetTextureUVScale (u v : float) : M unit :=
  this ← get_this;
  match m_pShaderManager this with
  | NULL => mret tt
  | NonNull => m_pShaderManager_set "UVscale" (Vec2Value (glm.Vec2 u v))
  end.

(** [SceneManager::SetShaderMaterial] *)
Definition SetShaderMaterial (materialTag : string) : M unit :=
  this ← get_this;
  if Z.of_nat (length (m_objectMaterials this)) >? 0 then
    material ← declare_OBJECT_MATERIAL;
    '(bReturn, material) ← FindMaterial materialTag material;
    if (bReturn : bool) then
      m_pShaderManager_set "material.ambientColor"
        (Vec3Value (OBJECT_MATERIAL.ambientColor material)) ;;
      m_pShaderManager_set "material.ambientStrength"
        (FloatValue (OBJECT_MATERIAL.ambientStrength material)) ;;
      m_pShaderManager_set "material.diffuseColor"
        (Vec3Value (OBJECT_MATERIAL.diffuseColor material)) ;;
      m_pShaderManager_set "material.specularColor"
        (Vec3Value (OBJECT_MATERIAL.specularColor material)) ;;
      m_pShaderManager_set "material.shininess"
        (FloatValue (OBJECT_MATERIAL.shininess material))
    else mret tt
  else mret tt.

End Methods.

(** ** The scene: setup and the render script *)

Section Scene.
Local Open Scope string_scope.
Local Open Scope R_scope.

(** [SceneManager::LoadSceneTextures]; each result is stored in
    [bReturn] and not looked at. *)
Definition LoadSceneTextures : M unit :=
  let bReturn := false in
  bReturn ← CreateGLTexture "textures/plastic_dark_seamless.jpg" "plastic";
  bReturn ← CreateGLTexture "textures/wood_knots_seamlessr.jpg" "wood";
  bReturn ← CreateGLTexture "textures/greywall.jpg" "wall";
  bReturn ← CreateGLTexture "textures/rubber_circles_seamless.jpg" "pad";
  bReturn ← CreateGLTexture "textures/screen_wallpaper_2.jpg" "pad2";
  bReturn ← CreateGLTexture "textures/PCscreen.jpg" "screen";
  bReturn ← CreateGLTexture "textures/blackmetal.jpg" "metal";
  bReturn ← CreateGLTexture "textures/motherboard.jpg" "mb";
  bReturn ← CreateGLTexture "textures/Riolu.jpg" "PKMN";
  bReturn ← CreateGLTexture "textures/rainbowFade.jpg" "rgb";
  bReturn ← CreateGLTexture "textures/motherboardback.jpeg" "mbb";
  bReturn ← CreateGLTexture "textures/blue.jpg" "blue";
  bReturn ← CreateGLTexture "textures/pink.jpg" "pink";
  bReturn ← CreateGLTexture "textures/Keyboardtop.jpg" "keyboard";
  bReturn ← CreateGLTexture "textures/RAMside.jpg" "ram";
  bReturn ← CreateGLTexture "textures/blackplasticmaterial.jpg" "blackpl";
  BindGLTextures.

(** [SceneManager::DefineObjectMaterials]; [glassMaterial] is filled
    in like the others and no [push_back] follows it. *)
Definition DefineObjectMaterials : M unit :=
  let goldMaterial :=
    {| OBJECT_MATERIAL.ambientColor := glm.Vec3 0.2 0.2 0.2;
       OBJECT_MATERIAL.ambientStrength := 0.3;
       OBJECT_MATERIAL.diffuseColor := glm.Vec3 0.2 0.2 0.2;
       OBJECT_MATERIAL.specularColor := glm.Vec3 0.5 0.5 0.5;
       OBJECT_MATERIAL.shininess := 25;
       OBJECT_MATERIAL.tag := "metal" |} in
  m_objectMaterials_push_back goldMaterial ;;
  let woodMaterial :=
    {| OBJECT_MATERIAL.ambientColor := glm.Vec3 0.1 0.1 0.1;
       OBJECT_MATERIAL.ambientStrength := 0.2;
       OBJECT_MATERIAL.diffuseColor := glm.Vec3 0.3 0.3 0.3;
       OBJECT_MATERIAL.specularColor := glm.Vec3 0.1 0.1 0.1;
       OBJECT_MATERIAL.shininess := 0.3;
       OBJECT_MATERIAL.tag := "wood" |} in
  m_objectMaterials_push_back woodMaterial ;;
  let glassMaterial :=
    {| OBJECT_MATERIAL.ambientColor := glm.Vec3 0.4 0.4 0.4;
       OBJECT_MATERIAL.ambientStrength := 0.3;
       OBJECT_MATERIAL.diffuseColor := glm.Vec3 0.3 0.3 0.3;
       OBJECT_MATERIAL.specularColor := glm.Vec3 0.6 0.6 0.6;
       OBJECT_MATERIAL.shininess := 85;
       OBJECT_MATERIAL.tag := "glass" |} in
  let wallMaterial :=
    {| OBJECT_MATERIAL.ambientColor := glm.Vec3 0.1 0.1 0.1;
       OBJECT_MATERIAL.ambientStrength := 0.2;
       OBJECT_MATERIAL.diffuseColor := glm.Vec3 0.5 0.5 0.5;
       OBJECT_MATERIAL.specularColor := glm.Vec3 0.1 0.1 0.1;
       OBJECT_MATERIAL.shininess := 0;
       OBJECT_MATERIAL.tag := "walls" |} in
  m_objectMaterials_push_back wallMaterial ;;
  let grapeMaterial :=
    {| OBJECT_MATERIAL.ambientColor := glm.Vec3 0.1 0.1 0.1;
       OBJECT_MATERIAL.ambientStrength := 0.1;
       OBJECT_MATERIAL.diffuseColor := glm.Vec3 0.3 0.2 0.3;
       OBJECT_MATERIAL.specularColor := glm.Vec3 0.4 0.2 0.2;
       OBJECT_MATERIAL.shininess := 0.5;
       OBJECT_MATERIAL.tag := "plastic" |} in
  m_objectMaterials_push_back grapeMaterial.

(** [SceneManager::SetupSceneLights] *)
Definition SetupSceneLights : M unit :=
  m_pShaderManager_set g_UseLightingName (BoolValue true) ;;
  m_pShaderManager_set "lightSources[0].position" (Vec3Value (glm.Vec3 13.5 15.79 1.9)) ;;
  m_pShaderManager_set "lightSources[0].ambientColor" (Vec3Value (glm.Vec3 0.2 0.2 0.2)) ;;
  m_pShaderManager_set "lightSources[0].diffuseColor" (Vec3Value (glm.Vec3 0.949 0.184 0.863)) ;;
  m_pShaderManager_set "lightSources[0].specularColor" (Vec3Value (glm.Vec3 0.949 0.184 0.863)) ;;
  m_pShaderManager_set "lightSources[0].focalStrength" (FloatValue 1) ;;
  m_pShaderManager_set "lightSources[0].specularIntensity" (FloatValue 15) ;;
  m_pShaderManager_set "lightSources[1].position" (Vec3Value (glm.Vec3 (-13.5) 15.79 1.9)) ;;
  m_pShaderManager_set "lightSources[1].ambientColor" (Vec3Value (glm.Vec3 0.2 0.2 0.2)) ;;
  m_pShaderManager_set "lightSources[1].diffuseColor" (Vec3Value (glm.Vec3 0.949 0.184 0.863)) ;;
  m_pShaderManager_set "lightSources[1].specularColor" (Vec3Value (glm.Vec3 0.949 0.184 0.863)) ;;
  m_pShaderManager_set "lightSources[1].focalStrength" (FloatValue 1) ;;
  m_pShaderManager_set "lightSources[1].specularIntensity" (FloatValue 15) ;;
  m_pShaderManager_set "lightSources[2].position" (Vec3Value (glm.Vec3 0 3 20)) ;;
  m_pShaderManager_set "lightSources[2].ambientColor" (Vec3Value (glm.Vec3 0.2 0.2 0.2)) ;;
  m_pShaderManager_set "lightSources[2].diffuseColor" (Vec3Value (glm.Vec3 0.8 0.8 0.8)) ;;
  m_pShaderManager_set "lightSources[2].specularColor" (Vec3Value (glm.Vec3 0 0 0)) ;;
  m_pShaderManager_set "lightSources[2].focalStrength" (FloatValue 12) ;;
  m_pShaderManager_set "lightSources[2].specularIntensity" (FloatValue 0.2).

(** [SceneManager::PrepareScene] *)
Definition PrepareScene : M unit :=
  LoadSceneTextures ;;
  DefineObjectMaterials ;;
  SetupSceneLights ;;
  m_basicMeshes_call (LoadMesh PlaneMesh) ;;
  m_basicMeshes_call (LoadMesh BoxMesh) ;;
  m_basicMeshes_call (LoadMesh TaperedCylinderMesh) ;;
  m_basicMeshes_call (LoadMesh SphereMesh) ;;
  m_basicMeshes_call (LoadMesh CylinderMesh) ;;
  m_basicMeshes_call (LoadMesh TorusMesh) ;;
  m_basicMeshes_call (LoadMesh PrismMesh).

(** [SceneManager::RenderDeskandwalls] *)
Definition RenderDeskandwalls : M unit :=
  let XrotationDegrees : float := 0 in
  let YrotationDegrees : float := 0 in
  let ZrotationDegrees : float := 0 in
  let scaleXYZ : glm.vec3 := glm.Vec3 20 1 10 in
  let XrotationDegrees : float := 90 in
  let YrotationDegrees : float := 0 in
  let ZrotationDegrees : float := 0 in
  let positionXYZ : glm.vec3 := glm.Vec3 0 10 (-10) in
  SetTransformations scaleXYZ XrotationDegrees YrotationDegrees ZrotationDegrees positionXYZ ;;
  SetShaderTexture "wall" ;;
  SetTextureUVScale 1 1 ;;
  SetShaderMaterial "walls" ;;
  m_basicMeshes_call (DrawMesh PlaneMesh) ;;
  let scaleXYZ : glm.vec3 := glm.Vec3 10 1 10 in
  let XrotationDegrees : float := 0 in
  let YrotationDegrees : float := 0 in
  let ZrotationDegrees : float := 90 in
  let positionXYZ : glm.vec3 := glm.Vec3 20 10 0 in
  SetTransformations scaleXYZ XrotationDegrees YrotationDegrees ZrotationDegrees positionXYZ ;;
  SetShaderTexture "wall" ;;
  SetTextureUVScale 1 1 ;;
  SetShaderMaterial "walls" ;;
  m_basicMeshes_call (DrawMesh PlaneMesh) ;;
  let scaleXYZ : glm.vec3 := glm.Vec3 20 1 10 in
  let XrotationDegrees : float := 0 in
  let YrotationDegrees : float := 0 in
  let ZrotationDegrees : float := 0 in
  let positionXYZ : glm.vec3 := glm.Vec3 0 0 0 in
  SetTransformations scaleXYZ XrotationDegrees YrotationDegrees ZrotationDegrees positionXYZ ;;
  SetShaderTexture "wood" ;;
  SetTextureUVScale 1 1 ;;
  SetShaderMaterial "wood" ;;
  m_basicMeshes_call (DrawMesh PlaneMesh).

(** [SceneManager::RenderKeyboardandmat] *)
Definition RenderKeyboardandmat : M unit :=
  let XrotationDegrees : float := 0 in
  let YrotationDegrees : float := 0 in
  let ZrotationDegrees : float := 0 in
  let scaleXYZ : glm.vec3 := glm.Vec3 31 0.1 10 in
  let XrotationDegrees : float := 0 in
  let YrotationDegrees : float := 0 in
  let ZrotationDegrees : float := 0 in
  let positionXYZ : glm.vec3 := glm.Vec3 (-4) 0.1 4.5 in
  SetTransformations scaleXYZ XrotationDegrees YrotationDegrees ZrotationDegrees positionXYZ ;;
  SetShaderTexture "pad" ;;
  SetTextureUVScale 1 1 ;;
  SetShaderTexture "pad2" ;;
  SetTextureUVScale 1 1 ;;
  m_basicMeshes_call (DrawMesh BoxMesh) ;;
  let scaleXYZ : glm.vec3 := glm.Vec3 14 0.5 5 in
  let XrotationDegrees : float := 0 in
  let YrotationDegrees : float := 0 in
  let ZrotationDegrees : float := 0 in
  let positionXYZ : glm.vec3 := glm.Vec3 (-8) 0.3 4.5 in
  SetTransformations scaleXYZ XrotationDegrees YrotationDegrees ZrotationDegrees positionXYZ ;;
  SetShaderTexture "keyboard" ;;
  SetTextureUVScale 1 1 ;;
  SetShaderMaterial "plastic" ;;
  m_basicMeshes_call (DrawMesh BoxMesh) ;;
  let scaleXYZ : glm.vec3 := glm.Vec3 1 14 0.5 in
  let XrotationDegrees : float := 90 in
  let YrotationDegrees : float := 180 in
  let ZrotationDegrees : float := 90 in
  let positionXYZ : glm.vec3 := glm.Vec3 (-8) 0.3 7 in
  SetTransformations scaleXYZ XrotationDegrees YrotationDegrees ZrotationDegrees positionXYZ ;;
  SetShaderTexture "plastic" ;;
  SetTextureUVScale 1 1 ;;
  SetShaderMaterial "plastic" ;;
  m_basicMeshes_call (DrawMesh PrismMesh) ;;
  let scaleXYZ : glm.vec3 := glm.Vec3 14.01 0.49 5.01 in
  let XrotationDegrees : float := 0 in
  let YrotationDegrees : float := 0 in
  let ZrotationDegrees : float := 0 in
  let positionXYZ : glm.vec3 := glm.Vec3 (-8) 0.3 4.5 in
  SetTransformations scaleXYZ XrotationDegrees YrotationDegrees ZrotationDegrees positionXYZ ;;
  SetShaderTexture "plastic" ;;
  SetTextureUVScale 1 1 ;;
  SetShaderMaterial "plastic" ;;
  m_basicMeshes_call (DrawMesh BoxMesh).

(** [SceneManager::RenderMouse] *)
Definition RenderMouse : M unit :=
  let XrotationDegrees : float := 0 in
  let YrotationDegrees : float := 0 in
  let ZrotationDegrees : float := 0 in
  let scaleXYZ : glm.vec3 := glm.Vec3 1 0.3 2 in
  let XrotationDegrees : float := 0 in
  let YrotationDegrees : float := 0 in
  let ZrotationDegrees : float := 0 in
  let positionXYZ : glm.vec3 := glm.Vec3 2 0.2 4.5 in
  SetTransformations scaleXYZ XrotationDegrees YrotationDegrees ZrotationDegrees positionXYZ ;;
  SetShaderTexture "blackpl" ;;
  SetTextureUVScale 1 1 ;;
  SetShaderMaterial "plastic" ;;
  m_basicMeshes_call (DrawMesh CylinderMesh) ;;
  let scaleXYZ : glm.vec3 := glm.Vec3 1 0.5 2 in
  let XrotationDegrees : float := 0 in
  let YrotationDegrees : float := 0 in
  let ZrotationDegrees : float := 0 in
  let positionXYZ : glm.vec3 := glm.Vec3 2 0.5 4.5 in
  SetTransformations scaleXYZ XrotationDegrees YrotationDegrees ZrotationDegrees positionXYZ ;;
  SetShaderTexture "blackpl" ;;
  SetTextureUVScale 1 1 ;;
  SetShaderMaterial "plastic" ;;
  m_basicMeshes_call (DrawMesh SphereMesh) ;;
  let scaleXYZ : glm.vec3 := glm.Vec3 0.35 0.35 0.35 in
  let XrotationDegrees : float := 0 in
  let YrotationDegrees : float := 90 in
  let ZrotationDegrees : float := 0 in
  let positionXYZ : glm.vec3 := glm.Vec3 2 0.67 3.7 in
  SetTransformations scaleXYZ XrotationDegrees YrotationDegrees ZrotationDegrees positionXYZ ;;
  SetShaderColor 0.071 0.071 0.071 1 ;;
  m_basicMeshes_call (DrawMesh TorusMesh) ;;
  let scaleXYZ : glm.vec3 := glm.Vec3 0.15 0.15 0.15 in
  let XrotationDegrees : float := 180 in
  let YrotationDegrees : float := 0 in
  let ZrotationDegrees : float := 0 in
  let positionXYZ : glm.vec3 := glm.Vec3 2 0.95 4.2 in
  SetTransformations scaleXYZ XrotationDegrees YrotationDegrees ZrotationDegrees positionXYZ ;;
  SetShaderColor 0.071 0.071 0.071 1 ;;
  m_basicMeshes_call (DrawMesh BoxMesh) ;;
  let scaleXYZ : glm.vec3 := glm.Vec3 0.15 0.3 0.15 in
  let XrotationDegrees : float := 90 in
  let YrotationDegrees : float := 0 in
  let ZrotationDegrees : float := 0 in
  let positionXYZ : glm.vec3 := glm.Vec3 1.15 0.7 4.9 in
  SetTransformations scaleXYZ XrotationDegrees YrotationDegrees ZrotationDegrees positionXYZ ;;
  SetShaderColor 0.071 0.071 0.071 1 ;;
  m_basicMeshes_call (DrawMesh BoxMesh) ;;
  let scaleXYZ : glm.vec3 := glm.Vec3 0.15 0.3 0.15 in
  let XrotationDegrees : float := 90 in
  let YrotationDegrees : float := 0 in
  let ZrotationDegrees : float := 0 in
  let positionXYZ : glm.vec3 := glm.Vec3 1.14 0.7 4.5 in
  SetTransformations scaleXYZ XrotationDegrees YrotationDegrees ZrotationDegrees positionXYZ ;;
  SetShaderColor 0.071 0.071 0.071 1 ;;
  m_basicMeshes_call (DrawMesh BoxMesh) ;;
  let scaleXYZ : glm.vec3 := glm.Vec3 1 1.8 0.5 in
  let XrotationDegrees : float := 90 in
  let YrotationDegrees : float := 0 in
  let ZrotationDegrees : float := 0 in
  let positionXYZ : glm.vec3 := glm.Vec3 2 0.1 4.5 in
  SetTransformations scaleXYZ XrotationDegrees YrotationDegrees ZrotationDegrees positionXYZ ;;
  SetShaderColor 0.949 0.184 0.863 1 ;;
  m_basicMeshes_call (DrawMesh TorusMesh).

(** [SceneManager::RenderMonitor] *)
Definition RenderMonitor : M unit :=
  let XrotationDegrees : float := 0 in
  let YrotationDegrees : float := 0 in
  let ZrotationDegrees : float := 0 in
  let scaleXYZ : glm.vec3 := glm.Vec3 9 0.5 5 in
  let XrotationDegrees : float := 0 in
  let YrotationDegrees : float := 180 in
  let ZrotationDegrees : float := 0 in
  let positionXYZ : glm.vec3 := glm.Vec3 (-4) 0.3 (-3.5) in
  SetTransformations scaleXYZ XrotationDegrees YrotationDegrees ZrotationDegrees positionXYZ ;;
  SetShaderTexture "plastic" ;;
  SetTextureUVScale 1 1 ;;
  SetShaderMaterial "plastic" ;;
  m_basicMeshes_call (DrawMesh PrismMesh) ;;
  let scaleXYZ : glm.vec3 := glm.Vec3 1.15 6.3 1.15 in
  let XrotationDegrees : float := 0 in
  let YrotationDegrees : float := 45 in
  let ZrotationDegrees : float := 0 in
  let positionXYZ : glm.vec3 := glm.Vec3 (-4) 3.3 (-3.5) in
  SetTransformations scaleXYZ XrotationDegrees YrotationDegrees ZrotationDegrees positionXYZ ;;
  SetShaderTexture "plastic" ;;
  SetTextureUVScale 1 1 ;;
  SetShaderMaterial "plastic" ;;
  m_basicMeshes_call (DrawMesh BoxMesh) ;;
  let scaleXYZ : glm.vec3 := glm.Vec3 1 1 0.85 in
  let XrotationDegrees : float := 0 in
  let YrotationDegrees : float := 0 in
  let ZrotationDegrees : float := 0 in
  let positionXYZ : glm.vec3 := glm.Vec3 (-4) 5.95 (-2.85) in
  SetTransformations scaleXYZ XrotationDegrees YrotationDegrees ZrotationDegrees positionXYZ ;;
  SetShaderTexture "plastic" ;;
  SetTextureUVScale 1 1 ;;
  SetShaderMaterial "plastic" ;;
  m_basicMeshes_call (DrawMesh BoxMesh) ;;
  let scaleXYZ : glm.vec3 := glm.Vec3 12 0.1 6 in
  let XrotationDegrees : float := 90 in
  let YrotationDegrees : float := 0 in
  let ZrotationDegrees : float := 0 in
  let positionXYZ : glm.vec3 := glm.Vec3 (-4) 5.95 (-2.223) in
  SetTransformations scaleXYZ XrotationDegrees YrotationDegrees ZrotationDegrees positionXYZ ;;
  SetShaderTexture "screen" ;;
  SetTextureUVScale 1 1 ;;
  SetShaderMaterial "metal" ;;
  m_basicMeshes_call (DrawMesh BoxMesh) ;;
  let scaleXYZ : glm.vec3 := glm.Vec3 12.25 0.25 6.25 in
  let XrotationDegrees : float := 90 in
  let YrotationDegrees : float := 0 in
  let ZrotationDegrees : float := 0 in
  let positionXYZ : glm.vec3 := glm.Vec3 (-4) 5.95 (-2.3) in
  SetTransformations scaleXYZ XrotationDegrees YrotationDegrees ZrotationDegrees positionXYZ ;;
  SetShaderTexture "plastic" ;;
  SetTextureUVScale 1 1 ;;
  SetShaderMaterial "plastic" ;;
  m_basicMeshes_call (DrawMesh BoxMesh).

(** [SceneManager::RenderPCexterior] *)
Definition RenderPCexterior : M unit :=
  let XrotationDegrees : float := 0 in
  let YrotationDegrees : float := 0 in
  let ZrotationDegrees : float := 0 in
  let scaleXYZ : glm.vec3 := glm.Vec3 0.15 0.63 0.5 in
  let XrotationDegrees : float := 0 in
  let YrotationDegrees : float := 0 in
  let ZrotationDegrees : float := 0 in
  let positionXYZ : glm.vec3 := glm.Vec3 11 0.1 8.5 in
  SetTransformations scaleXYZ XrotationDegrees YrotationDegrees ZrotationDegrees positionXYZ ;;
  SetShaderColor 0.071 0.071 0.071 1 ;;
  SetShaderMaterial "plastic" ;;
  m_basicMeshes_call (DrawMesh CylinderMesh) ;;
  let scaleXYZ : glm.vec3 := glm.Vec3 0.15 0.63 0.5 in
  let XrotationDegrees : float := 0 in
  let YrotationDegrees : float := 0 in
  let ZrotationDegrees : float := 0 in
  let positionXYZ : glm.vec3 := glm.Vec3 11 0 (-4.5) in
  SetTransformations scaleXYZ XrotationDegrees YrotationDegrees ZrotationDegrees positionXYZ ;;
  SetShaderColor 0.071 0.071 0.071 1 ;;
  SetShaderMaterial "plastic" ;;
  m_basicMeshes_call (DrawMesh CylinderMesh) ;;
  let scaleXYZ : glm.vec3 := glm.Vec3 0.15 0.63 0.5 in
  let XrotationDegrees : float := 0 in
  let YrotationDegrees : float := 0 in
  let ZrotationDegrees : float := 0 in
  let positionXYZ : glm.vec3 := glm.Vec3 16 0 8.5 in
  SetTransformations scaleXYZ XrotationDegrees YrotationDegrees ZrotationDegrees positionXYZ ;;
  SetShaderColor 0.071 0.071 0.071 1 ;;
  SetShaderMaterial "plastic" ;;
  m_basicMeshes_call (DrawMesh CylinderMesh) ;;
  let scaleXYZ : glm.vec3 := glm.Vec3 0.15 0.63 0.5 in
  let XrotationDegrees : float := 0 in
  let YrotationDegrees : float := 0 in
  let ZrotationDegrees : float := 0 in
  let positionXYZ : glm.vec3 := glm.Vec3 16 0 (-4.5) in
  SetTransformations scaleXYZ XrotationDegrees YrotationDegrees ZrotationDegrees positionXYZ ;;
  SetShaderColor 0.071 0.071 0.071 1 ;;
  SetShaderMaterial "plastic" ;;
  m_basicMeshes_call (DrawMesh CylinderMesh) ;;
  let scaleXYZ : glm.vec3 := glm.Vec3 6 0.3 14.8 in
  let XrotationDegrees : float := 0 in
  let YrotationDegrees : float := 0 in
  let ZrotationDegrees : float := 0 in
  let positionXYZ : glm.vec3 := glm.Vec3 13.5 0.71 1.9 in
  SetTransformations scaleXYZ XrotationDegrees YrotationDegrees ZrotationDegrees positionXYZ ;;
  SetShaderTexture "metal" ;;
  SetTextureUVScale 1 1 ;;
  SetShaderMaterial "metal" ;;
  m_basicMeshes_call (DrawMesh BoxMesh) ;;
  let scaleXYZ : glm.vec3 := glm.Vec3 6 0.3 14.8 in
  let XrotationDegrees : float := 0 in
  let YrotationDegrees : float := 0 in
  let ZrotationDegrees : float := 0 in
  let positionXYZ : glm.vec3 := glm.Vec3 13.5 10.79 1.9 in
  SetTransformations scaleXYZ XrotationDegrees YrotationDegrees ZrotationDegrees positionXYZ ;;
  SetShaderTexture "metal" ;;
  SetTextureUVScale 1 1 ;;
  SetShaderMaterial "metal" ;;
  m_basicMeshes_call (DrawMesh BoxMesh) ;;
  let scaleXYZ : glm.vec3 := glm.Vec3 6 0.3 9.8 in
  let XrotationDegrees : float := 90 in
  let YrotationDegrees : float := 0 in
  let ZrotationDegrees : float := 0 in
  let positionXYZ : glm.vec3 := glm.Vec3 13.5 5.75 (-5.349) in
  SetTransformations scaleXYZ XrotationDegrees YrotationDegrees ZrotationDegrees positionXYZ ;;
  SetShaderTexture "metal" ;;
  SetTextureUVScale 1 1 ;;
  SetShaderMaterial "metal" ;;
  m_basicMeshes_call (DrawMesh BoxMesh) ;;
  let scaleXYZ : glm.vec3 := glm.Vec3 14.5 0.3 9.8 in
  let XrotationDegrees : float := 90 in
  let YrotationDegrees : float := 0 in
  let ZrotationDegrees : float := 90 in
  let positionXYZ : glm.vec3 := glm.Vec3 16.35 5.75 2.05 in
  SetTransformations scaleXYZ XrotationDegrees YrotationDegrees ZrotationDegrees positionXYZ ;;
  SetShaderTexture "metal" ;;
  SetTextureUVScale 1 1 ;;
  SetShaderMaterial "metal" ;;
  m_basicMeshes_call (DrawMesh BoxMesh) ;;
  let scaleXYZ : glm.vec3 := glm.Vec3 7.25 0.25 7.25 in
  let XrotationDegrees : float := 90 in
  let YrotationDegrees : float := 0 in
  let ZrotationDegrees : float := 90 in
  let positionXYZ : glm.vec3 := glm.Vec3 16.3 6.3 (-1.55) in
  SetTransformations scaleXYZ XrotationDegrees YrotationDegrees ZrotationDegrees positionXYZ ;;
  SetShaderTexture "mb" ;;
  SetTextureUVScale 1 1 ;;
  SetShaderMaterial "metal" ;;
  m_basicMeshes_call (DrawMesh BoxMesh) ;;
  let scaleXYZ : glm.vec3 := glm.Vec3 5.404 0.3 9.8 in
  let XrotationDegrees : float := 90 in
  let YrotationDegrees : float := 0 in
  let ZrotationDegrees : float := 0 in
  let positionXYZ : glm.vec3 := glm.Vec3 13.5 5.75 8.649 in
  SetTransformations scaleXYZ XrotationDegrees YrotationDegrees ZrotationDegrees positionXYZ ;;
  SetShaderTexture "metal" ;;
  SetTextureUVScale 1 1 ;;
  SetShaderMaterial "metal" ;;
  m_basicMeshes_call (DrawMesh BoxMesh).

(** [SceneManager::RenderPCinterior] *)
Definition RenderPCinterior : M unit :=
  let XrotationDegrees : float := 0 in
  let YrotationDegrees : float := 0 in
  let ZrotationDegrees : float := 0 in
  let scaleXYZ : glm.vec3 := glm.Vec3 1.3 1.3 1.3 in
  let XrotationDegrees : float := 0 in
  let YrotationDegrees : float := 0 in
  let ZrotationDegrees : float := 90 in
  let positionXYZ : glm.vec3 := glm.Vec3 16.3 7.4 (-1.7) in
  SetTransformations scaleXYZ XrotationDegrees YrotationDegrees ZrotationDegrees positionXYZ ;;
  SetShaderTexture "plastic" ;;
  SetTextureUVScale 1 1 ;;
  SetShaderMaterial "plastic" ;;
  m_basicMeshes_call (DrawMesh CylinderMesh) ;;
  let scaleXYZ : glm.vec3 := glm.Vec3 1 1 1 in
  let XrotationDegrees : float := 0 in
  let YrotationDegrees : float := 0 in
  let ZrotationDegrees : float := 90 in
  let positionXYZ : glm.vec3 := glm.Vec3 15.96 7.4 (-1.7) in
  SetTransformations scaleXYZ XrotationDegrees YrotationDegrees ZrotationDegrees positionXYZ ;;
  SetShaderTexture "PKMN" ;;
  SetTextureUVScale 1 1 ;;
  SetShaderMaterial "plastic" ;;
  m_basicMeshes_call (DrawMesh CylinderMesh) ;;
  let scaleXYZ : glm.vec3 := glm.Vec3 1 1 1 in
  let XrotationDegrees : float := 90 in
  let YrotationDegrees : float := 90 in
  let ZrotationDegrees : float := 90 in
  let positionXYZ : glm.vec3 := glm.Vec3 15.1 7.4 (-1.7) in
  SetTransformations scaleXYZ XrotationDegrees YrotationDegrees ZrotationDegrees positionXYZ ;;
  SetShaderTexture "plastic" ;;
  SetTextureUVScale 1 1 ;;
  SetShaderMaterial "plastic" ;;
  m_basicMeshes_call (DrawMesh TorusMesh) ;;
  let scaleXYZ : glm.vec3 := glm.Vec3 4 1 0.2 in
  let XrotationDegrees : float := 0 in
  let YrotationDegrees : float := 0 in
  let ZrotationDegrees : float := 90 in
  let positionXYZ : glm.vec3 := glm.Vec3 15.8 7.49 0.03 in
  SetTransformations scaleXYZ XrotationDegrees YrotationDegrees ZrotationDegrees positionXYZ ;;
  SetShaderTexture "ram" ;;
  SetTextureUVScale 1 1 ;;
  SetShaderMaterial "plastic" ;;
  m_basicMeshes_call (DrawMesh BoxMesh) ;;
  let scaleXYZ : glm.vec3 := glm.Vec3 4 1 0.2 in
  let XrotationDegrees : float := 0 in
  let YrotationDegrees : float := 0 in
  let ZrotationDegrees : float := 90 in
  let positionXYZ : glm.vec3 := glm.Vec3 15.8 7.49 0.58 in
  SetTransformations scaleXYZ XrotationDegrees YrotationDegrees ZrotationDegrees positionXYZ ;;
  SetShaderTexture "ram" ;;
  SetTextureUVScale 1 1 ;;
  SetShaderMaterial "plastic" ;;
  m_basicMeshes_call (DrawMesh BoxMesh) ;;
  let scaleXYZ : glm.vec3 := glm.Vec3 0.2 4 0.2 in
  let XrotationDegrees : float := 0 in
  let YrotationDegrees : float := 0 in
  let ZrotationDegrees : float := 0 in
  let positionXYZ : glm.vec3 := glm.Vec3 15.2 7.49 0.58 in
  SetTransformations scaleXYZ XrotationDegrees YrotationDegrees ZrotationDegrees positionXYZ ;;
  SetShaderTexture "rgb" ;;
  SetTextureUVScale 1 1 ;;
  SetShaderMaterial "plastic" ;;
  m_basicMeshes_call (DrawMesh BoxMesh) ;;
  let scaleXYZ : glm.vec3 := glm.Vec3 0.2 4 0.2 in
  let XrotationDegrees : float := 0 in
  let YrotationDegrees : float := 0 in
  let ZrotationDegrees : float := 0 in
  let positionXYZ : glm.vec3 := glm.Vec3 15.2 7.49 0.03 in
  SetTransformations scaleXYZ XrotationDegrees YrotationDegrees ZrotationDegrees positionXYZ ;;
  SetShaderTexture "rgb" ;;
  SetTextureUVScale 1 1 ;;
  SetShaderMaterial "plastic" ;;
  m_basicMeshes_call (DrawMesh BoxMesh) ;;
  let scaleXYZ : glm.vec3 := glm.Vec3 1.2 4.6 0.9 in
  let XrotationDegrees : float := 0 in
  let YrotationDegrees : float := 90 in
  let ZrotationDegrees : float := 0 in
  let positionXYZ : glm.vec3 := glm.Vec3 15.8 7.65 (-4.58) in
  SetTransformations scaleXYZ XrotationDegrees YrotationDegrees ZrotationDegrees positionXYZ ;;
  SetShaderTexture "mbb" ;;
  SetTextureUVScale 1 1 ;;
  SetShaderMaterial "metal" ;;
  m_basicMeshes_call (DrawMesh BoxMesh) ;;
  let scaleXYZ : glm.vec3 := glm.Vec3 1.3 4.7 1 in
  let XrotationDegrees : float := 0 in
  let YrotationDegrees : float := 90 in
  let ZrotationDegrees : float := 0 in
  let positionXYZ : glm.vec3 := glm.Vec3 15.86 7.65 (-4.58) in
  SetTransformations scaleXYZ XrotationDegrees YrotationDegrees ZrotationDegrees positionXYZ ;;
  SetShaderTexture "metal" ;;
  SetTextureUVScale 1 1 ;;
  SetShaderMaterial "metal" ;;
  m_basicMeshes_call (DrawMesh BoxMesh) ;;
  let scaleXYZ : glm.vec3 := glm.Vec3 1.2 1.2 2 in
  let XrotationDegrees : float := 0 in
  let YrotationDegrees : float := 0 in
  let ZrotationDegrees : float := 90 in
  let positionXYZ : glm.vec3 := glm.Vec3 13.5 5.75 8.649 in
  SetTransformations scaleXYZ XrotationDegrees YrotationDegrees ZrotationDegrees positionXYZ ;;
  SetShaderTexture "pink" ;;
  SetTextureUVScale 1 1 ;;
  SetShaderMaterial "wood" ;;
  m_basicMeshes_call (DrawMesh TorusMesh) ;;
  let scaleXYZ : glm.vec3 := glm.Vec3 1.2 1.2 2 in
  let XrotationDegrees : float := 0 in
  let YrotationDegrees : float := 0 in
  let ZrotationDegrees : float := 90 in
  let positionXYZ : glm.vec3 := glm.Vec3 13.5 9 8.649 in
  SetTransformations scaleXYZ XrotationDegrees YrotationDegrees ZrotationDegrees positionXYZ ;;
  SetShaderTexture "blue" ;;
  SetTextureUVScale 1 1 ;;
  SetShaderMaterial "wood" ;;
  m_basicMeshes_call (DrawMesh TorusMesh) ;;
  let scaleXYZ : glm.vec3 := glm.Vec3 1.2 1.2 2 in
  let XrotationDegrees : float := 0 in
  let YrotationDegrees : float := 0 in
  let ZrotationDegrees : float := 90 in
  let positionXYZ : glm.vec3 := glm.Vec3 13.5 2.5 8.649 in
  SetTransformations scaleXYZ XrotationDegrees YrotationDegrees ZrotationDegrees positionXYZ ;;
  SetShaderTexture "blue" ;;
  SetTextureUVScale 1 1 ;;
  SetShaderMaterial "wood" ;;
  m_basicMeshes_call (DrawMesh TorusMesh) ;;
  let scaleXYZ : glm.vec3 := glm.Vec3 5 2 12 in
  let XrotationDegrees : float := 0 in
  let YrotationDegrees : float := 0 in
  let ZrotationDegrees : float := 0 in
  let positionXYZ : glm.vec3 := glm.Vec3 13.8 1.7 0.7 in
  SetTransformations scaleXYZ XrotationDegrees YrotationDegrees ZrotationDegrees positionXYZ ;;
  SetShaderTexture "metal" ;;
  SetTextureUVScale 1 1 ;;
  SetShaderMaterial "metal" ;;
  m_basicMeshes_call (DrawMesh BoxMesh).

(** [SceneManager::RenderGlass] *)
Definition RenderGlass : M unit :=
  let XrotationDegrees : float := 0 in
  let YrotationDegrees : float := 0 in
  let ZrotationDegrees : float := 0 in
  let scaleXYZ : glm.vec3 := glm.Vec3 14.5 0.3 9.8 in
  let XrotationDegrees : float := 90 in
  let YrotationDegrees : float := 0 in
  let ZrotationDegrees : float := 90 in
  let positionXYZ : glm.vec3 := glm.Vec3 10.65 5.75 2.05 in
  SetTransformations scaleXYZ XrotationDegrees YrotationDegrees ZrotationDegrees positionXYZ ;;
  SetShaderColor 0.7 0.7 0.8 0.3 ;;
  SetShaderMaterial "glass" ;;
  m_basicMeshes_call (DrawMesh BoxMesh) ;;
  let scaleXYZ : glm.vec3 := glm.Vec3 5.404 0.05 9.8 in
  let XrotationDegrees : float := 90 in
  let YrotationDegrees : float := 0 in
  let ZrotationDegrees : float := 0 in
  let positionXYZ : glm.vec3 := glm.Vec3 13.5 5.75 9.289 in
  SetTransformations scaleXYZ XrotationDegrees YrotationDegrees ZrotationDegrees positionXYZ ;;
  SetShaderColor 0.7 0.7 0.8 0.3 ;;
  SetShaderMaterial "glass" ;;
  m_basicMeshes_call (DrawMesh BoxMesh).


(** [SceneManager::RenderScene] *)
Definition RenderScene : M unit :=
  RenderDeskandwalls ;;
  RenderKeyboardandmat ;;
  RenderMouse ;;
  RenderPCexterior ;;
  RenderPCinterior ;;
  RenderMonitor ;;
  RenderGlass.

End Scene.

(** ** Reference functions for stating the results *)

(** The five assignments [FindMaterial] makes on a match: every member
    of the out-parameter but its tag. *)
Definition copy_properties (e material : OBJECT_MATERIAL.t) : OBJECT_MATERIAL.t :=
  {| OBJECT_MATERIAL.ambientColor := OBJECT_MATERIAL.ambientColor e;
     OBJECT_MATERIAL.ambientStrength := OBJECT_MATERIAL.ambientStrength e;
     OBJECT_MATERIAL.diffuseColor := OBJECT_MATERIAL.diffuseColor e;
     OBJECT_MATERIAL.specularColor := OBJECT_MATERIAL.specularColor e;
     OBJECT_MATERIAL.shininess := OBJECT_MATERIAL.shininess e;
     OBJECT_MATERIAL.tag := OBJECT_MATERIAL.tag material |}.

(** The properties of a material, without its tag. *)
Definition properties (m : OBJECT_MATERIAL.t)
  : glm.vec3 * float * glm.vec3 * glm.vec3 * float :=
  (OBJECT_MATERIAL.ambientColor m, OBJECT_MATERIAL.ambientStrength m,
   OBJECT_MATERIAL.diffuseColor m, OBJECT_MATERIAL.specularColor m,
   OBJECT_MATERIAL.shininess m).

Definition has_tag (tag : string) (e : OBJECT_MATERIAL.t) : bool :=
  String.eqb (OBJECT_MATERIAL.tag e) tag.

(** First entry of [entries] tagged [tag], with its index counted from
    [index]. *)
Fixpoint find_texture (tag : string) (entries : list TEXTURE_INFO.t) (index : Z)
  : option (Z * TEXTURE_INFO.t) :=
  match entries with
  | [] => None
  | e :: rest =>
      if String.eqb (TEXTURE_INFO.tag e) tag then Some (index, e)
      else find_texture tag rest (index + 1)
  end.

(** The registered entries: the first [m_loadedTextures] slots. *)
Definition loaded_entries (this : SceneManager) : list TEXTURE_INFO.t :=
  take (Z.to_nat (m_loadedTextures this)) (m_textureIDs this).

(** The texture array as the constructor lays it out and every method
    keeps it: 16 slots, of which between 0 and 16 are in use. *)
Definition texture_array_ok (this : SceneManager) : Prop :=
  length (m_textureIDs this) = Z.to_nat texture_slots /\
  0 <= m_loadedTextures this <= texture_slots.

(** The calls that bind [entries] to consecutive units from [unit]. *)
Fixpoint bind_calls (unit : Z) (entries : list TEXTURE_INFO.t) : list event :=
  match entries with
  | [] => []
  | e :: rest =>
      GlActiveTexture (GL_TEXTURE0 + unit)
        :: GlBindTexture GL_TEXTURE_2D (TEXTURE_INFO.ID e)
        :: bind_calls (unit + 1) rest
  end.

(** A caller making the given [CreateGLTexture(filename, tag)] calls in
    order and collecting the results. *)
Fixpoint load_textures (calls : list (string * string)) : M (list bool) :=
  match calls with
  | [] => mret []
  | (filename, tag) :: rest =>
      b ← CreateGLTexture filename tag;
      bs ← load_textures rest;
      mret (b :: bs)
  end.

Definition count_true (bs : list bool) : Z :=
  Z.of_nat (length (List.filter (fun b : bool => b) bs)).

(** Classification of calls. *)
Definition is_uniform (e : event) : bool :=
  match e with SetUniform _ _ => true | _ => false end.

Definition is_stbi_load (e : event) : bool :=
  match e with StbiLoad _ => true | _ => false end.

Definition is_glGenTextures (e : event) : bool :=
  match e with GlGenTextures _ => true | _ => false end.

Definition is_glDeleteTextures (e : event) : bool :=
  match e with GlDeleteTextures _ => true | _ => false end.

(** The uniform uploads among the calls made. *)
Definition uniform_trace (t : list event) : list event := List.filter is_uniform t.

(** The object with its texture array and count replaced. *)
Definition set_textures (this : SceneManager) (ids : list TEXTURE_INFO.t) (n : Z)
  : SceneManager :=
  {| m_pShaderManager := m_pShaderManager this;
     m_basicMeshes := m_basicMeshes this;
     m_textureIDs := ids;
     m_loadedTextures := n;
     m_objectMaterials := m_objectMaterials this |}.

(** The object after [CreateGLTexture] has registered [name] under
    [tag] in the next free slot. *)
Definition registered (this : SceneManager) (tag : string) (name : Z) : SceneManager :=
  set_textures this
    (<[Z.to_nat (m_loadedTextures this) := TEXTURE_INFO.Build tag name]> (m_textureIDs this))
    (m_loadedTextures this + 1).

(** A texture name that reads back as a handle: a 32-bit value other
    than 0xFFFFFFFF, the bit pattern of the [-1] sentinel. *)
Definition usable_name (name : Z) : Prop := 0 <= name < 2 ^ 32 - 1.

(** The five uploads [SetShaderMaterial] makes for a material. *)
Definition material_uploads (m : OBJECT_MATERIAL.t) : list event :=
  [ SetUniform "material.ambientColor" (Vec3Value (OBJECT_MATERIAL.ambientColor m));
    SetUniform "material.ambientStrength" (FloatValue (OBJECT_MATERIAL.ambientStrength m));
    SetUniform "material.diffuseColor" (Vec3Value (OBJECT_MATERIAL.diffuseColor m));
    SetUniform "material.specularColor" (Vec3Value (OBJECT_MATERIAL.specularColor m));
    SetUniform "material.shininess" (FloatValue (OBJECT_MATERIAL.shininess m)) ].

Definition is_material_upload (e : event) : bool :=
  match e with
  | SetUniform name _ => String.prefix "material." name
  | _ => false
  end.

(** The world after [k] more locals have been declared. *)
Definition advance (k : nat) (w : World) : World :=
  {| decoder := decoder w; gl_fresh := gl_fresh w; gl_generated := gl_generated w;
     gl_active := gl_active w; gl_bound := gl_bound w;
     indeterminate := indeterminate w; declared := (k + declared w)%nat |}.

(** The value a computation returns, when it is defined. *)
Definition value_of {A : Type} (r : Result (A * SceneManager * World * list event))
  : option A :=
  match r with
  | Ok (a, _, _, _) => Some a
  | UB => None
  end.







(** ** Further reference functions *)

(** The tags of the calls that returned true, in call order. *)
Fixpoint registered_tags (calls : list (string * string)) (bs : list bool) : list string :=
  match calls, bs with
  | (_, tag) :: calls', b :: bs' =>
      if b then tag :: registered_tags calls' bs' else registered_tags calls' bs'
  | _, _ => []
  end.


Definition is_stbi_image_free (e : event) : bool :=
  match e with StbiImageFree => true | _ => false end.

(** A decoder under which every file is a 3- or 4-channel image. *)
Definition decodes_everything (w : World) : Prop :=
  forall filename, exists img,
    decoder w filename = Some img /\ (colorChannels img = 3 \/ colorChannels img = 4).

(** A matrix whose bottom row is (0, 0, 0, 1). *)
Definition affine (m : glm.mat4) : Prop :=
  glm.w (glm.col0 m) = 0%R /\ glm.w (glm.col1 m) = 0%R /\
  glm.w (glm.col2 m) = 0%R /\ glm.w (glm.col3 m) = 1%R.

(** The meshes drawn and the sampler indices uploaded, in call order. *)
Definition draws (t : list event) : list mesh :=
  flat_map (fun e => match e with DrawMesh m => [m] | _ => [] end) t.

Definition samplers (t : list event) : list Z :=
  flat_map (fun e => match e with SetUniform _ (Sampler2DValue slot) => [slot] | _ => [] end) t.

(** The calls a render pass is made of: uniform uploads and draws. *)
Definition is_render_call (e : event) : bool :=
  match e with SetUniform _ _ | DrawMesh _ => true | _ => false end.

(** What [FindTextureSlot] answers for [tag] on [this]. *)
Definition slot_of (this : SceneManager) (tag : string) : Z :=
  match find_texture tag (loaded_entries this) 0 with
  | Some (index, _) => index
  | None => -1
  end.

(** Position of the first occurrence of [tag], counted from [index];
    -1 when there is none. *)
Fixpoint tag_index (tag : string) (tags : list string) (index : Z) : Z :=
  match tags with
  | [] => -1
  | t :: rest => if String.eqb t tag then index else tag_index tag rest (index + 1)
  end.

(** [c], run on [this] in any world, is defined, leaves [this] as it
    was, draws the meshes [ds], uploads the sampler indices [ss] and
    calls nothing but the shader manager and the mesh library. *)
Definition makes (this : SceneManager) (c : M unit) (ds : list mesh) (ss : list Z) : Prop :=
  forall w, exists w' t,
    c this w = Ok (tt, this, w', t) /\
    draws t = ds /\ samplers t = ss /\ forallb is_render_call t = true.

(** The script of [RenderScene]: the meshes it draws and the texture
    tags it selects, in order. *)
Definition scene_draws : list mesh :=
  [ PlaneMesh; PlaneMesh; PlaneMesh;
    BoxMesh; BoxMesh; PrismMesh; BoxMesh;
    CylinderMesh; SphereMesh; TorusMesh; BoxMesh; BoxMesh; BoxMesh; TorusMesh;
    CylinderMesh; CylinderMesh; CylinderMesh; CylinderMesh;
    BoxMesh; BoxMesh; BoxMesh; BoxMesh; BoxMesh; BoxMesh;
    CylinderMesh; CylinderMesh; TorusMesh;
    BoxMesh; BoxMesh; BoxMesh; BoxMesh; BoxMesh; BoxMesh;
    TorusMesh; TorusMesh; TorusMesh; BoxMesh;
    PrismMesh; BoxMesh; BoxMesh; BoxMesh; BoxMesh;
    BoxMesh; BoxMesh ].

Definition scene_texture_requests : list string :=
  [ "wall"; "wall"; "wood";
    "pad"; "pad2"; "keyboard"; "plastic"; "plastic";
    "blackpl"; "blackpl";
    "metal"; "metal"; "metal"; "metal"; "mb"; "metal";
    "plastic"; "PKMN"; "plastic"; "ram"; "ram"; "rgb"; "rgb"; "mbb"; "metal";
    "pink"; "blue"; "blue"; "metal";
    "plastic"; "plastic"; "plastic"; "screen"; "plastic" ]%string.

(** The tags [LoadSceneTextures] registers, in order. *)
Definition scene_texture_tags : list string :=
  [ "plastic"; "wood"; "wall"; "pad"; "pad2"; "screen"; "metal"; "mb";
    "PKMN"; "rgb"; "mbb"; "blue"; "pink"; "keyboard"; "ram"; "blackpl" ]%string.

(** The files [LoadSceneTextures] loads, with their tags, in order. *)
Definition scene_texture_files : list (string * string) :=
  [ ("textures/plastic_dark_seamless.jpg", "plastic");
    ("textures/wood_knots_seamlessr.jpg", "wood");
    ("textures/greywall.jpg", "wall");
    ("textures/rubber_circles_seamless.jpg", "pad");
    ("textures/screen_wallpaper_2.jpg", "pad2");
    ("textures/PCscreen.jpg", "screen");
    ("textures/blackmetal.jpg", "metal");
    ("textures/motherboard.jpg", "mb");
    ("textures/Riolu.jpg", "PKMN");
    ("textures/rainbowFade.jpg", "rgb");
    ("textures/motherboardback.jpeg", "mbb");
    ("textures/blue.jpg", "blue");
    ("textures/pink.jpg", "pink");
    ("textures/Keyboardtop.jpg", "keyboard");
    ("textures/RAMside.jpg", "ram");
    ("textures/blackplasticmaterial.jpg", "blackpl") ]%string.

(** The meshes loaded, in call order. *)
Definition mesh_loads (t : list event) : list mesh :=
  flat_map (fun e => match e with LoadMesh m => [m] | _ => [] end) t.

(** The object with its material registry replaced. *)
Definition set_materials (this : SceneManager) (materials : list OBJECT_MATERIAL.t)
  : SceneManager :=
  {| m_pShaderManager := m_pShaderManager this;
     m_basicMeshes := m_basicMeshes this;
     m_textureIDs := m_textureIDs this;
     m_loadedTextures := m_loadedTextures this;
     m_objectMaterials := materials |}.

(** The calls that go to OpenGL. *)
Definition is_gl_call (e : event) : bool :=
  match e with
  | GlGenTextures _ | GlDeleteTextures _ | GlBindTexture _ _ | GlActiveTexture _
  | GlTexParameteri _ _ _ | GlTexImage2D _ _ _ _ _ _ | GlGenerateMipmap _ => true
  | _ => false
  end.

(** [c], run on [this] in any world, leaves both as they were and
    makes the calls [t]. *)
Definition yields (this : SceneManager) (c : M unit) (t : list event) : Prop :=
  forall w, c this w = Ok (tt, this, w, t).

(** ** Sample inputs *)

Section Samples.
Local Open Scope string_scope.
Local Open Scope R_scope.

Definition rgb_image : image := {| width := 64; height := 64; colorChannels := 3 |}.
Definition grey_image : image := {| width := 64; height := 64; colorChannels := 1 |}.

(** Storage that holds zeros except for a shininess that differs from
    one declaration to the next. *)
Definition changing_storage (k : nat) : OBJECT_MATERIAL.t :=
  {| OBJECT_MATERIAL.ambientColor := glm.Vec3 0 0 0;
     OBJECT_MATERIAL.ambientStrength := 0;
     OBJECT_MATERIAL.diffuseColor := glm.Vec3 0 0 0;
     OBJECT_MATERIAL.specularColor := glm.Vec3 0 0 0;
     OBJECT_MATERIAL.shininess := INR k;
     OBJECT_MATERIAL.tag := "" |}.

(** A world where every file decodes to [img] and the driver numbers
    its textures [first], [first + 1], ... *)
Definition sample_world (img : option image) (first : Z) : World :=
  {| decoder := fun _ => img;
     gl_fresh := fun k => (first + Z.of_nat k)%Z;
     gl_generated := 0;
     gl_active := 0;
     gl_bound := ∅;
     indeterminate := changing_storage;
     declared := 0 |}.

Definition red_material : OBJECT_MATERIAL.t :=
  {| OBJECT_MATERIAL.ambientColor := glm.Vec3 1 0 0;
     OBJECT_MATERIAL.ambientStrength := 1;
     OBJECT_MATERIAL.diffuseColor := glm.Vec3 1 0 0;
     OBJECT_MATERIAL.specularColor := glm.Vec3 1 0 0;
     OBJECT_MATERIAL.shininess := 1;
     OBJECT_MATERIAL.tag := "paint" |}.

Definition blue_material : OBJECT_MATERIAL.t :=
  {| OBJECT_MATERIAL.ambientColor := glm.Vec3 0 0 1;
     OBJECT_MATERIAL.ambientStrength := 2;
     OBJECT_MATERIAL.diffuseColor := glm.Vec3 0 0 1;
     OBJECT_MATERIAL.specularColor := glm.Vec3 0 0 1;
     OBJECT_MATERIAL.shininess := 2;
     OBJECT_MATERIAL.tag := "paint" |}.
(** The material [DefineObjectMaterials] builds for "glass" and does
    not append. *)
Definition glassMaterial : OBJECT_MATERIAL.t :=
  {| OBJECT_MATERIAL.ambientColor := glm.Vec3 0.4 0.4 0.4;
     OBJECT_MATERIAL.ambientStrength := 0.3;
     OBJECT_MATERIAL.diffuseColor := glm.Vec3 0.3 0.3 0.3;
     OBJECT_MATERIAL.specularColor := glm.Vec3 0.6 0.6 0.6;
     OBJECT_MATERIAL.shininess := 85;
     OBJECT_MATERIAL.tag := "glass" |}.

(** A material with the given tag, and a fresh object whose registry
    holds one material for each tag the render script asks for. *)
Definition grey_material (tag : string) : OBJECT_MATERIAL.t :=
  {| OBJECT_MATERIAL.ambientColor := glm.Vec3 0.5 0.5 0.5;
     OBJECT_MATERIAL.ambientStrength := 0.5;
     OBJECT_MATERIAL.diffuseColor := glm.Vec3 0.5 0.5 0.5;
     OBJECT_MATERIAL.specularColor := glm.Vec3 0.5 0.5 0.5;
     OBJECT_MATERIAL.shininess := 1;
     OBJECT_MATERIAL.tag := tag |}.

Definition furnished_object : SceneManager :=
  set_materials (SceneManager_ctor NonNull)
    (map grey_material ["walls"; "wood"; "plastic"; "metal"; "glass"]).
End Samples.

(** * Results *)

(** ** The monad *)

Section Monad.
Context {A B : Type}.

Lemma bind_Ok (c : M A) (f : A -> M B) this w a this1 w1 t1 :
  c this w = Ok (a, this1, w1, t1) ->
  (c ≫= f) this w =
  match f a this1 w1 with
  | Ok (b, this2, w2, t2) => Ok (b, this2, w2, t1 ++ t2)
  | UB => UB
  end.
Proof. intros H. unfold mbind, M_bind. rewrite H. reflexivity. Qed.

Lemma bind_UB (c : M A) (f : A -> M B) this w :
  c this w = UB -> (c ≫= f) this w = UB.
Proof. intros H. unfold mbind, M_bind. rewrite H. reflexivity. Qed.

Lemma bind_inv (c : M A) (f : A -> M B) this w b this2 w2 t :
  (c ≫= f) this w = Ok (b, this2, w2, t) ->
  exists a this1 w1 t1 t2,
    c this w = Ok (a, this1, w1, t1) /\
    f a this1 w1 = Ok (b, this2, w2, t2) /\
    t = t1 ++ t2.
Proof.
  unfold mbind, M_bind. intros H.
  destruct (c this w) as [[[[a this1] w1] t1]|]; [|discriminate].
  destruct (f a this1 w1) as [[[[b' this2'] w2'] t2]|] eqn:Hf; [|discriminate].
  injection H as -> -> -> <-.
  exists a, this1, w1, t1, t2. auto.
Qed.
End Monad.

(** ** Material registry *)

Lemma FindMaterial_loop_found n tag material index this w :
  FindMaterial_loop n tag material index true this w = Ok (material, this, w, []).
Proof.
  destruct n; simpl; unfold mbind, M_bind, get_this; simpl;
    rewrite andb_false_r; reflexivity.
Qed.

(** The loop scans from [index] and stops at the first entry with the
    tag; [n] passes are enough as soon as they cover what is left. *)
Lemma FindMaterial_loop_spec tag this w :
  forall n (i : nat) material,
    (length (m_objectMaterials this) <= i + n)%nat ->
    FindMaterial_loop n tag material (Z.of_nat i) false this w =
    Ok (match List.find (has_tag tag) (drop i (m_objectMaterials this)) with
        | Some e => copy_properties e material
        | None => material
        end, this, w, []).
Proof.
  induction n as [|n IH]; intros i material Hn.
  - simpl. unfold mbind, M_bind, get_this. simpl.
    rewrite andb_true_r.
    destruct (Z.ltb_spec (Z.of_nat i) (Z.of_nat (length (m_objectMaterials this)))); [lia|].
    rewrite drop_ge by lia. reflexivity.
  - simpl. unfold mbind, M_bind, get_this. simpl.
    rewrite andb_true_r.
    destruct (Z.ltb_spec (Z.of_nat i) (Z.of_nat (length (m_objectMaterials this)))) as [Hlt|Hge].
    + rewrite Nat2Z.id.
      destruct (lookup_lt_is_Some_2 (m_objectMaterials this) i) as [e He]; [lia|].
      rewrite He. rewrite (drop_S _ _ _ He). simpl. unfold has_tag at 1.
      destruct (String.eqb (OBJECT_MATERIAL.tag e) tag).
      * rewrite FindMaterial_loop_found. reflexivity.
      * replace (Z.of_nat i + 1) with (Z.of_nat (S i)) by lia.
        rewrite IH by lia. reflexivity.
    + rewrite drop_ge by lia. reflexivity.
Qed.

(** [FindMaterial] as a function of the registry. *)
Lemma FindMaterial_spec tag material this w :
  FindMaterial tag material this w =
  Ok (match m_objectMaterials this with
      | [] => (false, material)
      | _ :: _ =>
          (true,
           match List.find (has_tag tag) (m_objectMaterials this) with
           | Some e => copy_properties e material
           | None => material
           end)
      end, this, w, []).
Proof.
  unfold FindMaterial.
  rewrite (bind_Ok get_this _ this w this this w []) by reflexivity.
  destruct (m_objectMaterials this) as [|e l] eqn:Hl.
  - reflexivity.
  - change (Z.of_nat (length (e :: l)) =? 0) with false. cbv iota.
    rewrite (bind_Ok _ _ this w _ this w []
               (FindMaterial_loop_spec tag this w (length (e :: l)) 0 material
                  ltac:(rewrite Hl; simpl; lia))).
    unfold mret, M_ret. rewrite Hl. reflexivity.
Qed.

Lemma find_has_tag_None tag l :
  Forall (fun e => OBJECT_MATERIAL.tag e <> tag) l -> List.find (has_tag tag) l = None.
Proof.
  induction 1 as [|e l He _ IH]; [reflexivity|].
  simpl. unfold has_tag at 1.
  destruct (String.eqb_spec (OBJECT_MATERIAL.tag e) tag); [contradiction|exact IH].
Qed.

Lemma find_has_tag_app tag l l' :
  List.find (has_tag tag) l = None ->
  List.find (has_tag tag) (l ++ l') = List.find (has_tag tag) l'.
Proof.
  induction l as [|e l IH]; [reflexivity|].
  simpl. destruct (has_tag tag e); [discriminate|exact IH].
Qed.

(** C1. For every tag, [FindMaterial] on an empty registry returns false
    and leaves the out-parameter as it was; on a non-empty registry it
    returns true whether or not an entry carries the tag, and when none
    does the whole registry has been scanned and the out-parameter is
    again as it was.  So the returned flag is true exactly when the
    registry is non-empty. *)
Theorem FindMaterial_found_iff_registry_nonempty :
  forall (tag : string) (material : OBJECT_MATERIAL.t) this w,
  exists (found : bool) (material' : OBJECT_MATERIAL.t),
    FindMaterial tag material this w = Ok ((found, material'), this, w, []) /\
    (found = true <-> m_objectMaterials this <> []) /\
    (m_objectMaterials this = [] -> found = false /\ material' = material) /\
    (m_objectMaterials this <> [] ->
     Forall (fun e => OBJECT_MATERIAL.tag e <> tag) (m_objectMaterials this) ->
     found = true /\ material' = material).
Proof.
  intros tag material this w. rewrite FindMaterial_spec.
  destruct (m_objectMaterials this) as [|e l] eqn:Hl.
  - exists false, material. repeat split; try congruence; intros; try discriminate.
  - eexists true, _. split; [reflexivity|].
    split; [split; intros; congruence|].
    split; [discriminate|].
    intros _ Hnone. rewrite (find_has_tag_None _ _ Hnone). auto.
Qed.

(** C6. Appending a material [A] under a tag no entry carries yet, then
    a material [B] under the same tag, then looking the tag up, returns
    true and fills the out-parameter with the properties of [A]; whenever
    [B]'s properties differ from [A]'s, what is returned is not [B]'s. *)
Theorem first_definition_wins :
  forall (A B material : OBJECT_MATERIAL.t) this w,
    Forall (fun e => OBJECT_MATERIAL.tag e <> OBJECT_MATERIAL.tag A) (m_objectMaterials this) ->
    OBJECT_MATERIAL.tag B = OBJECT_MATERIAL.tag A ->
    exists this' material',
      (m_objectMaterials_push_back A ;; m_objectMaterials_push_back B ;;
       FindMaterial (OBJECT_MATERIAL.tag A) material) this w
      = Ok ((true, material'), this', w, []) /\
      m_objectMaterials this' = m_objectMaterials this ++ [A; B] /\
      properties material' = properties A /\
      (properties A <> properties B -> properties material' <> properties B).
Proof.
  intros A B material this w Hfresh HB.
  unfold m_objectMaterials_push_back.
  unfold mbind at 1 2 3 4. unfold M_bind, get_this, put_this. cbn [m_objectMaterials].
  rewrite FindMaterial_spec. cbn [m_objectMaterials].
  rewrite <- app_assoc. cbn [app].
  rewrite (find_has_tag_app _ _ _ (find_has_tag_None _ _ Hfresh)).
  cbn [List.find]. unfold has_tag at 1. rewrite String.eqb_refl.
  destruct (m_objectMaterials this) as [|e l]; cbn [app];
    (eexists _, _; split; [reflexivity|]; cbn [m_objectMaterials]; repeat split; auto).
Qed.

Lemma first_definition_wins_witness :
  exists this' material',
    (m_objectMaterials_push_back red_material ;; m_objectMaterials_push_back blue_material ;;
     FindMaterial "paint" (changing_storage 0)) (SceneManager_ctor NonNull) (sample_world None 1)
    = Ok ((true, material'), this', sample_world None 1, []) /\
    m_objectMaterials this' = [red_material; blue_material] /\
    properties material' = properties red_material /\
    (properties red_material <> properties blue_material ->
     properties material' <> properties blue_material).
Proof.
  apply (first_definition_wins red_material blue_material (changing_storage 0)
           (SceneManager_ctor NonNull) (sample_world None 1)).
  - simpl. constructor.
  - reflexivity.
Defined.

(** C9. Run on an object whose material registry is empty,
    [DefineObjectMaterials] leaves exactly four entries, tagged "metal",
    "wood", "walls", "plastic" in that order, and none tagged "glass".
    Looking "glass" up in that registry returns true and leaves the
    out-parameter untouched; accordingly the ten material uniforms the
    glass pass uploads are the contents of its two uninitialised
    [material] locals. *)
Theorem DefineObjectMaterials_leaves_out_glass :
  forall this w,
    m_objectMaterials this = [] ->
    m_pShaderManager this = NonNull ->
    m_basicMeshes this = NonNull ->
    exists this',
      DefineObjectMaterials this w = Ok (tt, this', w, []) /\
      map OBJECT_MATERIAL.tag (m_objectMaterials this')
        = ["metal"; "wood"; "walls"; "plastic"]%string /\
      Forall (fun e => OBJECT_MATERIAL.tag e <> "glass"%string) (m_objectMaterials this') /\
      (forall material,
         FindMaterial "glass" material this' w = Ok ((true, material), this', w, [])) /\
      exists w' t,
        RenderGlass this' w = Ok (tt, this', w', t) /\
        List.filter is_material_upload t
        = material_uploads (indeterminate w (declared w))
            ++ material_uploads (indeterminate w (S (declared w))).
Proof.
  intros [p b ids n mats] w Hm Hp Hb. simpl in *. subst.
  eexists. split; [reflexivity|].
  split; [reflexivity|].
  split; [repeat constructor; discriminate|].
  split; [intros material; reflexivity|].
  eexists _, _. split; [reflexivity|]. reflexivity.
Qed.

Lemma DefineObjectMaterials_leaves_out_glass_witness :
  exists this',
    DefineObjectMaterials (SceneManager_ctor NonNull) (sample_world None 1)
    = Ok (tt, this', sample_world None 1, []) /\
    map OBJECT_MATERIAL.tag (m_objectMaterials this')
      = ["metal"; "wood"; "walls"; "plastic"]%string /\
    Forall (fun e => OBJECT_MATERIAL.tag e <> "glass"%string) (m_objectMaterials this') /\
    (forall material,
       FindMaterial "glass" material this' (sample_world None 1)
       = Ok ((true, material), this', sample_world None 1, [])) /\
    exists w' t,
      RenderGlass this' (sample_world None 1) = Ok (tt, this', w', t) /\
      List.filter is_material_upload t
      = material_uploads (changing_storage 0) ++ material_uploads (changing_storage 1).
Proof.
  apply (DefineObjectMaterials_leaves_out_glass (SceneManager_ctor NonNull) (sample_world None 1));
    reflexivity.
Defined.

(** ** The model matrix *)

(** Evaluation of matrix expressions down to their entries. *)
Ltac matrix_entries :=
  cbv [glm.mul glm.mul_col glm.mul_vec glm.smul glm.vadd glm.identity
       glm.translate glm.translate_m glm.scale glm.scale_m
       glm.col0 glm.col1 glm.col2 glm.col3 glm.x glm.y glm.z glm.w
       glm.x3 glm.y3 glm.z3].

Section ModelMatrix.
Local Open Scope R_scope.

Lemma radians_0 : glm.radians 0 = 0.
Proof. unfold glm.radians. apply Rmult_0_l. Qed.

Lemma vec4_eq a b c d a' b' c' d' :
  a = a' -> b = b' -> c = c' -> d = d' -> glm.Vec4 a b c d = glm.Vec4 a' b' c' d'.
Proof. congruence. Qed.

Lemma mat4_eq a b c d a' b' c' d' :
  a = a' -> b = b' -> c = c' -> d = d' -> glm.Mat4 a b c d = glm.Mat4 a' b' c' d'.
Proof. congruence. Qed.

(** Rotating by zero degrees about a unit axis is the identity. *)
Lemma rotate_0 (axis : glm.vec3) :
  glm.dot axis axis = 1 ->
  glm.rotate (glm.radians 0) axis = glm.identity.
Proof.
  intros Hn.
  unfold glm.rotate, glm.rotate_m, glm.normalize, glm.inversesqrt.
  rewrite radians_0, cos_0, sin_0, Hn, sqrt_1.
  destruct axis as [ax ay az].
  unfold glm.identity, glm.smul3, glm.smul, glm.vadd. cbn.
  apply mat4_eq; apply vec4_eq; lra.
Qed.

Lemma mul_identity_r m : (m * glm.identity)%mat = m.
Proof.
  destruct m as [[] [] [] []].
  unfold glm.mul, glm.mul_col, glm.identity, glm.smul, glm.vadd. cbn.
  apply mat4_eq; apply vec4_eq; lra.
Qed.

Lemma translate_matrix px py pz :
  glm.translate (glm.Vec3 px py pz)
  = glm.Mat4 (glm.Vec4 1 0 0 0) (glm.Vec4 0 1 0 0) (glm.Vec4 0 0 1 0)
             (glm.Vec4 px py pz 1).
Proof.
  unfold glm.translate, glm.translate_m, glm.identity, glm.smul, glm.vadd. cbn.
  apply mat4_eq; apply vec4_eq; lra.
Qed.





(** Without rotation the model matrix is Translate * Scale. *)
Lemma modelView_unrotated scaleXYZ positionXYZ :
  modelView scaleXYZ 0 0 0 positionXYZ
  = (glm.translate positionXYZ * glm.scale scaleXYZ)%mat.
Proof.
  unfold modelView.
  rewrite !rotate_0 by (unfold glm.dot; cbn; lra).
  rewrite !mul_identity_r. reflexivity.
Qed.

(** Applying a product is applying its factors, right one first. *)
Lemma mul_vec_mul a b v :
  glm.mul_vec (a * b)%mat v = glm.mul_vec a (glm.mul_vec b v).
Proof.
  destruct a as [[] [] [] []], b as [[] [] [] []], v.
  matrix_entries. apply vec4_eq; unfold float; ring.
Qed.

Lemma mul_vec_scale sx sy sz v :
  glm.mul_vec (glm.scale (glm.Vec3 sx sy sz)) v
  = glm.Vec4 (sx * glm.x v) (sy * glm.y v) (sz * glm.z v) (glm.w v).
Proof.
  destruct v. matrix_entries. apply vec4_eq; unfold float; ring.
Qed.

Lemma mul_vec_translate px py pz v :
  glm.mul_vec (glm.translate (glm.Vec3 px py pz)) v
  = glm.Vec4 (glm.x v + px * glm.w v) (glm.y v + py * glm.w v)
             (glm.z v + pz * glm.w v) (glm.w v).
Proof.
  destruct v. matrix_entries. apply vec4_eq; unfold float; ring.
Qed.











End ModelMatrix.

(** ** Texture registry *)

Ltac step_with tac := erewrite bind_Ok by tac; cbv beta.
Ltac step := step_with ltac:(reflexivity).

Lemma m_textureIDs_at_ok this w i e :
  0 <= i < texture_slots ->
  m_textureIDs this !! Z.to_nat i = Some e ->
  m_textureIDs_at i this w = Ok (e, this, w, []).
Proof.
  intros Hi He. unfold m_textureIDs_at, mbind, M_bind, get_this.
  destruct (Z.leb_spec 0 i); [|lia].
  destruct (Z.ltb_spec i texture_slots); [|lia].
  cbn. rewrite He. reflexivity.
Qed.

Lemma m_textureIDs_at_out_of_range this w i :
  ~ 0 <= i < texture_slots -> m_textureIDs_at i this w = UB.
Proof.
  intros Hi. unfold m_textureIDs_at, mbind, M_bind, get_this.
  destruct (Z.leb_spec 0 i); destruct (Z.ltb_spec i texture_slots); try lia; reflexivity.
Qed.

Lemma m_textureIDs_set_ok this w i e :
  0 <= i < texture_slots ->
  i < Z.of_nat (length (m_textureIDs this)) ->
  m_textureIDs_set i e this w
  = Ok (tt, set_textures this (<[Z.to_nat i := e]> (m_textureIDs this)) (m_loadedTextures this),
        w, []).
Proof.
  intros Hi Hl. unfold m_textureIDs_set, mbind, M_bind, get_this, put_this.
  destruct (Z.leb_spec 0 i); [|lia].
  destruct (Z.ltb_spec i texture_slots); [|lia].
  destruct (Z.ltb_spec i (Z.of_nat (length (m_textureIDs this)))); [|lia].
  reflexivity.
Qed.

Lemma texture_array_ok_lookup this i :
  texture_array_ok this -> 0 <= i < texture_slots ->
  exists e, m_textureIDs this !! Z.to_nat i = Some e.
Proof.
  intros [Hlen _] Hi. apply lookup_lt_is_Some_2. rewrite Hlen. lia.
Qed.

Lemma SceneManager_ctor_ok p : texture_array_ok (SceneManager_ctor p).
Proof. split; [reflexivity | cbn; unfold texture_slots; lia]. Qed.

Lemma registered_ok this tag name :
  texture_array_ok this -> m_loadedTextures this < texture_slots ->
  texture_array_ok (registered this tag name).
Proof.
  intros [Hlen Hn] Hlt. split; cbn.
  - rewrite length_insert. exact Hlen.
  - lia.
Qed.

Lemma loaded_entries_registered this tag name :
  texture_array_ok this -> m_loadedTextures this < texture_slots ->
  loaded_entries (registered this tag name)
  = loaded_entries this ++ [TEXTURE_INFO.Build tag name].
Proof.
  intros [Hlen Hn] Hlt. unfold loaded_entries, registered. cbn.
  replace (Z.to_nat (m_loadedTextures this + 1)) with (S (Z.to_nat (m_loadedTextures this))) by lia.
  rewrite (take_S_r _ _ (TEXTURE_INFO.Build tag name)).
  - rewrite take_insert_ge by lia. reflexivity.
  - apply list_lookup_insert_eq. rewrite Hlen. unfold texture_slots in *. lia.
Qed.

(** The registering tail of [CreateGLTexture]. *)
Lemma CreateGLTexture_register_steps tag name this w :
  texture_array_ok this ->
  m_loadedTextures this < texture_slots ->
  (emit (GlGenerateMipmap GL_TEXTURE_2D) ;; emit StbiImageFree ;;
   glBindTexture GL_TEXTURE_2D 0 ;;
   this0 ← get_this;
   e0 ← m_textureIDs_at (m_loadedTextures this0);
   m_textureIDs_set (m_loadedTextures this0)
     (TEXTURE_INFO.Build (TEXTURE_INFO.tag e0) name) ;;
   e1 ← m_textureIDs_at (m_loadedTextures this0);
   m_textureIDs_set (m_loadedTextures this0) (TEXTURE_INFO.Build tag (TEXTURE_INFO.ID e1)) ;;
   set_m_loadedTextures (m_loadedTextures this0 + 1) ;; mret true) this w
  = Ok (true, registered this tag name,
        {| decoder := decoder w; gl_fresh := gl_fresh w; gl_generated := gl_generated w;
           gl_active := gl_active w; gl_bound := <[gl_active w := 0]> (gl_bound w);
           indeterminate := indeterminate w; declared := declared w |},
        [GlGenerateMipmap GL_TEXTURE_2D; StbiImageFree; GlBindTexture GL_TEXTURE_2D 0]).
Proof.
  intros Hok Hlt.
  destruct (texture_array_ok_lookup this (m_loadedTextures this) Hok) as [e He];
    [destruct Hok; lia|].
  destruct Hok as [Hlen Hn]. unfold texture_slots in *.
  step. step. step. step.
  step_with ltac:(apply (m_textureIDs_at_ok _ _ _ e); [unfold texture_slots; lia | exact He]).
  step_with ltac:(apply m_textureIDs_set_ok; [unfold texture_slots; lia | lia]).
  step_with ltac:(eapply m_textureIDs_at_ok;
                  [ unfold texture_slots; lia
                  | apply list_lookup_insert_eq; lia ]).
  step_with ltac:(apply m_textureIDs_set_ok;
                  [ unfold texture_slots; lia | cbn [m_textureIDs set_textures]; rewrite length_insert; lia ]).
  step. unfold mret, M_ret. cbn [TEXTURE_INFO.ID m_textureIDs set_textures].
  rewrite list_insert_insert_eq.
  reflexivity.
Qed.

(** With the array full the same tail writes past the last slot. *)
Lemma CreateGLTexture_register_overflow tag name this w :
  ~ 0 <= m_loadedTextures this < texture_slots ->
  (emit (GlGenerateMipmap GL_TEXTURE_2D) ;; emit StbiImageFree ;;
   glBindTexture GL_TEXTURE_2D 0 ;;
   this0 ← get_this;
   e0 ← m_textureIDs_at (m_loadedTextures this0);
   m_textureIDs_set (m_loadedTextures this0)
     (TEXTURE_INFO.Build (TEXTURE_INFO.tag e0) name) ;;
   e1 ← m_textureIDs_at (m_loadedTextures this0);
   m_textureIDs_set (m_loadedTextures this0) (TEXTURE_INFO.Build tag (TEXTURE_INFO.ID e1)) ;;
   set_m_loadedTextures (m_loadedTextures this0 + 1) ;; mret true) this w
  = UB.
Proof.
  intros Hfull.
  step. step. step. step.
  rewrite bind_UB; [reflexivity|].
  apply m_textureIDs_at_out_of_range. exact Hfull.
Qed.

Lemma CreateGLTexture_registers filename tag this w img :
  texture_array_ok this ->
  m_loadedTextures this < texture_slots ->
  decoder w filename = Some img ->
  colorChannels img = 3 \/ colorChannels img = 4 ->
  exists w' t,
    CreateGLTexture filename tag this w
    = Ok (true, registered this tag (uint32_of_int (gl_fresh w (gl_generated w))), w', t) /\
    List.filter is_stbi_load t = [StbiLoad filename] /\
    List.filter is_glDeleteTextures t = [].
Proof.
  intros Hok Hlt Hdec Hc.
  unfold CreateGLTexture.
  step.
  step_with ltac:(unfold stbi_load; step; step; reflexivity).
  cbn [decoder]. rewrite Hdec.
  step. step. step. step. step. step. step.
  destruct Hc as [Hc|Hc]; rewrite Hc; cbn [Z.eqb Pos.eqb]; step;
    rewrite CreateGLTexture_register_steps by assumption;
    (eexists _, _; split; [reflexivity|]; split; reflexivity).
Qed.

Lemma CreateGLTexture_full filename tag this w img :
  ~ 0 <= m_loadedTextures this < texture_slots ->
  decoder w filename = Some img ->
  colorChannels img = 3 \/ colorChannels img = 4 ->
  CreateGLTexture filename tag this w = UB.
Proof.
  intros Hfull Hdec Hc.
  unfold CreateGLTexture.
  step.
  step_with ltac:(unfold stbi_load; step; step; reflexivity).
  cbn [decoder]. rewrite Hdec.
  step. step. step. step. step. step. step.
  destruct Hc as [Hc|Hc]; rewrite Hc; cbn [Z.eqb Pos.eqb]; step;
    rewrite CreateGLTexture_register_overflow by assumption; reflexivity.
Qed.

Lemma CreateGLTexture_rejects filename tag this w img :
  decoder w filename = Some img ->
  colorChannels img <> 3 ->
  colorChannels img <> 4 ->
  exists w' t,
    CreateGLTexture filename tag this w = Ok (false, this, w', t) /\
    List.filter is_stbi_load t = [StbiLoad filename] /\
    List.filter is_glDeleteTextures t = [].
Proof.
  intros Hdec H3 H4.
  unfold CreateGLTexture.
  step.
  step_with ltac:(unfold stbi_load; step; step; reflexivity).
  cbn [decoder]. rewrite Hdec.
  step. step. step. step. step. step. step.
  destruct (Z.eqb_spec (colorChannels img) 3); [contradiction|].
  destruct (Z.eqb_spec (colorChannels img) 4); [contradiction|].
  step. unfold mret, M_ret.
  eexists _, _; split; [reflexivity|]; split; reflexivity.
Qed.

Lemma CreateGLTexture_undecoded filename tag this w :
  decoder w filename = None ->
  CreateGLTexture filename tag this w
  = Ok (false, this, w,
        [StbiSetFlipVerticallyOnLoad true; StbiLoad filename; Cout (CouldNotLoad filename)]).
Proof.
  intros Hdec.
  unfold CreateGLTexture.
  step.
  step_with ltac:(unfold stbi_load; step; step; reflexivity).
  cbn [decoder]. rewrite Hdec.
  step. reflexivity.
Qed.

(** A load that returns true has written inside the array. *)
Lemma CreateGLTexture_true_in_range filename tag this w this' w' t :
  CreateGLTexture filename tag this w = Ok (true, this', w', t) ->
  0 <= m_loadedTextures this < texture_slots.
Proof.
  intros Hrun.
  destruct (decoder w filename) as [img|] eqn:Hdec.
  - destruct (Z.eq_dec (colorChannels img) 3) as [H3|H3];
      [|destruct (Z.eq_dec (colorChannels img) 4) as [H4|H4]].
    1,2: destruct (Z_le_dec 0 (m_loadedTextures this));
      destruct (Z_lt_dec (m_loadedTextures this) texture_slots); try lia;
      rewrite (CreateGLTexture_full filename tag this w img) in Hrun;
      solve [discriminate | lia | exact Hdec | auto].
    destruct (CreateGLTexture_rejects filename tag this w img Hdec H3 H4)
      as (w1 & t1 & Heq & _).
    rewrite Heq in Hrun. discriminate.
  - rewrite (CreateGLTexture_undecoded _ _ _ _ Hdec) in Hrun. discriminate.
Qed.

(** Whatever the decoder and the driver answer, a load on a well-formed
    array with a free slot is defined, keeps the array well formed and
    adds one entry exactly when it returns true. *)
Lemma CreateGLTexture_outcome filename tag this w b this' w' t :
  texture_array_ok this ->
  CreateGLTexture filename tag this w = Ok (b, this', w', t) ->
  texture_array_ok this' /\
  m_loadedTextures this' = m_loadedTextures this + (if b then 1 else 0) /\
  (if b then this' = registered this tag (uint32_of_int (gl_fresh w (gl_generated w)))
   else this' = this) /\
  List.filter is_stbi_load t = [StbiLoad filename] /\
  List.filter is_glDeleteTextures t = [].
Proof.
  intros Hok Hrun.
  destruct (decoder w filename) as [img|] eqn:Hdec.
  - destruct (Z.eq_dec (colorChannels img) 3) as [H3|H3];
      [|destruct (Z.eq_dec (colorChannels img) 4) as [H4|H4]].
    1,2: destruct (Z_lt_dec (m_loadedTextures this) texture_slots) as [Hlt|Hge];
      [ destruct (CreateGLTexture_registers filename tag this w img Hok Hlt Hdec
                    ltac:(auto)) as (w1 & t1 & Heq & Hs & Hd);
        rewrite Heq in Hrun; injection Hrun as <- <- <- <-;
        repeat split; auto using registered_ok; apply registered_ok; auto
      | rewrite (CreateGLTexture_full filename tag this w img) in Hrun;
        [discriminate | lia | exact Hdec | auto] ].
    destruct (CreateGLTexture_rejects filename tag this w img Hdec H3 H4)
      as (w1 & t1 & Heq & Hs & Hd).
    rewrite Heq in Hrun; injection Hrun as <- <- <- <-.
    repeat split; auto; try apply Hok; lia.
  - rewrite (CreateGLTexture_undecoded _ _ _ _ Hdec) in Hrun.
    injection Hrun as <- <- <- <-.
    repeat split; auto; try apply Hok; lia.
Qed.

Lemma CreateGLTexture_defined filename tag this w :
  texture_array_ok this ->
  m_loadedTextures this < texture_slots ->
  exists b this' w' t, CreateGLTexture filename tag this w = Ok (b, this', w', t).
Proof.
  intros Hok Hlt.
  destruct (decoder w filename) as [img|] eqn:Hdec.
  - destruct (Z.eq_dec (colorChannels img) 3) as [H3|H3];
      [|destruct (Z.eq_dec (colorChannels img) 4) as [H4|H4]].
    1,2: destruct (CreateGLTexture_registers filename tag this w img Hok Hlt Hdec
                     ltac:(auto)) as (w1 & t1 & Heq & _); eauto.
    destruct (CreateGLTexture_rejects filename tag this w img Hdec H3 H4)
      as (w1 & t1 & Heq & _); eauto.
  - rewrite (CreateGLTexture_undecoded _ _ _ _ Hdec). eauto.
Qed.

(** C3. When the decoded image has a channel count other than 3 and 4,
    [CreateGLTexture] returns false and the object is exactly as before:
    same texture count, same entries. *)
Theorem CreateGLTexture_unsupported_channels :
  forall filename tag this w img,
    decoder w filename = Some img ->
    colorChannels img <> 3 ->
    colorChannels img <> 4 ->
    exists this' w' t,
      CreateGLTexture filename tag this w = Ok (false, this', w', t) /\
      m_loadedTextures this' = m_loadedTextures this /\
      m_textureIDs this' = m_textureIDs this /\
      this' = this.
Proof.
  intros filename tag this w img Hdec H3 H4.
  destruct (CreateGLTexture_rejects filename tag this w img Hdec H3 H4)
    as (w' & t & Heq & _).
  exists this, w', t. auto.
Qed.

Lemma CreateGLTexture_unsupported_channels_witness :
  exists this' w' t,
    CreateGLTexture "grey.png" "grey" (SceneManager_ctor NonNull)
                    (sample_world (Some grey_image) 1)
    = Ok (false, this', w', t) /\
    m_loadedTextures this' = m_loadedTextures (SceneManager_ctor NonNull) /\
    m_textureIDs this' = m_textureIDs (SceneManager_ctor NonNull) /\
    this' = SceneManager_ctor NonNull.
Proof.
  apply (CreateGLTexture_unsupported_channels "grey.png" "grey" (SceneManager_ctor NonNull)
           (sample_world (Some grey_image) 1) grey_image).
  - reflexivity.
  - cbn. lia.
  - cbn. lia.
Defined.

Lemma count_true_cons b bs :
  count_true (b :: bs) = (if b then 1 else 0) + count_true bs.
Proof. unfold count_true. destruct b; cbn [List.filter length]; lia. Qed.

(** After any run of loads, the count is the number that succeeded. *)
Lemma load_textures_outcome calls :
  forall this w bs this' w' t,
    texture_array_ok this ->
    load_textures calls this w = Ok (bs, this', w', t) ->
    texture_array_ok this' /\
    m_loadedTextures this' = m_loadedTextures this + count_true bs /\
    m_pShaderManager this' = m_pShaderManager this.
Proof.
  induction calls as [|[filename tag] calls IH]; intros this w bs this' w' t Hok Hrun.
  - injection Hrun as <- <- <- <-. unfold count_true. cbn. repeat split; try apply Hok; lia.
  - cbn [load_textures] in Hrun.
    apply bind_inv in Hrun as (b & this1 & w1 & t1 & t2 & Hc & Hrest & ->).
    apply bind_inv in Hrest as (bs' & this2 & w2 & t3 & t4 & Hl & Hret & ->).
    injection Hret as <- <- <- <-.
    destruct (CreateGLTexture_outcome _ _ _ _ _ _ _ _ Hok Hc) as (Hok1 & Hn1 & Hthis1 & _).
    destruct (IH _ _ _ _ _ _ Hok1 Hl) as (Hok2 & Hn2 & Hp2).
    rewrite count_true_cons. repeat split; try apply Hok2; try lia.
    rewrite Hp2. destruct b; rewrite Hthis1; reflexivity.
Qed.

(** *** Lookups *)

Lemma FindTextureID_loop_found n tag textureID index this w :
  FindTextureID_loop n tag textureID index true this w = Ok (textureID, this, w, []).
Proof.
  destruct n; simpl; unfold mbind, M_bind, get_this; simpl;
    rewrite andb_false_r; reflexivity.
Qed.

Lemma FindTextureSlot_loop_found n tag textureSlot index this w :
  FindTextureSlot_loop n tag textureSlot index true this w = Ok (textureSlot, this, w, []).
Proof.
  destruct n; simpl; unfold mbind, M_bind, get_this; simpl;
    rewrite andb_false_r; reflexivity.
Qed.

Lemma loaded_entries_lookup this (i : nat) :
  texture_array_ok this ->
  Z.of_nat i < m_loadedTextures this ->
  exists e, m_textureIDs this !! i = Some e /\
            drop i (loaded_entries this) = e :: drop (S i) (loaded_entries this).
Proof.
  intros [Hlen Hn] Hi. unfold texture_slots in *.
  destruct (lookup_lt_is_Some_2 (m_textureIDs this) i) as [e He]; [lia|].
  exists e. split; [exact He|].
  apply drop_S. unfold loaded_entries. rewrite lookup_take_lt by lia. exact He.
Qed.

Lemma loaded_entries_drop_ge this (i : nat) :
  m_loadedTextures this <= Z.of_nat i -> drop i (loaded_entries this) = [].
Proof.
  intros Hi. apply drop_ge. unfold loaded_entries. rewrite length_take. lia.
Qed.

(** The loops return what a left-to-right search of the registered
    entries returns; [n] passes suffice once they cover what is left. *)
Lemma FindTextureID_loop_spec tag this w :
  texture_array_ok this ->
  forall n (i : nat) textureID,
    (Z.to_nat (m_loadedTextures this) <= i + n)%nat ->
    FindTextureID_loop n tag textureID (Z.of_nat i) false this w =
    Ok (match find_texture tag (drop i (loaded_entries this)) (Z.of_nat i) with
        | Some (_, e) => int_of_uint32 (TEXTURE_INFO.ID e)
        | None => textureID
        end, this, w, []).
Proof.
  intros Hok. induction n as [|n IH]; intros i textureID Hn.
  - cbn [FindTextureID_loop]. step. rewrite andb_true_r.
    destruct (Z.ltb_spec (Z.of_nat i) (m_loadedTextures this)); [lia|].
    rewrite loaded_entries_drop_ge by lia. reflexivity.
  - cbn [FindTextureID_loop]. step. rewrite andb_true_r.
    destruct (Z.ltb_spec (Z.of_nat i) (m_loadedTextures this)) as [Hlt|Hge].
    + destruct (loaded_entries_lookup this i Hok Hlt) as (e & He & Hdrop).
      step_with ltac:(apply (m_textureIDs_at_ok _ _ _ e);
                      [destruct Hok; lia | rewrite Nat2Z.id; exact He]).
      rewrite Hdrop. cbn [find_texture].
      destruct (String.eqb (TEXTURE_INFO.tag e) tag).
      * rewrite FindTextureID_loop_found. reflexivity.
      * replace (Z.of_nat i + 1) with (Z.of_nat (S i)) by lia.
        rewrite IH by lia. reflexivity.
    + rewrite loaded_entries_drop_ge by lia. reflexivity.
Qed.

Lemma FindTextureSlot_loop_spec tag this w :
  texture_array_ok this ->
  forall n (i : nat) textureSlot,
    (Z.to_nat (m_loadedTextures this) <= i + n)%nat ->
    FindTextureSlot_loop n tag textureSlot (Z.of_nat i) false this w =
    Ok (match find_texture tag (drop i (loaded_entries this)) (Z.of_nat i) with
        | Some (index, _) => index
        | None => textureSlot
        end, this, w, []).
Proof.
  intros Hok. induction n as [|n IH]; intros i textureSlot Hn.
  - cbn [FindTextureSlot_loop]. step. rewrite andb_true_r.
    destruct (Z.ltb_spec (Z.of_nat i) (m_loadedTextures this)); [lia|].
    rewrite loaded_entries_drop_ge by lia. reflexivity.
  - cbn [FindTextureSlot_loop]. step. rewrite andb_true_r.
    destruct (Z.ltb_spec (Z.of_nat i) (m_loadedTextures this)) as [Hlt|Hge].
    + destruct (loaded_entries_lookup this i Hok Hlt) as (e & He & Hdrop).
      step_with ltac:(apply (m_textureIDs_at_ok _ _ _ e);
                      [destruct Hok; lia | rewrite Nat2Z.id; exact He]).
      rewrite Hdrop. cbn [find_texture].
      destruct (String.eqb (TEXTURE_INFO.tag e) tag).
      * rewrite FindTextureSlot_loop_found. reflexivity.
      * replace (Z.of_nat i + 1) with (Z.of_nat (S i)) by lia.
        rewrite IH by lia. reflexivity.
    + rewrite loaded_entries_drop_ge by lia. reflexivity.
Qed.

Lemma FindTextureID_spec tag this w :
  texture_array_ok this ->
  FindTextureID tag this w =
  Ok (match find_texture tag (loaded_entries this) 0 with
      | Some (_, e) => int_of_uint32 (TEXTURE_INFO.ID e)
      | None => -1
      end, this, w, []).
Proof.
  intros Hok. unfold FindTextureID. step.
  rewrite (FindTextureID_loop_spec tag this w Hok _ 0%nat) by lia. reflexivity.
Qed.

Lemma FindTextureSlot_spec tag this w :
  texture_array_ok this ->
  FindTextureSlot tag this w =
  Ok (match find_texture tag (loaded_entries this) 0 with
      | Some (index, _) => index
      | None => -1
      end, this, w, []).
Proof.
  intros Hok. unfold FindTextureSlot. step.
  rewrite (FindTextureSlot_loop_spec tag this w Hok _ 0%nat) by lia. reflexivity.
Qed.

Lemma find_texture_Some tag :
  forall entries index j e,
    find_texture tag entries index = Some (j, e) ->
    index <= j < index + Z.of_nat (length entries) /\
    entries !! Z.to_nat (j - index) = Some e /\
    TEXTURE_INFO.tag e = tag.
Proof.
  induction entries as [|e0 entries IH]; intros index j e H; [discriminate|].
  cbn [find_texture] in H.
  destruct (String.eqb_spec (TEXTURE_INFO.tag e0) tag) as [Heq|Hne].
  - injection H as <- <-. rewrite Z.sub_diag. cbn [length]. repeat split; auto; lia.
  - destruct (IH _ _ _ H) as (Hj & Hl & Ht). cbn [length].
    repeat split; auto; try lia.
    replace (Z.to_nat (j - index)) with (S (Z.to_nat (j - (index + 1)))) by lia.
    exact Hl.
Qed.

Lemma find_texture_app_tagged tag entries name :
  forall index, exists j e,
    find_texture tag (entries ++ [TEXTURE_INFO.Build tag name]) index = Some (j, e).
Proof.
  induction entries as [|e0 entries IH]; intros index; cbn [app find_texture].
  - cbn. rewrite String.eqb_refl. eauto.
  - destruct (String.eqb (TEXTURE_INFO.tag e0) tag); eauto.
Qed.

Lemma int_of_uint32_usable name : usable_name name -> int_of_uint32 name <> -1.
Proof.
  unfold usable_name, int_of_uint32. intros H.
  destruct (Z.ltb_spec name (2 ^ 31)); lia.
Qed.

(** C4, as amended.  A decoded 3- or 4-channel image loaded under [tag]
    while a slot is free is registered, and afterwards [FindTextureSlot]
    returns the index, in [0, loadedCount), of a registered entry tagged
    [tag] and [FindTextureID] returns that entry's name read as an
    [int].  That value is the sentinel [-1] exactly when the entry's
    32-bit name is 0xFFFFFFFF; for any other name it differs from the
    sentinel. *)
Theorem CreateGLTexture_then_find :
  forall filename tag this w img,
    texture_array_ok this ->
    m_loadedTextures this < texture_slots ->
    decoder w filename = Some img ->
    colorChannels img = 3 \/ colorChannels img = 4 ->
    exists this' w' t textureID textureSlot e,
      CreateGLTexture filename tag this w = Ok (true, this', w', t) /\
      FindTextureID tag this' w' = Ok (textureID, this', w', []) /\
      FindTextureSlot tag this' w' = Ok (textureSlot, this', w', []) /\
      0 <= textureSlot < m_loadedTextures this' /\
      m_textureIDs this' !! Z.to_nat textureSlot = Some e /\
      TEXTURE_INFO.tag e = tag /\
      textureID = int_of_uint32 (TEXTURE_INFO.ID e) /\
      (usable_name (TEXTURE_INFO.ID e) -> textureID <> -1) /\
      (0 <= TEXTURE_INFO.ID e < 2 ^ 32 ->
       (textureID = -1 <-> TEXTURE_INFO.ID e = 2 ^ 32 - 1)).
Proof.
  intros filename tag this w img Hok Hlt Hdec Hc.
  destruct (CreateGLTexture_registers filename tag this w img Hok Hlt Hdec Hc)
    as (w' & t & Hload & _).
  set (name := uint32_of_int (gl_fresh w (gl_generated w))) in *.
  pose proof (registered_ok this tag name Hok Hlt) as Hok'.
  pose proof (loaded_entries_registered this tag name Hok Hlt) as Hentries.
  destruct (find_texture_app_tagged tag (loaded_entries this) name 0) as (j & e & Hfind).
  rewrite <- Hentries in Hfind.
  destruct (find_texture_Some _ _ _ _ _ Hfind) as (Hj & Hlook & Htag).
  rewrite Z.sub_0_r in Hlook.
  assert (Hlen : Z.of_nat (length (loaded_entries (registered this tag name)))
                 = m_loadedTextures (registered this tag name)).
  { unfold loaded_entries. rewrite length_take. destruct Hok' as [Hl Hn].
    rewrite Hl. unfold texture_slots in *. lia. }
  exists (registered this tag name), w', t, (int_of_uint32 (TEXTURE_INFO.ID e)), j, e.
  split; [exact Hload|].
  split; [rewrite (FindTextureID_spec tag _ w' Hok'), Hfind; reflexivity|].
  split; [rewrite (FindTextureSlot_spec tag _ w' Hok'), Hfind; reflexivity|].
  split; [lia|].
  split.
  { unfold loaded_entries in Hlook. apply lookup_take_Some in Hlook. tauto. }
  split; [exact Htag|]. split; [reflexivity|].
  split; [apply int_of_uint32_usable|].
  intros Hrange. unfold int_of_uint32.
  destruct (Z.ltb_spec (TEXTURE_INFO.ID e) (2 ^ 31)); lia.
Qed.

Lemma CreateGLTexture_then_find_witness :
  exists this' w' t textureID textureSlot e,
    CreateGLTexture "a.jpg" "a" (SceneManager_ctor NonNull) (sample_world (Some rgb_image) 1)
    = Ok (true, this', w', t) /\
    FindTextureID "a" this' w' = Ok (textureID, this', w', []) /\
    FindTextureSlot "a" this' w' = Ok (textureSlot, this', w', []) /\
    0 <= textureSlot < m_loadedTextures this' /\
    m_textureIDs this' !! Z.to_nat textureSlot = Some e /\
    TEXTURE_INFO.tag e = "a"%string /\
    textureID = int_of_uint32 (TEXTURE_INFO.ID e) /\
    (usable_name (TEXTURE_INFO.ID e) -> textureID <> -1) /\
    (0 <= TEXTURE_INFO.ID e < 2 ^ 32 ->
     (textureID = -1 <-> TEXTURE_INFO.ID e = 2 ^ 32 - 1)).
Proof.
  apply (CreateGLTexture_then_find "a.jpg" "a" (SceneManager_ctor NonNull)
           (sample_world (Some rgb_image) 1) rgb_image).
  - split; [reflexivity | vm_compute; split; discriminate].
  - reflexivity.
  - reflexivity.
  - left. reflexivity.
Defined.

(** C4 as stated fails on the sentinel.  On a fresh object, with a
    decoded 3-channel image and a driver that names the new texture
    0xFFFFFFFF, the load succeeds, [FindTextureSlot] finds the tag in
    slot 0, and [FindTextureID] returns [-1] for the tag just loaded. *)
Lemma CreateGLTexture_then_find_counterexample :
  m_loadedTextures (SceneManager_ctor NonNull) < texture_slots /\
  decoder (sample_world (Some rgb_image) (2 ^ 32 - 1)) "a.jpg" = Some rgb_image /\
  colorChannels rgb_image = 3 /\
  value_of (CreateGLTexture "a.jpg" "a" (SceneManager_ctor NonNull)
                            (sample_world (Some rgb_image) (2 ^ 32 - 1))) = Some true /\
  value_of ((CreateGLTexture "a.jpg" "a" ;; FindTextureSlot "a")
              (SceneManager_ctor NonNull) (sample_world (Some rgb_image) (2 ^ 32 - 1)))
  = Some 0 /\
  value_of ((CreateGLTexture "a.jpg" "a" ;; FindTextureID "a")
              (SceneManager_ctor NonNull) (sample_world (Some rgb_image) (2 ^ 32 - 1)))
  = Some (-1).
Proof.
  split; [reflexivity|]. split; [reflexivity|]. split; [reflexivity|].
  split; [vm_compute; reflexivity|]. split; vm_compute; reflexivity.
Qed.

(** *** Binding *)

(** The world is a record of seven fields; two worlds are equal when
    the fields are. *)
Lemma World_eq w w' :
  decoder w = decoder w' -> gl_fresh w = gl_fresh w' ->
  gl_generated w = gl_generated w' -> gl_active w = gl_active w' ->
  gl_bound w = gl_bound w' -> indeterminate w = indeterminate w' ->
  declared w = declared w' -> w = w'.
Proof. destruct w, w'. cbn. intros; subst; reflexivity. Qed.

(** One pass of the loop of [BindGLTextures] per entry from [i] on. *)
Lemma BindGLTextures_loop this :
  forall n (i : nat) w,
    length (m_textureIDs this) = Z.to_nat texture_slots ->
    (i + n <= Z.to_nat texture_slots)%nat ->
    exists w',
      for_range n (Z.of_nat i) (fun i =>
        glActiveTexture (GL_TEXTURE0 + i) ;;
        e ← m_textureIDs_at i;
        glBindTexture GL_TEXTURE_2D (TEXTURE_INFO.ID e)) this w
      = Ok (tt, this, w', bind_calls (Z.of_nat i) (take n (drop i (m_textureIDs this)))) /\
      (forall (j : nat) e, (i <= j < i + n)%nat -> m_textureIDs this !! j = Some e ->
                           bound_texture w' (Z.of_nat j) = TEXTURE_INFO.ID e) /\
      (forall unit, ~ Z.of_nat i <= unit < Z.of_nat (i + n) ->
                    bound_texture w' unit = bound_texture w unit).
Proof.
  induction n as [|n IH]; intros i w Hlen Hn.
  - exists w. cbn [for_range take bind_calls]. split; [reflexivity|].
    split; [intros; lia | reflexivity].
  - destruct (lookup_lt_is_Some_2 (m_textureIDs this) i) as [e He]; [lia|].
    cbn [for_range].
    set (w1 := {| decoder := decoder w; gl_fresh := gl_fresh w;
                  gl_generated := gl_generated w; gl_active := Z.of_nat i;
                  gl_bound := <[Z.of_nat i := TEXTURE_INFO.ID e]> (gl_bound w);
                  indeterminate := indeterminate w; declared := declared w |}).
    assert (Hbody :
      (glActiveTexture (GL_TEXTURE0 + Z.of_nat i) ;;
       e ← m_textureIDs_at (Z.of_nat i);
       glBindTexture GL_TEXTURE_2D (TEXTURE_INFO.ID e)) this w
      = Ok (tt, this, w1,
            [GlActiveTexture (GL_TEXTURE0 + Z.of_nat i);
             GlBindTexture GL_TEXTURE_2D (TEXTURE_INFO.ID e)])).
    { step.
      step_with ltac:(apply (m_textureIDs_at_ok _ _ _ e);
                      [unfold texture_slots in *; lia | rewrite Nat2Z.id; exact He]).
      unfold glBindTexture. step. step. unfold emit. cbn.
      f_equal. f_equal. f_equal. apply World_eq; cbn; try reflexivity; f_equal; lia. }
    destruct (IH (S i) w1 Hlen ltac:(lia)) as (w' & Hrun & Hin & Hout).
    exists w'. split; [|split].
    + step_with ltac:(exact Hbody).
      replace (Z.of_nat i + 1) with (Z.of_nat (S i)) by lia.
      rewrite Hrun. rewrite (drop_S _ _ _ He). cbn [take bind_calls app].
      replace (Z.of_nat i + 1) with (Z.of_nat (S i)) by lia. reflexivity.
    + intros j e' Hj Hj'.
      destruct (decide (j = i)) as [->|Hne].
      * rewrite Hout by lia. unfold bound_texture, w1. cbn [gl_bound].
        rewrite lookup_insert_eq. cbn. congruence.
      * apply Hin; [lia | exact Hj'].
    + intros unit Hu. rewrite Hout by lia.
      unfold bound_texture, w1. cbn [gl_bound].
      rewrite lookup_insert_ne by lia. reflexivity.
Qed.

Lemma BindGLTextures_spec this w :
  texture_array_ok this ->
  exists w',
    BindGLTextures this w = Ok (tt, this, w', bind_calls 0 (loaded_entries this)) /\
    (forall i e, 0 <= i < m_loadedTextures this ->
                 m_textureIDs this !! Z.to_nat i = Some e ->
                 bound_texture w' i = TEXTURE_INFO.ID e) /\
    (forall unit, ~ 0 <= unit < m_loadedTextures this ->
                  bound_texture w' unit = bound_texture w unit).
Proof.
  intros [Hlen Hn].
  destruct (BindGLTextures_loop this (Z.to_nat (m_loadedTextures this)) 0 w Hlen
              ltac:(unfold texture_slots in *; lia)) as (w' & Hrun & Hin & Hout).
  exists w'. split; [|split].
  - unfold BindGLTextures. step. change (Z.of_nat 0) with 0 in Hrun. rewrite Hrun. reflexivity.
  - intros i e Hi He. rewrite <- (Z2Nat.id i) by lia. apply Hin; [lia | exact He].
  - intros unit Hu. apply Hout. lia.
Qed.

(** C5. After any series of loads on a fresh object, of which N
    returned true, [BindGLTextures] makes for each i < N the two calls
    that select unit i and bind the name of entry i, in order, and no
    other; afterwards unit i holds the name of entry i for every i in
    [0, N), and every other unit holds what it held before. *)
Theorem BindGLTextures_binds_entry_i_to_unit_i :
  forall p calls w0 bs this w t0,
    load_textures calls (SceneManager_ctor p) w0 = Ok (bs, this, w, t0) ->
    exists w',
      m_loadedTextures this = count_true bs /\
      BindGLTextures this w = Ok (tt, this, w', bind_calls 0 (loaded_entries this)) /\
      (forall i e, 0 <= i < count_true bs ->
                   m_textureIDs this !! Z.to_nat i = Some e ->
                   bound_texture w' i = TEXTURE_INFO.ID e) /\
      (forall unit, ~ 0 <= unit < count_true bs ->
                    bound_texture w' unit = bound_texture w unit).
Proof.
  intros p calls w0 bs this w t0 Hloads.
  destruct (load_textures_outcome calls _ _ _ _ _ _ (SceneManager_ctor_ok p) Hloads)
    as (Hok & Hcount & _).
  cbn [m_loadedTextures SceneManager_ctor] in Hcount. rewrite Z.add_0_l in Hcount.
  destruct (BindGLTextures_spec this w Hok) as (w' & Hrun & Hin & Hout).
  exists w'. rewrite <- Hcount. auto.
Qed.

Lemma BindGLTextures_binds_entry_i_to_unit_i_witness :
  exists bs this w t0 w',
    load_textures [("a.jpg", "a"); ("b.jpg", "b")]%string (SceneManager_ctor NonNull)
                  (sample_world (Some rgb_image) 1) = Ok (bs, this, w, t0) /\
    m_loadedTextures this = count_true bs /\
    BindGLTextures this w = Ok (tt, this, w', bind_calls 0 (loaded_entries this)) /\
    (forall i e, 0 <= i < count_true bs ->
                 m_textureIDs this !! Z.to_nat i = Some e ->
                 bound_texture w' i = TEXTURE_INFO.ID e) /\
    (forall unit, ~ 0 <= unit < count_true bs ->
                  bound_texture w' unit = bound_texture w unit).
Proof.
  assert (H : { r | load_textures [("a.jpg", "a"); ("b.jpg", "b")]%string
                                  (SceneManager_ctor NonNull)
                                  (sample_world (Some rgb_image) 1) = Ok r })
    by (eexists; vm_compute; reflexivity).
  destruct H as [[[[bs this] w] t0] H].
  destruct (BindGLTextures_binds_entry_i_to_unit_i NonNull _ _ _ _ _ _ H) as [w' P].
  exists bs, this, w, t0, w'. exact (conj H P).
Defined.

(** *** Teardown *)

(** One pass of the loop of [DestroyGLTextures] per entry from [i] on:
    each pass asks the driver for a new name and stores it. *)
Lemma DestroyGLTextures_loop :
  forall n (i : nat) this w,
    length (m_textureIDs this) = Z.to_nat texture_slots ->
    (i + n <= Z.to_nat texture_slots)%nat ->
    exists ids' w',
      for_range n (Z.of_nat i) (fun i =>
        e ← m_textureIDs_at i;
        name ← glGenTextures;
        m_textureIDs_set i (TEXTURE_INFO.Build (TEXTURE_INFO.tag e) name)) this w
      = Ok (tt, set_textures this ids' (m_loadedTextures this), w',
            map (fun k => GlGenTextures (uint32_of_int (gl_fresh w (gl_generated w + k)%nat)))
                (seq 0 n)) /\
      length ids' = length (m_textureIDs this) /\
      (forall (j : nat) e, (i <= j < i + n)%nat -> m_textureIDs this !! j = Some e ->
         ids' !! j = Some (TEXTURE_INFO.Build (TEXTURE_INFO.tag e)
                             (uint32_of_int (gl_fresh w (gl_generated w + (j - i))%nat)))) /\
      (forall j : nat, ~ (i <= j < i + n)%nat -> ids' !! j = m_textureIDs this !! j) /\
      gl_fresh w' = gl_fresh w /\
      gl_generated w' = (gl_generated w + n)%nat.
Proof.
  induction n as [|n IH]; intros i this w Hlen Hn.
  - exists (m_textureIDs this), w. cbn [for_range seq map].
    split; [destruct this; reflexivity|].
    repeat split; auto; intros; lia.
  - destruct (lookup_lt_is_Some_2 (m_textureIDs this) i) as [e He]; [lia|].
    cbn [for_range].
    set (name := uint32_of_int (gl_fresh w (gl_generated w))).
    set (this1 := set_textures this
                    (<[i := TEXTURE_INFO.Build (TEXTURE_INFO.tag e) name]> (m_textureIDs this))
                    (m_loadedTextures this)).
    set (w1 := {| decoder := decoder w; gl_fresh := gl_fresh w;
                  gl_generated := S (gl_generated w); gl_active := gl_active w;
                  gl_bound := gl_bound w;
                  indeterminate := indeterminate w; declared := declared w |}).
    assert (Hbody :
      (e ← m_textureIDs_at (Z.of_nat i);
       name ← glGenTextures;
       m_textureIDs_set (Z.of_nat i) (TEXTURE_INFO.Build (TEXTURE_INFO.tag e) name)) this w
      = Ok (tt, this1, w1, [GlGenTextures name])).
    { step_with ltac:(apply (m_textureIDs_at_ok _ _ _ e);
                      [unfold texture_slots in *; lia | rewrite Nat2Z.id; exact He]).
      step.
      rewrite m_textureIDs_set_ok by (unfold texture_slots in *; lia).
      rewrite Nat2Z.id. reflexivity. }
    destruct (IH (S i) this1 w1) as (ids' & w' & Hrun & Hlen' & Hin & Hout & Hfresh & Hgen).
    { unfold this1. cbn. rewrite length_insert. exact Hlen. }
    { lia. }
    exists ids', w'. split; [|repeat split].
    + step_with ltac:(exact Hbody).
      replace (Z.of_nat i + 1) with (Z.of_nat (S i)) by lia.
      rewrite Hrun. cbn [seq map app]. unfold this1, set_textures; cbn.
      f_equal. f_equal. f_equal.
      * rewrite Nat.add_0_r. reflexivity.
      * rewrite <- seq_shift, map_map. apply map_ext. intros k.
        do 3 f_equal. lia.
    + rewrite Hlen'. unfold this1. cbn. apply length_insert.
    + intros j e' Hj Hj'.
      destruct (decide (j = i)) as [->|Hne].
      * rewrite Hout by lia. unfold this1. cbn [m_textureIDs set_textures].
        rewrite list_lookup_insert_eq by lia.
        replace (i - i)%nat with 0%nat by lia. rewrite Nat.add_0_r.
        rewrite He in Hj'. injection Hj' as <-. reflexivity.
      * rewrite (Hin j e') by
          (try lia; unfold this1; cbn [m_textureIDs set_textures];
           rewrite list_lookup_insert_ne by lia; exact Hj').
        cbn [gl_fresh gl_generated w1].
        replace (S (gl_generated w) + (j - S i))%nat with (gl_generated w + (j - i))%nat by lia.
        reflexivity.
    + intros j Hj. rewrite Hout by lia. unfold this1. cbn [m_textureIDs set_textures].
      apply list_lookup_insert_ne. lia.
    + rewrite Hfresh. reflexivity.
    + rewrite Hgen. cbn. lia.
Qed.

(** C8. On a well-formed object with N registered textures,
    [DestroyGLTextures] makes exactly N calls, each a [glGenTextures],
    and stores the N new names over the registered ones (tags and the
    unused slots keep their contents); it makes no [glDeleteTextures]
    call.  The destructor makes the same calls after deleting the
    meshes. *)
Theorem DestroyGLTextures_generates_instead_of_deleting :
  forall this w,
    texture_array_ok this ->
    exists this' w' t,
      DestroyGLTextures this w = Ok (tt, this', w', t) /\
      t = map (fun k => GlGenTextures (uint32_of_int (gl_fresh w (gl_generated w + k)%nat)))
              (seq 0 (Z.to_nat (m_loadedTextures this))) /\
      Z.of_nat (length (List.filter is_glGenTextures t)) = m_loadedTextures this /\
      List.filter is_glDeleteTextures t = [] /\
      m_loadedTextures this' = m_loadedTextures this /\
      (forall i e, 0 <= i < m_loadedTextures this ->
         m_textureIDs this !! Z.to_nat i = Some e ->
         m_textureIDs this' !! Z.to_nat i
         = Some (TEXTURE_INFO.Build (TEXTURE_INFO.tag e)
                   (uint32_of_int (gl_fresh w (gl_generated w + Z.to_nat i)%nat)))) /\
      (forall i, m_loadedTextures this <= i ->
         m_textureIDs this' !! Z.to_nat i = m_textureIDs this !! Z.to_nat i) /\
      exists this'' w'',
        SceneManager_dtor this w
        = Ok (tt, this'', w'',
              match m_basicMeshes this with
              | NULL => t
              | NonNull => DeleteMeshes :: t
              end).
Proof.
  intros this w [Hlen Hn].
  destruct (DestroyGLTextures_loop (Z.to_nat (m_loadedTextures this)) 0 this w Hlen
              ltac:(unfold texture_slots in *; lia))
    as (ids' & w' & Hrun & Hlen' & Hin & Hout & Hfresh & Hgen).
  change (Z.of_nat 0) with 0 in Hrun.
  eexists _, w', _. split; [|split; [reflexivity|]].
  { unfold DestroyGLTextures. step. rewrite Hrun. reflexivity. }
  assert (Hgens : forall l : list nat,
            List.filter is_glGenTextures
              (map (fun k => GlGenTextures (uint32_of_int (gl_fresh w (gl_generated w + k)%nat))) l)
            = map (fun k => GlGenTextures (uint32_of_int (gl_fresh w (gl_generated w + k)%nat))) l).
  { induction l as [|k l IHl]; [reflexivity|]. cbn [map List.filter is_glGenTextures].
    rewrite IHl. reflexivity. }
  assert (Hdels : forall l : list nat,
            List.filter is_glDeleteTextures
              (map (fun k => GlGenTextures (uint32_of_int (gl_fresh w (gl_generated w + k)%nat))) l)
            = []).
  { induction l as [|k l IHl]; [reflexivity|]. cbn [map List.filter is_glDeleteTextures].
    exact IHl. }
  split; [rewrite Hgens, length_map, length_seq; lia|].
  split; [apply Hdels|].
  split; [reflexivity|].
  split.
  { intros i e Hi He. cbn [m_textureIDs set_textures].
    rewrite (Hin (Z.to_nat i) e) by (try lia; exact He).
    rewrite Nat.sub_0_r. reflexivity. }
  split.
  { intros i Hi. cbn [m_textureIDs set_textures]. apply Hout. lia. }
  destruct (DestroyGLTextures_loop (Z.to_nat (m_loadedTextures this)) 0
              {| m_pShaderManager := NULL; m_basicMeshes := NULL;
                 m_textureIDs := m_textureIDs this;
                 m_loadedTextures := m_loadedTextures this;
                 m_objectMaterials := m_objectMaterials this |} w Hlen
              ltac:(unfold texture_slots in *; lia))
    as (ids2 & w2 & Hrun2 & _).
  change (Z.of_nat 0) with 0 in Hrun2.
  unfold SceneManager_dtor. step. step.
  cbn [m_pShaderManager m_basicMeshes m_textureIDs m_loadedTextures m_objectMaterials].
  destruct (m_basicMeshes this); step; step; step;
    unfold DestroyGLTextures; step;
    cbn [m_pShaderManager m_basicMeshes m_textureIDs m_loadedTextures m_objectMaterials];
    rewrite Hrun2; eexists _, _; reflexivity.
Qed.

Lemma DestroyGLTextures_generates_instead_of_deleting_witness :
  exists this' w' t,
    DestroyGLTextures
      (registered (registered (SceneManager_ctor NonNull) "a" 1) "b" 2)
      (sample_world None 3) = Ok (tt, this', w', t) /\
    t = [GlGenTextures 3; GlGenTextures 4] /\
    List.filter is_glDeleteTextures t = [] /\
    map TEXTURE_INFO.ID (loaded_entries this') = [3; 4].
Proof.
  destruct (DestroyGLTextures_generates_instead_of_deleting
              (registered (registered (SceneManager_ctor NonNull) "a" 1) "b" 2)
              (sample_world None 3))
    as (this' & w' & t & Hrun & Ht & _ & Hdel & Hn & Hin & _).
  - split; [reflexivity | vm_compute; split; discriminate].
  - exists this', w', t. split; [exact Hrun|]. split; [exact Ht|]. split; [exact Hdel|].
    unfold loaded_entries. rewrite Hn.
    pose proof (Hin 0 _ ltac:(vm_compute; split; [discriminate | reflexivity]) eq_refl) as H0.
    pose proof (Hin 1 _ ltac:(vm_compute; split; [discriminate | reflexivity]) eq_refl) as H1.
    change (Z.to_nat (m_loadedTextures
              (registered (registered (SceneManager_ctor NonNull) "a" 1) "b" 2)))
      with 2%nat.
    change (Z.to_nat 0) with 0%nat in H0. change (Z.to_nat 1) with 1%nat in H1.
    destruct (m_textureIDs this') as [|e0 [|e1 l]]; try discriminate.
    injection H0 as ->. injection H1 as ->. reflexivity.
Defined.

(** *** The setup sequence *)

Lemma filter_bind_calls (f : event -> bool) entries :
  (forall texture, f (GlActiveTexture texture) = false) ->
  (forall target name, f (GlBindTexture target name) = false) ->
  forall unit, List.filter f (bind_calls unit entries) = [].
Proof.
  intros Ha Hb. induction entries as [|e entries IH]; intros unit; [reflexivity|].
  cbn [bind_calls List.filter]. rewrite Ha, Hb. apply IH.
Qed.

(** One load of the setup sequence: defined while a slot is free, and
    the count grows by at most one. *)
Lemma CreateGLTexture_within filename tag this w (k : Z) :
  texture_array_ok this ->
  m_loadedTextures this <= k ->
  k < texture_slots ->
  exists b this' w' t,
    CreateGLTexture filename tag this w = Ok (b, this', w', t) /\
    texture_array_ok this' /\
    m_loadedTextures this' <= k + 1 /\
    List.filter is_stbi_load t = [StbiLoad filename].
Proof.
  intros Hok Hk Hlt.
  destruct (CreateGLTexture_defined filename tag this w Hok ltac:(lia))
    as (b & this' & w' & t & Hrun).
  destruct (CreateGLTexture_outcome _ _ _ _ _ _ _ _ Hok Hrun) as (Hok' & Hn & _ & Hs & _).
  exists b, this', w', t. repeat split; try apply Hok'; auto.
  destruct b; lia.
Qed.

Ltac load_step Hok Hk :=
  match goal with
  | |- context [ (CreateGLTexture ?f ?tag ≫= _) ?this ?w ] =>
      let b := fresh "b" in let this' := fresh "this" in
      let w' := fresh "w" in let t := fresh "t" in
      let Hrun := fresh "Hrun" in let Hok' := fresh "Hok" in
      let Hk' := fresh "Hk" in let Hs := fresh "Hs" in
      destruct (CreateGLTexture_within f tag this w _ Hok Hk ltac:(reflexivity))
        as (b & this' & w' & t & Hrun & Hok' & Hk' & Hs);
      rewrite (bind_Ok _ _ _ _ _ _ _ _ Hrun); cbv beta;
      clear Hrun Hok Hk; rename Hok' into Hok; rename Hk' into Hk
  end.

(** C10. Started on a freshly constructed object, whatever the decoder
    and the driver answer, [LoadSceneTextures] is defined, so no load
    writes outside the 16-slot array; it makes exactly the sixteen
    [stbi_load] calls listed, one per [CreateGLTexture], and leaves the
    array with its 16 slots and a count between 0 and 16. *)
Theorem LoadSceneTextures_stays_within_array :
  forall p w,
    exists this' w' t,
      LoadSceneTextures (SceneManager_ctor p) w = Ok (tt, this', w', t) /\
      List.filter is_stbi_load t
      = map StbiLoad
          [ "textures/plastic_dark_seamless.jpg"; "textures/wood_knots_seamlessr.jpg";
            "textures/greywall.jpg"; "textures/rubber_circles_seamless.jpg";
            "textures/screen_wallpaper_2.jpg"; "textures/PCscreen.jpg";
            "textures/blackmetal.jpg"; "textures/motherboard.jpg";
            "textures/Riolu.jpg"; "textures/rainbowFade.jpg";
            "textures/motherboardback.jpeg"; "textures/blue.jpg";
            "textures/pink.jpg"; "textures/Keyboardtop.jpg";
            "textures/RAMside.jpg"; "textures/blackplasticmaterial.jpg" ]%string /\
      length (List.filter is_stbi_load t) = 16%nat /\
      length (m_textureIDs this') = 16%nat /\
      0 <= m_loadedTextures this' <= 16.
Proof.
  intros p w.
  pose proof (SceneManager_ctor_ok p) as Hok.
  assert (Hk : m_loadedTextures (SceneManager_ctor p) <= 0) by (cbn; lia).
  unfold LoadSceneTextures. cbv zeta.
  do 16 (load_step Hok Hk).
  match goal with
  | |- context [ BindGLTextures ?this ?w ] =>
      destruct (BindGLTextures_spec this w Hok) as (w' & Hbind & _)
  end.
  rewrite Hbind.
  eexists _, _, _. split; [reflexivity|].
  match goal with
  | |- List.filter is_stbi_load ?calls = ?files /\ _ =>
      assert (Hfilter : List.filter is_stbi_load calls = files)
  end.
  { rewrite !List.filter_app.
    rewrite filter_bind_calls by reflexivity.
    repeat match goal with H : List.filter is_stbi_load _ = _ |- _ => rewrite H; clear H end.
    reflexivity. }
  split; [exact Hfilter|].
  split; [rewrite Hfilter; reflexivity|].
  destruct Hok as [Hlen Hn]. unfold texture_slots in *.
  split; [exact Hlen | lia].
Qed.

(** ** Replaying the render script *)

(** What [SetShaderMaterial] uploads: nothing for an empty registry,
    otherwise the properties of the first entry with the tag, or, when
    no entry has it, the contents of the uninitialised local. *)
Lemma SetShaderMaterial_spec materialTag this w :
  m_pShaderManager this = NonNull ->
  exists w',
    SetShaderMaterial materialTag this w
    = Ok (tt, this, w',
          match m_objectMaterials this with
          | [] => []
          | _ :: _ =>
              material_uploads
                match List.find (has_tag materialTag) (m_objectMaterials this) with
                | Some e => e
                | None => indeterminate w (declared w)
                end
          end).
Proof.
  intros Hp. unfold SetShaderMaterial. step.
  destruct (m_objectMaterials this) as [|e0 l] eqn:Hl.
  - exists w. reflexivity.
  - change (Z.of_nat (length (e0 :: l)) >? 0) with true. cbv iota.
    step_with ltac:(unfold declare_OBJECT_MATERIAL; step; step; reflexivity).
    rewrite (bind_Ok _ _ _ _ _ _ _ _ (FindMaterial_spec _ _ _ _)).
    rewrite Hl. cbv beta iota.
    unfold m_pShaderManager_set, mbind, M_bind, get_this, emit. cbv beta iota.
    rewrite !Hp. eexists.
    destruct (List.find (has_tag materialTag) (e0 :: l)); reflexivity.
Qed.

(** *** The script on an object with every requested material *)

Lemma advance_0 w : advance 0 w = w.
Proof. destruct w. reflexivity. Qed.

Section Script.
Variable this : SceneManager.
Hypothesis Hp : m_pShaderManager this = NonNull.
Hypothesis Hb : m_basicMeshes this = NonNull.
Hypothesis Hok : texture_array_ok this.

Lemma SetTransformations_NonNull scaleXYZ rx ry rz positionXYZ w :
  SetTransformations scaleXYZ rx ry rz positionXYZ this w
  = Ok (tt, this, w,
        [SetUniform "model" (Mat4Value (modelView scaleXYZ rx ry rz positionXYZ))]).
Proof.
  unfold SetTransformations, m_pShaderManager_set, mbind, M_bind, get_this, emit.
  repeat (rewrite Hp; cbv beta iota). reflexivity.
Qed.

Lemma SetShaderColor_NonNull r g b a w :
  SetShaderColor r g b a this w
  = Ok (tt, this, w,
        [SetUniform "bUseTexture" (IntValue 0);
         SetUniform "objectColor" (Vec4Value (glm.Vec4 r g b a))]).
Proof.
  unfold SetShaderColor, m_pShaderManager_set, mbind, M_bind, get_this, emit.
  repeat (rewrite Hp; cbv beta iota). reflexivity.
Qed.

Lemma SetTextureUVScale_NonNull u v w :
  SetTextureUVScale u v this w
  = Ok (tt, this, w, [SetUniform "UVscale" (Vec2Value (glm.Vec2 u v))]).
Proof.
  unfold SetTextureUVScale, m_pShaderManager_set, mbind, M_bind, get_this, emit.
  repeat (rewrite Hp; cbv beta iota). reflexivity.
Qed.

Lemma SetShaderTexture_NonNull textureTag w :
  SetShaderTexture textureTag this w
  = Ok (tt, this, w,
        [SetUniform "bUseTexture" (IntValue 1);
         SetUniform "objectTexture"
           (Sampler2DValue
              match find_texture textureTag (loaded_entries this) 0 with
              | Some (index, _) => index
              | None => -1
              end)]).
Proof.
  unfold SetShaderTexture. step. rewrite Hp.
  step_with ltac:(unfold m_pShaderManager_set; step; rewrite Hp; reflexivity).
  step_with ltac:(apply FindTextureSlot_spec; exact Hok).
  unfold m_pShaderManager_set. step. rewrite Hp. reflexivity.
Qed.

Lemma m_basicMeshes_call_NonNull e w :
  m_basicMeshes_call e this w = Ok (tt, this, w, [e]).
Proof. unfold m_basicMeshes_call. step. rewrite Hb. reflexivity. Qed.

Lemma SetShaderMaterial_found materialTag e k w :
  List.find (has_tag materialTag) (m_objectMaterials this) = Some e ->
  SetShaderMaterial materialTag this (advance k w)
  = Ok (tt, this, advance (S k) w, material_uploads e).
Proof.
  intros Hfind. unfold SetShaderMaterial. step.
  destruct (m_objectMaterials this) as [|e0 l] eqn:Hl; [discriminate|].
  change (Z.of_nat (length (e0 :: l)) >? 0) with true. cbv iota.
  step_with ltac:(unfold declare_OBJECT_MATERIAL; step; step; reflexivity).
  rewrite (bind_Ok _ _ _ _ _ _ _ _ (FindMaterial_spec _ _ _ _)).
  rewrite Hl, Hfind. cbv beta iota.
  unfold m_pShaderManager_set, mbind, M_bind, get_this, emit. cbv beta iota.
  rewrite !Hp. reflexivity.
Qed.

Variables e_walls e_wood e_plastic e_metal e_glass : OBJECT_MATERIAL.t.
Hypothesis Hwalls : List.find (has_tag "walls") (m_objectMaterials this) = Some e_walls.
Hypothesis Hwood : List.find (has_tag "wood") (m_objectMaterials this) = Some e_wood.
Hypothesis Hplastic : List.find (has_tag "plastic") (m_objectMaterials this) = Some e_plastic.
Hypothesis Hmetal : List.find (has_tag "metal") (m_objectMaterials this) = Some e_metal.
Hypothesis Hglass : List.find (has_tag "glass") (m_objectMaterials this) = Some e_glass.

Ltac directive :=
  first
    [ apply SetTransformations_NonNull
    | apply SetShaderColor_NonNull
    | apply SetTextureUVScale_NonNull
    | apply SetShaderTexture_NonNull
    | apply m_basicMeshes_call_NonNull
    | apply SetShaderMaterial_found; eassumption ].

Ltac run_pass :=
  cbv zeta;
  repeat (erewrite bind_Ok by directive; cbv beta);
  match goal with
  | |- context [ ?c this (advance ?k ?w) ] =>
      let H := fresh in
      eassert (H : c this (advance k w) = _) by directive;
      rewrite H; clear H
  end;
  cbv beta iota; reflexivity.

Ltac pass_calls P :=
  eexists _, _; intros k w; unfold P; run_pass.

Lemma RenderDeskandwalls_calls :
  exists (t : list event) (next : nat -> nat),
    forall k w, RenderDeskandwalls this (advance k w) = Ok (tt, this, advance (next k) w, t).
Proof using All. pass_calls RenderDeskandwalls. Qed.

Lemma RenderKeyboardandmat_calls :
  exists (t : list event) (next : nat -> nat),
    forall k w, RenderKeyboardandmat this (advance k w) = Ok (tt, this, advance (next k) w, t).
Proof using All. pass_calls RenderKeyboardandmat. Qed.

Lemma RenderMouse_calls :
  exists (t : list event) (next : nat -> nat),
    forall k w, RenderMouse this (advance k w) = Ok (tt, this, advance (next k) w, t).
Proof using All. pass_calls RenderMouse. Qed.

Lemma RenderPCexterior_calls :
  exists (t : list event) (next : nat -> nat),
    forall k w, RenderPCexterior this (advance k w) = Ok (tt, this, advance (next k) w, t).
Proof using All. pass_calls RenderPCexterior. Qed.

Lemma RenderPCinterior_calls :
  exists (t : list event) (next : nat -> nat),
    forall k w, RenderPCinterior this (advance k w) = Ok (tt, this, advance (next k) w, t).
Proof using All. pass_calls RenderPCinterior. Qed.

Lemma RenderMonitor_calls :
  exists (t : list event) (next : nat -> nat),
    forall k w, RenderMonitor this (advance k w) = Ok (tt, this, advance (next k) w, t).
Proof using All. pass_calls RenderMonitor. Qed.

Lemma RenderGlass_calls :
  exists (t : list event) (next : nat -> nat),
    forall k w, RenderGlass this (advance k w) = Ok (tt, this, advance (next k) w, t).
Proof using All. pass_calls RenderGlass. Qed.

(** With every requested material defined, the calls of the whole
    script are fixed by the object alone. *)
Lemma RenderScene_calls :
  exists t : list event,
    forall w, exists w', RenderScene this w = Ok (tt, this, w', t).
Proof using All.
  destruct RenderDeskandwalls_calls as (t1 & n1 & H1).
  destruct RenderKeyboardandmat_calls as (t2 & n2 & H2).
  destruct RenderMouse_calls as (t3 & n3 & H3).
  destruct RenderPCexterior_calls as (t4 & n4 & H4).
  destruct RenderPCinterior_calls as (t5 & n5 & H5).
  destruct RenderMonitor_calls as (t6 & n6 & H6).
  destruct RenderGlass_calls as (t7 & n7 & H7).
  eexists. intros w. rewrite <- (advance_0 w). unfold RenderScene.
  rewrite (bind_Ok _ _ _ _ _ _ _ _ (H1 _ _)).
  rewrite (bind_Ok _ _ _ _ _ _ _ _ (H2 _ _)).
  rewrite (bind_Ok _ _ _ _ _ _ _ _ (H3 _ _)).
  rewrite (bind_Ok _ _ _ _ _ _ _ _ (H4 _ _)).
  rewrite (bind_Ok _ _ _ _ _ _ _ _ (H5 _ _)).
  rewrite (bind_Ok _ _ _ _ _ _ _ _ (H6 _ _)).
  rewrite H7. eexists. reflexivity.
Qed.
End Script.

(** On an object with non-NULL collaborators, a well-formed texture array
    and an entry for each of the five material tags the script asks for,
    two consecutive runs of [RenderScene] make the same calls. *)
Lemma RenderScene_replay_when_tags_defined this :
  m_pShaderManager this = NonNull ->
  m_basicMeshes this = NonNull ->
  texture_array_ok this ->
  Forall (fun tag => List.find (has_tag tag) (m_objectMaterials this) <> None)
         ["walls"; "wood"; "plastic"; "metal"; "glass"]%string ->
  forall w, exists w1 w2 t,
    RenderScene this w = Ok (tt, this, w1, t) /\
    RenderScene this w1 = Ok (tt, this, w2, t).
Proof.
  intros Hp Hb Hok Htags w.
  repeat match goal with
         | H : Forall _ (_ :: _) |- _ =>
             let Hx := fresh "Hx" in
             apply Forall_cons in H as [Hx H]
         end.
  destruct (List.find (has_tag "walls") (m_objectMaterials this)) as [e1|] eqn:H1; [|congruence].
  destruct (List.find (has_tag "wood") (m_objectMaterials this)) as [e2|] eqn:H2; [|congruence].
  destruct (List.find (has_tag "plastic") (m_objectMaterials this)) as [e3|] eqn:H3; [|congruence].
  destruct (List.find (has_tag "metal") (m_objectMaterials this)) as [e4|] eqn:H4; [|congruence].
  destruct (List.find (has_tag "glass") (m_objectMaterials this)) as [e5|] eqn:H5; [|congruence].
  destruct (RenderScene_calls this Hp Hb Hok e1 e2 e3 e4 e5 H1 H2 H3 H4 H5) as (t & Ht).
  destruct (Ht w) as (w1 & Hrun1). destruct (Ht w1) as (w2 & Hrun2).
  exists w1, w2, t. auto.
Qed.

(** *** The script on the scene's own setup *)

(** Evaluation of the script on concrete inputs; the model matrices are
    left as [modelView] applied to their arguments. *)
Ltac evaluate :=
  with_strategy opaque [modelView IZR INR Rdiv Z.pow_pos] lazy.
Ltac evaluate_in H :=
  with_strategy opaque [modelView IZR INR Rdiv Z.pow_pos] (lazy in H).

(** C7 fails on the scene's own setup.  After [PrepareScene] on a fresh
    object, two consecutive runs of [RenderScene] leave the object, and
    so both registries, unchanged; yet the last uniform each run uploads,
    the shininess of the second glass directive, is whatever the
    uninitialised local [material] of that call held, so the two uniform
    traces differ as soon as that storage does. *)
Theorem RenderScene_replay_uploads_differ :
  exists this w t0 w1 t1 w2 t2,
    PrepareScene (SceneManager_ctor NonNull) (sample_world (Some rgb_image) 1)
    = Ok (tt, this, w, t0) /\
    RenderScene this w = Ok (tt, this, w1, t1) /\
    RenderScene this w1 = Ok (tt, this, w2, t2) /\
    last (uniform_trace t1)
    = Some (SetUniform "material.shininess"
              (FloatValue (OBJECT_MATERIAL.shininess (changing_storage 37)))) /\
    last (uniform_trace t2)
    = Some (SetUniform "material.shininess"
              (FloatValue (OBJECT_MATERIAL.shininess (changing_storage 75)))) /\
    uniform_trace t1 <> uniform_trace t2.
Proof.
  eexists _, _, _, _, _, _, _.
  split; [vm_compute; reflexivity|].
  split; [evaluate; reflexivity|].
  split; [evaluate; reflexivity|].
  split; [evaluate; reflexivity|].
  split; [evaluate; reflexivity|].
  intros H. apply (f_equal (@last _)) in H.
  evaluate_in H. injection H as H. lra.
Qed.

(** With the glass material appended as well, every lookup of the script
    finds its tag and the two runs upload the same uniforms. *)
Lemma RenderScene_replay_with_glass_defined :
  exists this w t0 w1 t1 w2 t2,
    (PrepareScene ;; m_objectMaterials_push_back glassMaterial)
      (SceneManager_ctor NonNull) (sample_world (Some rgb_image) 1)
    = Ok (tt, this, w, t0) /\
    RenderScene this w = Ok (tt, this, w1, t1) /\
    RenderScene this w1 = Ok (tt, this, w2, t2) /\
    uniform_trace t1 = uniform_trace t2.
Proof.
  eexists _, _, _, _, _, _, _.
  split; [vm_compute; reflexivity|].
  split; [evaluate; reflexivity|].
  split; [evaluate; reflexivity|].
  evaluate. reflexivity.
Qed.

(** * Further properties of the code *)


(** ** More on the texture registry *)

Lemma find_texture_None tag entries :
  forall index,
    find_texture tag entries index = None <->
    Forall (fun e => TEXTURE_INFO.tag e <> tag) entries.
Proof.
  induction entries as [|e entries IH]; intros index; cbn [find_texture].
  - split; [constructor | reflexivity].
  - destruct (String.eqb_spec (TEXTURE_INFO.tag e) tag) as [Heq|Hne].
    + split; [discriminate|]. intros H. apply Forall_cons in H as [H _]. contradiction.
    + rewrite IH. split; [intros H; constructor; assumption|].
      intros H. apply Forall_cons in H as [_ H]. exact H.
Qed.

Lemma find_texture_app tag entries entries' :
  forall index,
    find_texture tag (entries ++ entries') index =
    match find_texture tag entries index with
    | Some r => Some r
    | None => find_texture tag entries' (index + Z.of_nat (length entries))
    end.
Proof.
  induction entries as [|e entries IH]; intros index; cbn [app find_texture length].
  - rewrite Z.add_0_r. reflexivity.
  - destruct (String.eqb (TEXTURE_INFO.tag e) tag); [reflexivity|].
    rewrite IH. replace (index + 1 + Z.of_nat (length entries))
      with (index + Z.of_nat (S (length entries))) by lia. reflexivity.
Qed.

Lemma find_texture_first tag entries :
  forall index (k : nat) e,
    entries !! k = Some e ->
    TEXTURE_INFO.tag e = tag ->
    (forall (j : nat) e', (j < k)%nat -> entries !! j = Some e' -> TEXTURE_INFO.tag e' <> tag) ->
    find_texture tag entries index = Some (index + Z.of_nat k, e).
Proof.
  induction entries as [|e0 entries IH]; intros index k e Hk Ht Hbefore; [discriminate|].
  cbn [find_texture]. destruct k as [|k].
  - injection Hk as ->. rewrite Ht, String.eqb_refl. rewrite Z.add_0_r. reflexivity.
  - destruct (String.eqb_spec (TEXTURE_INFO.tag e0) tag) as [Heq|Hne].
    + exfalso. exact (Hbefore 0%nat e0 ltac:(lia) eq_refl Heq).
    + rewrite (IH (index + 1) k e Hk Ht).
      * f_equal. f_equal. lia.
      * intros j e' Hj He'. apply (Hbefore (S j) e'); [lia | exact He'].
Qed.

(** The index a search returns depends on the tags alone. *)
Lemma find_texture_index_tags tag :
  forall entries entries' index,
    map TEXTURE_INFO.tag entries = map TEXTURE_INFO.tag entries' ->
    fst <$> find_texture tag entries index = fst <$> find_texture tag entries' index.
Proof.
  induction entries as [|e entries IH]; intros [|e' entries'] index Hmap;
    try discriminate; [reflexivity|].
  cbn [map] in Hmap. injection Hmap as Htag Hrest.
  cbn [find_texture]. rewrite Htag.
  destruct (String.eqb (TEXTURE_INFO.tag e') tag); [reflexivity|].
  apply IH. exact Hrest.
Qed.

Lemma loaded_entries_length this :
  texture_array_ok this ->
  Z.of_nat (length (loaded_entries this)) = m_loadedTextures this.
Proof.
  intros [Hlen Hn]. unfold loaded_entries. rewrite length_take, Hlen.
  unfold texture_slots in *. lia.
Qed.

Lemma loaded_entries_lookup_lt this (i : nat) :
  Z.of_nat i < m_loadedTextures this ->
  loaded_entries this !! i = m_textureIDs this !! i.
Proof. intros Hi. unfold loaded_entries. apply lookup_take_lt. lia. Qed.

(** X1. On a well-formed texture array both lookups are defined and
    change nothing.  [FindTextureSlot] answers -1 exactly when no
    registered entry carries the tag, and then [FindTextureID] answers
    -1 as well; any other answer is the index of a registered entry. *)
Theorem FindTextureSlot_sentinel_iff_tag_absent :
  forall tag this w,
    texture_array_ok this ->
    exists textureSlot textureID,
      FindTextureSlot tag this w = Ok (textureSlot, this, w, []) /\
      FindTextureID tag this w = Ok (textureID, this, w, []) /\
      (textureSlot = -1 <->
       Forall (fun e => TEXTURE_INFO.tag e <> tag) (loaded_entries this)) /\
      (textureSlot = -1 -> textureID = -1) /\
      (textureSlot <> -1 -> 0 <= textureSlot < m_loadedTextures this).
Proof.
  intros tag this w Hok.
  rewrite (FindTextureSlot_spec tag this w Hok), (FindTextureID_spec tag this w Hok).
  destruct (find_texture tag (loaded_entries this) 0) as [[j e]|] eqn:Hfind.
  - destruct (find_texture_Some _ _ _ _ _ Hfind) as (Hj & _ & _).
    rewrite (loaded_entries_length this Hok) in Hj.
    eexists _, _. split; [reflexivity|]. split; [reflexivity|].
    split; [|split; intros; lia].
    split; [lia|]. intros Hall. apply find_texture_None with (index := 0) in Hall.
    congruence.
  - eexists _, _. split; [reflexivity|]. split; [reflexivity|].
    split; [|split; intros; congruence].
    split; [|reflexivity]. intros _. apply (find_texture_None tag _ 0). exact Hfind.
Qed.

Lemma FindTextureSlot_sentinel_iff_tag_absent_witness :
  exists textureSlot textureID,
    FindTextureSlot "/0" (SceneManager_ctor NonNull) (sample_world None 1)
    = Ok (textureSlot, SceneManager_ctor NonNull, sample_world None 1, []) /\
    FindTextureID "/0" (SceneManager_ctor NonNull) (sample_world None 1)
    = Ok (textureID, SceneManager_ctor NonNull, sample_world None 1, []) /\
    (textureSlot = -1 <->
     Forall (fun e => TEXTURE_INFO.tag e <> "/0"%string)
            (loaded_entries (SceneManager_ctor NonNull))) /\
    (textureSlot = -1 -> textureID = -1) /\
    (textureSlot <> -1 -> 0 <= textureSlot < m_loadedTextures (SceneManager_ctor NonNull)).
Proof.
  apply (FindTextureSlot_sentinel_iff_tag_absent "/0" (SceneManager_ctor NonNull)
           (sample_world None 1)).
  split; [reflexivity | vm_compute; split; discriminate].
Defined.

(** X2. When entry [i] is the first registered entry carrying the
    tag, [FindTextureSlot] answers [i] and [FindTextureID] answers that
    entry's name read as an [int]; for a 32-bit name that value is -1
    exactly when the name is 0xFFFFFFFF. *)
Theorem FindTexture_returns_first_entry_with_tag :
  forall tag this w (i : nat) e,
    texture_array_ok this ->
    Z.of_nat i < m_loadedTextures this ->
    m_textureIDs this !! i = Some e ->
    TEXTURE_INFO.tag e = tag ->
    (forall (j : nat) e', (j < i)%nat -> m_textureIDs this !! j = Some e' ->
                          TEXTURE_INFO.tag e' <> tag) ->
    FindTextureSlot tag this w = Ok (Z.of_nat i, this, w, []) /\
    FindTextureID tag this w = Ok (int_of_uint32 (TEXTURE_INFO.ID e), this, w, []) /\
    (0 <= TEXTURE_INFO.ID e < 2 ^ 32 ->
     (int_of_uint32 (TEXTURE_INFO.ID e) = -1 <-> TEXTURE_INFO.ID e = 2 ^ 32 - 1)).
Proof.
  intros tag this w i e Hok Hi He Htag Hbefore.
  assert (Hfind : find_texture tag (loaded_entries this) 0 = Some (Z.of_nat i, e)).
  { rewrite (find_texture_first tag (loaded_entries this) 0 i e); [reflexivity| |exact Htag|].
    - rewrite loaded_entries_lookup_lt by lia. exact He.
    - intros j e' Hj He'. apply (Hbefore j e' Hj).
      rewrite loaded_entries_lookup_lt in He' by lia. exact He'. }
  rewrite (FindTextureSlot_spec tag this w Hok), (FindTextureID_spec tag this w Hok), Hfind.
  split; [reflexivity|]. split; [reflexivity|].
  intros Hrange. unfold int_of_uint32.
  destruct (Z.ltb_spec (TEXTURE_INFO.ID e) (2 ^ 31)); lia.
Qed.

Lemma FindTexture_returns_first_entry_with_tag_witness :
  FindTextureSlot "a" (registered (registered (SceneManager_ctor NonNull) "a" 7) "a" 8)
                  (sample_world None 1)
  = Ok (0, registered (registered (SceneManager_ctor NonNull) "a" 7) "a" 8,
        sample_world None 1, []) /\
  FindTextureID "a" (registered (registered (SceneManager_ctor NonNull) "a" 7) "a" 8)
                (sample_world None 1)
  = Ok (7, registered (registered (SceneManager_ctor NonNull) "a" 7) "a" 8,
        sample_world None 1, []) /\
  (0 <= 7 < 2 ^ 32 -> (int_of_uint32 7 = -1 <-> 7 = 2 ^ 32 - 1)).
Proof.
  apply (FindTexture_returns_first_entry_with_tag "a"
           (registered (registered (SceneManager_ctor NonNull) "a" 7) "a" 8)
           (sample_world None 1) 0 (TEXTURE_INFO.Build "a" 7)).
  - split; [reflexivity | vm_compute; split; discriminate].
  - reflexivity.
  - reflexivity.
  - reflexivity.
  - intros j e' Hj. lia.
Defined.

(** X3. A load that registers a texture never changes what a lookup
    answered before for a tag that was found.  A tag that was not found
    stays not found unless it is the tag just loaded, which is then
    found in the slot just filled, under the name the driver
    generated. *)
Theorem CreateGLTexture_keeps_registered_lookups :
  forall filename tag this w img tag',
    texture_array_ok this ->
    m_loadedTextures this < texture_slots ->
    decoder w filename = Some img ->
    colorChannels img = 3 \/ colorChannels img = 4 ->
    exists this' w' t slot id slot' id',
      CreateGLTexture filename tag this w = Ok (true, this', w', t) /\
      FindTextureSlot tag' this w = Ok (slot, this, w, []) /\
      FindTextureID tag' this w = Ok (id, this, w, []) /\
      FindTextureSlot tag' this' w' = Ok (slot', this', w', []) /\
      FindTextureID tag' this' w' = Ok (id', this', w', []) /\
      (slot <> -1 -> slot' = slot /\ id' = id) /\
      (slot = -1 -> tag' <> tag -> slot' = -1 /\ id' = -1) /\
      (slot = -1 -> tag' = tag ->
       slot' = m_loadedTextures this /\
       id' = int_of_uint32 (uint32_of_int (gl_fresh w (gl_generated w)))).
Proof.
  intros filename tag this w img tag' Hok Hlt Hdec Hc.
  destruct (CreateGLTexture_registers filename tag this w img Hok Hlt Hdec Hc)
    as (w' & t & Hload & _).
  set (name := uint32_of_int (gl_fresh w (gl_generated w))) in *.
  pose proof (registered_ok this tag name Hok Hlt) as Hok'.
  exists (registered this tag name), w', t.
  rewrite (FindTextureSlot_spec tag' this w Hok), (FindTextureID_spec tag' this w Hok).
  rewrite (FindTextureSlot_spec tag' _ w' Hok'), (FindTextureID_spec tag' _ w' Hok').
  rewrite (loaded_entries_registered this tag name Hok Hlt), find_texture_app.
  rewrite (loaded_entries_length this Hok), Z.add_0_l.
  destruct (find_texture tag' (loaded_entries this) 0) as [[j e]|] eqn:Hfind.
  - destruct (find_texture_Some _ _ _ _ _ Hfind) as (Hj & _ & _).
    eexists _, _, _, _. split; [exact Hload|]. repeat (split; [reflexivity|]).
    split; [auto|]. split; intros; lia.
  - cbn [find_texture TEXTURE_INFO.tag].
    eexists _, _, _, _. split; [exact Hload|]. repeat (split; [reflexivity|]).
    split; [congruence|].
    destruct (String.eqb_spec tag tag') as [Heq|Hne].
    + split; [congruence|]. intros _ _. split; reflexivity.
    + split; [auto|]. congruence.
Qed.

Lemma CreateGLTexture_keeps_registered_lookups_witness :
  exists this' w' t slot id slot' id',
    CreateGLTexture "b.jpg" "a" (registered (SceneManager_ctor NonNull) "a" 7)
                    (sample_world (Some rgb_image) 8) = Ok (true, this', w', t) /\
    FindTextureSlot "a" (registered (SceneManager_ctor NonNull) "a" 7)
                    (sample_world (Some rgb_image) 8)
    = Ok (slot, registered (SceneManager_ctor NonNull) "a" 7,
          sample_world (Some rgb_image) 8, []) /\
    FindTextureID "a" (registered (SceneManager_ctor NonNull) "a" 7)
                  (sample_world (Some rgb_image) 8)
    = Ok (id, registered (SceneManager_ctor NonNull) "a" 7,
          sample_world (Some rgb_image) 8, []) /\
    FindTextureSlot "a" this' w' = Ok (slot', this', w', []) /\
    FindTextureID "a" this' w' = Ok (id', this', w', []) /\
    (slot <> -1 -> slot' = slot /\ id' = id) /\
    (slot = -1 -> "a"%string <> "a"%string -> slot' = -1 /\ id' = -1) /\
    (slot = -1 -> "a"%string = "a"%string ->
     slot' = m_loadedTextures (registered (SceneManager_ctor NonNull) "a" 7) /\
     id' = int_of_uint32
             (uint32_of_int (gl_fresh (sample_world (Some rgb_image) 8)
                                      (gl_generated (sample_world (Some rgb_image) 8))))).
Proof.
  apply (CreateGLTexture_keeps_registered_lookups "b.jpg" "a"
           (registered (SceneManager_ctor NonNull) "a" 7)
           (sample_world (Some rgb_image) 8) rgb_image "a").
  - split; [reflexivity | vm_compute; split; discriminate].
  - reflexivity.
  - reflexivity.
  - left. reflexivity.
Defined.

Lemma load_textures_entries calls :
  forall this w bs this' w' t,
    texture_array_ok this ->
    load_textures calls this w = Ok (bs, this', w', t) ->
    map TEXTURE_INFO.tag (loaded_entries this')
    = map TEXTURE_INFO.tag (loaded_entries this) ++ registered_tags calls bs.
Proof.
  induction calls as [|[filename tag] calls IH]; intros this w bs this' w' t Hok Hrun.
  - injection Hrun as <- <- <- <-. cbn. rewrite app_nil_r. reflexivity.
  - cbn [load_textures] in Hrun.
    apply bind_inv in Hrun as (b & this1 & w1 & t1 & t2 & Hc & Hrest & ->).
    apply bind_inv in Hrest as (bs' & this2 & w2 & t3 & t4 & Hl & Hret & ->).
    injection Hret as <- <- <- <-.
    destruct (CreateGLTexture_outcome _ _ _ _ _ _ _ _ Hok Hc) as (Hok1 & Hn1 & Hthis1 & _).
    rewrite (IH _ _ _ _ _ _ Hok1 Hl). cbn [registered_tags].
    destruct b.
    + pose proof (CreateGLTexture_true_in_range _ _ _ _ _ _ _ Hc) as Hrange.
      rewrite Hthis1, loaded_entries_registered by (auto; lia).
      rewrite map_app, <- app_assoc. reflexivity.
    + rewrite Hthis1. reflexivity.
Qed.

(** X4. After any series of loads on a fresh object the registered
    tags are the tags of the calls that returned true, in call order,
    and there is one result per call. *)
Theorem load_textures_registers_in_call_order :
  forall p calls w0 bs this w t0,
    load_textures calls (SceneManager_ctor p) w0 = Ok (bs, this, w, t0) ->
    map TEXTURE_INFO.tag (loaded_entries this) = registered_tags calls bs /\
    length bs = length calls.
Proof.
  intros p calls w0 bs this w t0 Hrun. split.
  - rewrite (load_textures_entries calls _ _ _ _ _ _ (SceneManager_ctor_ok p) Hrun).
    reflexivity.
  - revert bs this w t0 Hrun. generalize (SceneManager_ctor p). revert w0.
    induction calls as [|[filename tag] calls IH]; intros w0 this0 bs this w t0 Hrun.
    + injection Hrun as <- <- <- <-. reflexivity.
    + cbn [load_textures] in Hrun.
      apply bind_inv in Hrun as (b & this1 & w1 & t1 & t2 & Hc & Hrest & ->).
      apply bind_inv in Hrest as (bs' & this2 & w2 & t3 & t4 & Hl & Hret & ->).
      injection Hret as <- <- <- <-. cbn [length]. f_equal. eapply IH. exact Hl.
Qed.

Lemma load_textures_registers_in_call_order_witness :
  exists bs this w t0,
    load_textures [("a.jpg", "a"); ("b.jpg", "b")]%string (SceneManager_ctor NonNull)
                  (sample_world (Some rgb_image) 1) = Ok (bs, this, w, t0) /\
    map TEXTURE_INFO.tag (loaded_entries this)
    = registered_tags [("a.jpg", "a"); ("b.jpg", "b")]%string bs /\
    length bs = 2%nat.
Proof.
  assert (H : { r | load_textures [("a.jpg", "a"); ("b.jpg", "b")]%string
                                  (SceneManager_ctor NonNull)
                                  (sample_world (Some rgb_image) 1) = Ok r })
    by (eexists; vm_compute; reflexivity).
  destruct H as [[[[bs this] w] t0] H].
  exists bs, this, w, t0.
  exact (conj H (load_textures_registers_in_call_order NonNull _ _ _ _ _ _ H)).
Defined.

(** X5. [DestroyGLTextures] keeps the array well formed, the count
    and every tag, so [FindTextureSlot] answers after it what it
    answered before it. *)
Theorem DestroyGLTextures_keeps_tags_and_count :
  forall this w,
    texture_array_ok this ->
    exists this' w' t,
      DestroyGLTextures this w = Ok (tt, this', w', t) /\
      texture_array_ok this' /\
      m_loadedTextures this' = m_loadedTextures this /\
      map TEXTURE_INFO.tag (m_textureIDs this') = map TEXTURE_INFO.tag (m_textureIDs this) /\
      forall tag,
        value_of (FindTextureSlot tag this' w') = value_of (FindTextureSlot tag this w).
Proof.
  intros this w Hok. pose proof Hok as [Hlen Hn].
  destruct (DestroyGLTextures_loop (Z.to_nat (m_loadedTextures this)) 0 this w Hlen
              ltac:(unfold texture_slots in *; lia))
    as (ids' & w' & Hrun & Hlen' & Hin & Hout & _).
  change (Z.of_nat 0) with 0 in Hrun.
  assert (Htags : map TEXTURE_INFO.tag ids' = map TEXTURE_INFO.tag (m_textureIDs this)).
  { apply list_eq. intros j. rewrite !list_lookup_fmap.
    destruct (decide (j < Z.to_nat (m_loadedTextures this))%nat) as [Hj|Hj].
    - destruct (lookup_lt_is_Some_2 (m_textureIDs this) j) as [e He];
        [unfold texture_slots in *; lia|].
      rewrite (Hin j e) by (try lia; exact He). rewrite He. reflexivity.
    - rewrite Hout by lia. reflexivity. }
  assert (Hok' : texture_array_ok (set_textures this ids' (m_loadedTextures this))).
  { split; cbn; [rewrite Hlen'; exact Hlen | exact Hn]. }
  eexists _, w', _. split.
  { unfold DestroyGLTextures. step. rewrite Hrun. reflexivity. }
  split; [exact Hok'|]. split; [reflexivity|]. split; [exact Htags|].
  intros tag.
  rewrite (FindTextureSlot_spec tag _ w' Hok'), (FindTextureSlot_spec tag this w Hok).
  cbn [value_of].
  assert (Hidx := find_texture_index_tags tag
                    (loaded_entries (set_textures this ids' (m_loadedTextures this)))
                    (loaded_entries this) 0).
  unfold loaded_entries in *. cbn [m_textureIDs m_loadedTextures set_textures] in *.
  specialize (Hidx ltac:(rewrite <- !firstn_map, Htags; reflexivity)).
  destruct (find_texture tag (take _ ids') 0) as [[j e]|];
    destruct (find_texture tag (take _ (m_textureIDs this)) 0) as [[j' e']|];
    cbn in Hidx; congruence.
Qed.

Lemma DestroyGLTextures_keeps_tags_and_count_witness :
  exists this' w' t,
    DestroyGLTextures (registered (SceneManager_ctor NonNull) "a" 7) (sample_world None 1)
    = Ok (tt, this', w', t) /\
    texture_array_ok this' /\
    m_loadedTextures this' = 1 /\
    map TEXTURE_INFO.tag (m_textureIDs this')
    = map TEXTURE_INFO.tag (m_textureIDs (registered (SceneManager_ctor NonNull) "a" 7)) /\
    forall tag,
      value_of (FindTextureSlot tag this' w')
      = value_of (FindTextureSlot tag (registered (SceneManager_ctor NonNull) "a" 7)
                                  (sample_world None 1)).
Proof.
  apply (DestroyGLTextures_keeps_tags_and_count
           (registered (SceneManager_ctor NonNull) "a" 7) (sample_world None 1)).
  split; [reflexivity | vm_compute; split; discriminate].
Defined.

(** *** What a load leaves behind *)


(** The world after [glGenTextures] and the binding of the new name. *)
Lemma CreateGLTexture_prefix filename (k : option image -> M bool) this w :
  (emit (StbiSetFlipVerticallyOnLoad true) ;; image ← stbi_load filename; k image) this w
  = match k (decoder w filename) this w with
    | Ok (b, this', w', t) =>
        Ok (b, this', w', StbiSetFlipVerticallyOnLoad true :: StbiLoad filename :: t)
    | UB => UB
    end.
Proof.
  step. step_with ltac:(unfold stbi_load; step; step; reflexivity).
  cbn [decoder]. destruct (k (decoder w filename) this w) as [[[[b this'] w'] t]|]; reflexivity.
Qed.

(** A load, whatever its outcome, leaves the decoder, the driver's
    supply of names, the active unit and the storage of locals as they
    were, and takes at most one name from the driver. *)
Lemma CreateGLTexture_world filename tag this w b this' w' t :
  texture_array_ok this ->
  CreateGLTexture filename tag this w = Ok (b, this', w', t) ->
  decoder w' = decoder w /\ gl_fresh w' = gl_fresh w /\
  gl_active w' = gl_active w /\
  indeterminate w' = indeterminate w /\ declared w' = declared w /\
  (gl_generated w <= gl_generated w' <= S (gl_generated w))%nat.
Proof.
  intros Hok Hrun. unfold CreateGLTexture in Hrun.
  rewrite (CreateGLTexture_prefix filename) in Hrun.
  destruct (decoder w filename) as [img|] eqn:Hdec.
  - revert Hrun. step. step. step. step. step. step. step.
    destruct (Z.eq_dec (colorChannels img) 3) as [H3|H3];
      [|destruct (Z.eq_dec (colorChannels img) 4) as [H4|H4]].
    1,2: (rewrite ?H3, ?H4; cbn [Z.eqb Pos.eqb]; step;
          destruct (Z_lt_dec (m_loadedTextures this) texture_slots) as [Hlt|Hge];
          [ rewrite CreateGLTexture_register_steps by assumption
          | rewrite CreateGLTexture_register_overflow by (destruct Hok; lia) ];
          cbn; intros Hrun; [|discriminate];
          injection Hrun as <- <- <- <-; cbn; repeat split; lia).
    destruct (Z.eqb_spec (colorChannels img) 3); [contradiction|].
    destruct (Z.eqb_spec (colorChannels img) 4); [contradiction|].
    step. cbn. intros Hrun. injection Hrun as <- <- <- <-. cbn. repeat split; lia.
  - revert Hrun. step. cbn. intros Hrun. injection Hrun as <- <- <- <-. repeat split; lia.
Qed.


(** X6. While a slot is free a load is defined, and it returns true
    exactly when the file decodes to an image of 3 or 4 channels.  On
    false the object is unchanged; on true the next free slot holds the
    tag with the generated name, the count has grown by one and every
    other slot is as before. *)
Theorem CreateGLTexture_true_iff_supported_image :
  forall filename tag this w,
    texture_array_ok this ->
    m_loadedTextures this < texture_slots ->
    exists b this' w' t,
      CreateGLTexture filename tag this w = Ok (b, this', w', t) /\
      (b = true <->
       exists img, decoder w filename = Some img /\
                   (colorChannels img = 3 \/ colorChannels img = 4)) /\
      (b = false -> this' = this) /\
      (b = true ->
       this' = registered this tag (uint32_of_int (gl_fresh w (gl_generated w))) /\
       m_textureIDs this' !! Z.to_nat (m_loadedTextures this)
       = Some (TEXTURE_INFO.Build tag (uint32_of_int (gl_fresh w (gl_generated w)))) /\
       m_loadedTextures this' = m_loadedTextures this + 1 /\
       forall j : nat, j <> Z.to_nat (m_loadedTextures this) ->
                       m_textureIDs this' !! j = m_textureIDs this !! j).
Proof.
  intros filename tag this w Hok Hlt.
  destruct (decoder w filename) as [img|] eqn:Hdec.
  - destruct (Z.eq_dec (colorChannels img) 3) as [H3|H3];
      [|destruct (Z.eq_dec (colorChannels img) 4) as [H4|H4]].
    1,2: destruct (CreateGLTexture_registers filename tag this w img Hok Hlt Hdec
                     ltac:(auto)) as (w' & t & Heq & _);
      exists true, (registered this tag (uint32_of_int (gl_fresh w (gl_generated w)))), w', t;
      (split; [exact Heq|]); (split; [split; [intros _; exists img; auto | reflexivity]|]);
      (split; [discriminate|]); intros _; (split; [reflexivity|]);
      (split; [cbn; apply list_lookup_insert_eq; destruct Hok as [Hl Hn];
               unfold texture_slots in *; lia|]);
      (split; [reflexivity|]); intros j Hj; cbn; apply list_lookup_insert_ne; lia.
    destruct (CreateGLTexture_rejects filename tag this w img Hdec H3 H4)
      as (w' & t & Heq & _).
    exists false, this, w', t. split; [exact Heq|].
    split; [|split; [reflexivity | discriminate]].
    split; [discriminate|]. intros (img' & Himg & Hc). injection Himg as <-. lia.
  - rewrite (CreateGLTexture_undecoded _ _ _ _ Hdec).
    eexists false, this, w, _. split; [reflexivity|].
    split; [|split; [reflexivity | discriminate]].
    split; [discriminate|]. intros (img' & Himg & _). discriminate.
Qed.

Lemma CreateGLTexture_true_iff_supported_image_witness :
  exists b this' w' t,
    CreateGLTexture "a.jpg" "a" (SceneManager_ctor NonNull) (sample_world (Some rgb_image) 5)
    = Ok (b, this', w', t) /\
    (b = true <->
     exists img, decoder (sample_world (Some rgb_image) 5) "a.jpg" = Some img /\
                 (colorChannels img = 3 \/ colorChannels img = 4)) /\
    (b = false -> this' = SceneManager_ctor NonNull) /\
    (b = true ->
     this' = registered (SceneManager_ctor NonNull) "a"
               (uint32_of_int (gl_fresh (sample_world (Some rgb_image) 5)
                                        (gl_generated (sample_world (Some rgb_image) 5)))) /\
     m_textureIDs this' !! Z.to_nat (m_loadedTextures (SceneManager_ctor NonNull))
     = Some (TEXTURE_INFO.Build "a"
               (uint32_of_int (gl_fresh (sample_world (Some rgb_image) 5)
                                        (gl_generated (sample_world (Some rgb_image) 5))))) /\
     m_loadedTextures this' = m_loadedTextures (SceneManager_ctor NonNull) + 1 /\
     forall j : nat, j <> Z.to_nat (m_loadedTextures (SceneManager_ctor NonNull)) ->
                     m_textureIDs this' !! j = m_textureIDs (SceneManager_ctor NonNull) !! j).
Proof.
  apply (CreateGLTexture_true_iff_supported_image "a.jpg" "a" (SceneManager_ctor NonNull)
           (sample_world (Some rgb_image) 5)).
  - split; [reflexivity | vm_compute; split; discriminate].
  - reflexivity.
Defined.

(** X7. On an image with an unsupported channel count the load
    returns false after it has generated a texture name and bound it on
    the active unit: the name stays bound there, the image is not freed
    and the name is not deleted. *)
Theorem CreateGLTexture_unsupported_channels_leaves_texture_bound :
  forall filename tag this w img,
    decoder w filename = Some img ->
    colorChannels img <> 3 ->
    colorChannels img <> 4 ->
    exists w' t,
      CreateGLTexture filename tag this w = Ok (false, this, w', t) /\
      gl_generated w' = S (gl_generated w) /\
      gl_active w' = gl_active w /\
      bound_texture w' (gl_active w) = uint32_of_int (gl_fresh w (gl_generated w)) /\
      (forall unit, unit <> gl_active w -> bound_texture w' unit = bound_texture w unit) /\
      List.filter is_glGenTextures t
      = [GlGenTextures (uint32_of_int (gl_fresh w (gl_generated w)))] /\
      List.filter is_stbi_image_free t = [] /\
      List.filter is_glDeleteTextures t = [].
Proof.
  intros filename tag this w img Hdec H3 H4.
  unfold CreateGLTexture. rewrite CreateGLTexture_prefix, Hdec.
  step. step. step. step. step. step. step.
  destruct (Z.eqb_spec (colorChannels img) 3); [contradiction|].
  destruct (Z.eqb_spec (colorChannels img) 4); [contradiction|].
  step. cbn.
  eexists _, _. split; [reflexivity|]. cbn.
  split; [reflexivity|]. split; [reflexivity|].
  split; [unfold bound_texture; cbn; rewrite lookup_insert_eq; reflexivity|].
  split; [|repeat split].
  intros unit Hu. unfold bound_texture. cbn. rewrite lookup_insert_ne by congruence.
  reflexivity.
Qed.

Lemma CreateGLTexture_unsupported_channels_leaves_texture_bound_witness :
  exists w' t,
    CreateGLTexture "grey.png" "grey" (SceneManager_ctor NonNull)
                    (sample_world (Some grey_image) 9)
    = Ok (false, SceneManager_ctor NonNull, w', t) /\
    gl_generated w' = 1%nat /\
    gl_active w' = 0 /\
    bound_texture w' 0 = 9 /\
    (forall unit, unit <> 0 ->
                  bound_texture w' unit
                  = bound_texture (sample_world (Some grey_image) 9) unit) /\
    List.filter is_glGenTextures t = [GlGenTextures 9] /\
    List.filter is_stbi_image_free t = [] /\
    List.filter is_glDeleteTextures t = [].
Proof.
  apply (CreateGLTexture_unsupported_channels_leaves_texture_bound "grey.png" "grey"
           (SceneManager_ctor NonNull) (sample_world (Some grey_image) 9) grey_image).
  - reflexivity.
  - cbn. lia.
  - cbn. lia.
Defined.

(** X8. A load that registers leaves the active unit selected and
    bound to no texture, keeps the binding of every other unit, uploads
    the image in the format of its channel count, frees the image once
    and takes one name from the driver. *)
Theorem CreateGLTexture_success_uploads_and_unbinds :
  forall filename tag this w img,
    texture_array_ok this ->
    m_loadedTextures this < texture_slots ->
    decoder w filename = Some img ->
    colorChannels img = 3 \/ colorChannels img = 4 ->
    exists this' w' t,
      CreateGLTexture filename tag this w = Ok (true, this', w', t) /\
      gl_generated w' = S (gl_generated w) /\
      gl_active w' = gl_active w /\
      bound_texture w' (gl_active w) = 0 /\
      (forall unit, unit <> gl_active w -> bound_texture w' unit = bound_texture w unit) /\
      In (GlTexImage2D GL_TEXTURE_2D
            (if colorChannels img =? 3 then GL_RGB8 else GL_RGBA8)
            (width img) (height img)
            (if colorChannels img =? 3 then GL_RGB else GL_RGBA) GL_UNSIGNED_BYTE) t /\
      List.filter is_stbi_image_free t = [StbiImageFree] /\
      List.filter is_glGenTextures t
      = [GlGenTextures (uint32_of_int (gl_fresh w (gl_generated w)))].
Proof.
  intros filename tag this w img Hok Hlt Hdec Hc.
  unfold CreateGLTexture. rewrite CreateGLTexture_prefix, Hdec.
  step. step. step. step. step. step. step.
  destruct Hc as [Hc|Hc]; rewrite Hc; cbn [Z.eqb Pos.eqb]; step;
    rewrite CreateGLTexture_register_steps by assumption; cbn;
    (eexists _, _, _; split; [reflexivity|]; cbn;
     split; [reflexivity|]; split; [reflexivity|];
     split; [unfold bound_texture; cbn; rewrite lookup_insert_eq; reflexivity|];
     split; [intros unit Hu; unfold bound_texture; cbn;
             rewrite !lookup_insert_ne by congruence; reflexivity|];
     split; [tauto|]; split; reflexivity).
Qed.

Lemma CreateGLTexture_success_uploads_and_unbinds_witness :
  exists this' w' t,
    CreateGLTexture "a.jpg" "a" (SceneManager_ctor NonNull) (sample_world (Some rgb_image) 5)
    = Ok (true, this', w', t) /\
    gl_generated w' = 1%nat /\
    gl_active w' = 0 /\
    bound_texture w' 0 = 0 /\
    (forall unit, unit <> 0 ->
                  bound_texture w' unit
                  = bound_texture (sample_world (Some rgb_image) 5) unit) /\
    In (GlTexImage2D GL_TEXTURE_2D GL_RGB8 64 64 GL_RGB GL_UNSIGNED_BYTE) t /\
    List.filter is_stbi_image_free t = [StbiImageFree] /\
    List.filter is_glGenTextures t = [GlGenTextures 5].
Proof.
  apply (CreateGLTexture_success_uploads_and_unbinds "a.jpg" "a" (SceneManager_ctor NonNull)
           (sample_world (Some rgb_image) 5) rgb_image).
  - split; [reflexivity | vm_compute; split; discriminate].
  - reflexivity.
  - reflexivity.
  - left. reflexivity.
Defined.

(** X9. With all 16 slots in use [CreateGLTexture] has no capacity
    check: a file that does not decode, or an image with an unsupported
    channel count, still returns false, but a 3- or 4-channel image
    makes it write past the array, which is undefined. *)
Theorem CreateGLTexture_at_capacity :
  forall filename tag this w,
    texture_array_ok this ->
    m_loadedTextures this = texture_slots ->
    match decoder w filename with
    | None => exists t, CreateGLTexture filename tag this w = Ok (false, this, w, t)
    | Some img =>
        if (colorChannels img =? 3) || (colorChannels img =? 4)
        then CreateGLTexture filename tag this w = UB
        else exists w' t, CreateGLTexture filename tag this w = Ok (false, this, w', t)
    end.
Proof.
  intros filename tag this w Hok Hfull.
  destruct (decoder w filename) as [img|] eqn:Hdec.
  - destruct (Z.eqb_spec (colorChannels img) 3) as [H3|H3]; cbn [orb].
    + apply (CreateGLTexture_full filename tag this w img); [lia | exact Hdec | auto].
    + destruct (Z.eqb_spec (colorChannels img) 4) as [H4|H4].
      * apply (CreateGLTexture_full filename tag this w img); [lia | exact Hdec | auto].
      * destruct (CreateGLTexture_rejects filename tag this w img Hdec H3 H4)
          as (w' & t & Heq & _). eauto.
  - rewrite (CreateGLTexture_undecoded _ _ _ _ Hdec). eauto.
Qed.

Lemma CreateGLTexture_at_capacity_witness :
  CreateGLTexture "x.jpg" "x"
    (set_textures (SceneManager_ctor NonNull)
                  (replicate 16 (TEXTURE_INFO.Build "t" 1)) 16)
    (sample_world (Some rgb_image) 1) = UB.
Proof.
  refine (CreateGLTexture_at_capacity "x.jpg" "x"
            (set_textures (SceneManager_ctor NonNull)
                          (replicate 16 (TEXTURE_INFO.Build "t" 1)) 16)
            (sample_world (Some rgb_image) 1) _ eq_refl).
  split; [reflexivity | vm_compute; split; discriminate].
Defined.

(** *** Running the setup sequence twice *)


Lemma CreateGLTexture_decodable filename tag this w :
  texture_array_ok this ->
  m_loadedTextures this < texture_slots ->
  decodes_everything w ->
  exists this' w' t,
    CreateGLTexture filename tag this w = Ok (true, this', w', t) /\
    texture_array_ok this' /\
    m_loadedTextures this' = m_loadedTextures this + 1 /\
    decodes_everything w'.
Proof.
  intros Hok Hlt Hall. destruct (Hall filename) as (img & Hdec & Hc).
  destruct (CreateGLTexture_registers filename tag this w img Hok Hlt Hdec Hc)
    as (w' & t & Hrun & _).
  destruct (CreateGLTexture_world _ _ _ _ _ _ _ _ Hok Hrun) as (Hd & _).
  eexists _, w', t. split; [exact Hrun|].
  split; [apply registered_ok; assumption|]. split; [reflexivity|].
  unfold decodes_everything. rewrite Hd. exact Hall.
Qed.

(** Binding changes nothing in the world but the active unit and the
    bindings. *)
Lemma BindGLTextures_loop_world n :
  forall i this w a this' w' t,
    for_range n i (fun i =>
      glActiveTexture (GL_TEXTURE0 + i) ;;
      e ← m_textureIDs_at i;
      glBindTexture GL_TEXTURE_2D (TEXTURE_INFO.ID e)) this w = Ok (a, this', w', t) ->
    decoder w' = decoder w /\ gl_fresh w' = gl_fresh w /\
    gl_generated w' = gl_generated w /\
    indeterminate w' = indeterminate w /\ declared w' = declared w.
Proof.
  induction n as [|n IH]; intros i this w a this' w' t Hrun; cbn [for_range] in Hrun.
  - injection Hrun as <- <- <- <-. auto.
  - apply bind_inv in Hrun as (u & this2 & w2 & t3 & t4 & Hbody & Hrest & _).
    apply bind_inv in Hbody as (u1 & this3 & w3 & t5 & t6 & Hact & Hbody & _).
    apply bind_inv in Hbody as (e & this4 & w4 & t7 & t8 & Hat & Hbnd & _).
    injection Hact as <- <- <- <-.
    unfold m_textureIDs_at in Hat.
    apply bind_inv in Hat as (x & this5 & w5 & t9 & t10 & Hg & Hat & _).
    injection Hg as <- <- <- <-.
    destruct ((0 <=? i) && (i <? texture_slots)); [|discriminate].
    destruct (m_textureIDs this !! Z.to_nat i); [|discriminate].
    injection Hat as <- <- <- <-.
    injection Hbnd as <- <- <- <-.
    destruct (IH _ _ _ _ _ _ _ Hrest) as (H1 & H2 & H3 & H4 & H5).
    rewrite H1, H2, H3, H4, H5. cbn. auto.
Qed.

Lemma BindGLTextures_world this w a this' w' t :
  BindGLTextures this w = Ok (a, this', w', t) ->
  decoder w' = decoder w /\ gl_fresh w' = gl_fresh w /\
  gl_generated w' = gl_generated w /\
  indeterminate w' = indeterminate w /\ declared w' = declared w.
Proof.
  unfold BindGLTextures. intros Hrun.
  apply bind_inv in Hrun as (this0 & this1 & w1 & t1 & t2 & Hget & Hrun & _).
  injection Hget as <- <- <- <-.
  exact (BindGLTextures_loop_world _ _ _ _ _ _ _ _ Hrun).
Qed.

Ltac decodable_step Hok Hn Hall :=
  match goal with
  | |- context [ (CreateGLTexture ?f ?tag ≫= _) ?this ?w ] =>
      let this' := fresh "this" in let w' := fresh "w" in let t := fresh "t" in
      let Hrun := fresh "Hrun" in let Hok' := fresh "Hok" in
      let Hn' := fresh "Hn" in let Hall' := fresh "Hall" in
      destruct (CreateGLTexture_decodable f tag this w Hok
                  ltac:(rewrite Hn; reflexivity) Hall)
        as (this' & w' & t & Hrun & Hok' & Hn' & Hall');
      rewrite Hn in Hn'; cbn in Hn';
      rewrite (bind_Ok _ _ _ _ _ _ _ _ Hrun); cbv beta;
      clear Hrun Hok Hn Hall; rename Hok' into Hok; rename Hn' into Hn;
      rename Hall' into Hall
  end.

(** X10. When every file decodes to a supported image,
    [LoadSceneTextures] on a fresh object fills all 16 slots; running it
    a second time is undefined, because its first load writes past the
    array. *)
Theorem LoadSceneTextures_twice_overflows :
  forall p w,
    decodes_everything w ->
    (exists this' w' t,
       LoadSceneTextures (SceneManager_ctor p) w = Ok (tt, this', w', t) /\
       m_loadedTextures this' = 16) /\
    (LoadSceneTextures ;; LoadSceneTextures) (SceneManager_ctor p) w = UB.
Proof.
  intros p w Hall.
  pose proof (SceneManager_ctor_ok p) as Hok.
  assert (Hn : m_loadedTextures (SceneManager_ctor p) = 0) by reflexivity.
  assert (Hfirst : exists this' w' t,
             LoadSceneTextures (SceneManager_ctor p) w = Ok (tt, this', w', t) /\
             m_loadedTextures this' = 16 /\ texture_array_ok this' /\
             decodes_everything w').
  { unfold LoadSceneTextures. cbv zeta.
    do 16 (decodable_step Hok Hn Hall).
    match goal with
    | |- context [ BindGLTextures ?this ?w ] =>
        destruct (BindGLTextures_spec this w Hok) as (w' & Hbind & _);
        destruct (BindGLTextures_world _ _ _ _ _ _ Hbind) as (Hkeep & _)
    end.
    rewrite Hbind. eexists _, _, _. split; [reflexivity|]. split; [exact Hn|].
    split; [exact Hok|]. unfold decodes_everything. rewrite Hkeep. exact Hall. }
  destruct Hfirst as (this' & w' & t & Hrun & Hcount & Hok' & Hall').
  split; [eauto|].
  rewrite (bind_Ok _ _ _ _ _ _ _ _ Hrun). cbv beta.
  unfold LoadSceneTextures. cbv zeta.
  destruct (Hall' "textures/plastic_dark_seamless.jpg"%string) as (img & Hdec & Hc).
  rewrite (bind_UB (CreateGLTexture _ _)); [reflexivity|].
  apply (CreateGLTexture_full _ _ _ _ img); [unfold texture_slots; lia | exact Hdec | exact Hc].
Qed.

Lemma LoadSceneTextures_twice_overflows_witness :
  (exists this' w' t,
     LoadSceneTextures (SceneManager_ctor NonNull) (sample_world (Some rgb_image) 1)
     = Ok (tt, this', w', t) /\
     m_loadedTextures this' = 16) /\
  (LoadSceneTextures ;; LoadSceneTextures)
    (SceneManager_ctor NonNull) (sample_world (Some rgb_image) 1) = UB.
Proof.
  apply (LoadSceneTextures_twice_overflows NonNull (sample_world (Some rgb_image) 1)).
  intros filename. exists rgb_image. split; [reflexivity | left; reflexivity].
Defined.

(** ** Shader uniforms *)

Section NullGuards.
Local Open Scope string_scope.

(** X11. After [BindGLTextures], [SetShaderTexture] for a registered
    tag switches texturing on and uploads as sampler the index of the
    first entry with that tag, which is the unit that entry's texture
    is bound to. *)
Theorem SetShaderTexture_selects_bound_unit :
  forall tag this w (i : nat) e,
    m_pShaderManager this = NonNull ->
    texture_array_ok this ->
    Z.of_nat i < m_loadedTextures this ->
    m_textureIDs this !! i = Some e ->
    TEXTURE_INFO.tag e = tag ->
    (forall (j : nat) e', (j < i)%nat -> m_textureIDs this !! j = Some e' ->
                          TEXTURE_INFO.tag e' <> tag) ->
    exists w',
      (BindGLTextures ;; SetShaderTexture tag) this w
      = Ok (tt, this, w',
            (bind_calls 0 (loaded_entries this)
             ++ [SetUniform "bUseTexture" (IntValue 1);
                 SetUniform "objectTexture" (Sampler2DValue (Z.of_nat i))])%list) /\
      bound_texture w' (Z.of_nat i) = TEXTURE_INFO.ID e.
Proof.
  intros tag this w i e Hp Hok Hi He Htag Hbefore.
  destruct (BindGLTextures_spec this w Hok) as (w' & Hbind & Hin & _).
  exists w'. split.
  - rewrite (bind_Ok _ _ _ _ _ _ _ _ Hbind). cbv beta.
    rewrite (SetShaderTexture_NonNull this Hp Hok).
    rewrite (find_texture_first tag (loaded_entries this) 0 i e); [reflexivity| |exact Htag|].
    + rewrite loaded_entries_lookup_lt by lia. exact He.
    + intros j e' Hj He'. apply (Hbefore j e' Hj).
      rewrite loaded_entries_lookup_lt in He' by lia. exact He'.
  - apply Hin; [lia | rewrite Nat2Z.id; exact He].
Qed.

Lemma SetShaderTexture_selects_bound_unit_witness :
  exists w',
    (BindGLTextures ;; SetShaderTexture "b")
      (registered (registered (SceneManager_ctor NonNull) "a" 7) "b" 8) (sample_world None 1)
    = Ok (tt, registered (registered (SceneManager_ctor NonNull) "a" 7) "b" 8, w',
          (bind_calls 0 (loaded_entries
                           (registered (registered (SceneManager_ctor NonNull) "a" 7) "b" 8))
           ++ [SetUniform "bUseTexture" (IntValue 1);
               SetUniform "objectTexture" (Sampler2DValue 1)])%list) /\
    bound_texture w' 1 = 8.
Proof.
  apply (SetShaderTexture_selects_bound_unit "b"
           (registered (registered (SceneManager_ctor NonNull) "a" 7) "b" 8)
           (sample_world None 1) 1 (TEXTURE_INFO.Build "b" 8)).
  - reflexivity.
  - split; [reflexivity | vm_compute; split; discriminate].
  - reflexivity.
  - reflexivity.
  - reflexivity.
  - intros j e' Hj He'. destruct j as [|j]; [|lia].
    vm_compute in He'. injection He' as <-. discriminate.
Defined.

(** X12. For a tag no registered texture carries,
    [SetShaderTexture] still switches texturing on and uploads -1 as
    the sampler. *)
Theorem SetShaderTexture_unknown_tag :
  forall tag this w,
    m_pShaderManager this = NonNull ->
    texture_array_ok this ->
    Forall (fun e => TEXTURE_INFO.tag e <> tag) (loaded_entries this) ->
    SetShaderTexture tag this w
    = Ok (tt, this, w,
          [SetUniform "bUseTexture" (IntValue 1);
           SetUniform "objectTexture" (Sampler2DValue (-1))]).
Proof.
  intros tag this w Hp Hok Hnone.
  rewrite (SetShaderTexture_NonNull this Hp Hok).
  apply (find_texture_None tag _ 0) in Hnone. rewrite Hnone. reflexivity.
Qed.

Lemma SetShaderTexture_unknown_tag_witness :
  SetShaderTexture "wood" (registered (SceneManager_ctor NonNull) "a" 7) (sample_world None 1)
  = Ok (tt, registered (SceneManager_ctor NonNull) "a" 7, sample_world None 1,
        [SetUniform "bUseTexture" (IntValue 1);
         SetUniform "objectTexture" (Sampler2DValue (-1))]).
Proof.
  apply (SetShaderTexture_unknown_tag "wood" (registered (SceneManager_ctor NonNull) "a" 7)
           (sample_world None 1)).
  - reflexivity.
  - split; [reflexivity | vm_compute; split; discriminate].
  - vm_compute. repeat constructor. discriminate.
Defined.

(** X13. Without a shader manager [SetTransformations],
    [SetShaderColor], [SetShaderTexture] and [SetTextureUVScale] do
    nothing. *)
Theorem setters_without_shader_manager :
  forall this w,
    m_pShaderManager this = NULL ->
    (forall scaleXYZ rx ry rz positionXYZ,
       SetTransformations scaleXYZ rx ry rz positionXYZ this w = Ok (tt, this, w, [])) /\
    (forall r g b a, SetShaderColor r g b a this w = Ok (tt, this, w, [])) /\
    (forall textureTag, SetShaderTexture textureTag this w = Ok (tt, this, w, [])) /\
    (forall u v, SetTextureUVScale u v this w = Ok (tt, this, w, [])).
Proof.
  intros this w Hp.
  unfold SetTransformations, SetShaderColor, SetShaderTexture, SetTextureUVScale.
  unfold mbind, M_bind, get_this. rewrite Hp. repeat split.
Qed.

Lemma setters_without_shader_manager_witness :
  (forall scaleXYZ rx ry rz positionXYZ,
     SetTransformations scaleXYZ rx ry rz positionXYZ (SceneManager_ctor NULL)
                        (sample_world None 1)
     = Ok (tt, SceneManager_ctor NULL, sample_world None 1, [])) /\
  (forall r g b a,
     SetShaderColor r g b a (SceneManager_ctor NULL) (sample_world None 1)
     = Ok (tt, SceneManager_ctor NULL, sample_world None 1, [])) /\
  (forall textureTag,
     SetShaderTexture textureTag (SceneManager_ctor NULL) (sample_world None 1)
     = Ok (tt, SceneManager_ctor NULL, sample_world None 1, [])) /\
  (forall u v,
     SetTextureUVScale u v (SceneManager_ctor NULL) (sample_world None 1)
     = Ok (tt, SceneManager_ctor NULL, sample_world None 1, [])).
Proof.
  apply (setters_without_shader_manager (SceneManager_ctor NULL) (sample_world None 1)).
  reflexivity.
Defined.

(** X14. [SetShaderMaterial] and [SetupSceneLights] do not check the
    shader manager: without one, [SetShaderMaterial] does nothing on an
    empty material registry and is undefined on any other, and
    [SetupSceneLights] is undefined. *)
Theorem unguarded_calls_without_shader_manager :
  forall this w,
    m_pShaderManager this = NULL ->
    (forall materialTag,
       SetShaderMaterial materialTag this w
       = match m_objectMaterials this with
         | [] => Ok (tt, this, w, [])
         | _ :: _ => UB
         end) /\
    SetupSceneLights this w = UB.
Proof.
  intros this w Hp. split.
  - intros materialTag. unfold SetShaderMaterial. step.
    destruct (m_objectMaterials this) as [|e0 l] eqn:Hl; [reflexivity|].
    change (Z.of_nat (length (e0 :: l)) >? 0) with true. cbv iota.
    step_with ltac:(unfold declare_OBJECT_MATERIAL; step; step; reflexivity).
    rewrite (bind_Ok _ _ _ _ _ _ _ _ (FindMaterial_spec _ _ _ _)).
    rewrite Hl. cbv beta iota.
    unfold m_pShaderManager_set, mbind, M_bind, get_this, undefined. cbv beta iota.
    rewrite !Hp. reflexivity.
  - unfold SetupSceneLights. apply bind_UB.
    unfold m_pShaderManager_set. step. rewrite Hp. reflexivity.
Qed.

Lemma unguarded_calls_without_shader_manager_witness :
  (forall materialTag,
     SetShaderMaterial materialTag (SceneManager_ctor NULL) (sample_world None 1)
     = Ok (tt, SceneManager_ctor NULL, sample_world None 1, [])) /\
  SetupSceneLights (SceneManager_ctor NULL) (sample_world None 1) = UB.
Proof.
  apply (unguarded_calls_without_shader_manager (SceneManager_ctor NULL)
           (sample_world None 1)).
  reflexivity.
Defined.

End NullGuards.

(** ** Materials *)

Section Materials.
Local Open Scope string_scope.

(** X15. With a shader manager, [SetShaderMaterial] uploads nothing
    when the registry is empty; otherwise it uploads the five
    properties of the first entry with the tag or, when no entry has
    the tag, of its uninitialised local. *)
Theorem SetShaderMaterial_uploads :
  forall materialTag this w,
    m_pShaderManager this = NonNull ->
    SetShaderMaterial materialTag this w
    = match m_objectMaterials this with
      | [] => Ok (tt, this, w, [])
      | _ :: _ =>
          Ok (tt, this, advance 1 w,
              material_uploads
                match List.find (has_tag materialTag) (m_objectMaterials this) with
                | Some e => e
                | None => indeterminate w (declared w)
                end)
      end.
Proof.
  intros materialTag this w Hp. unfold SetShaderMaterial. step.
  destruct (m_objectMaterials this) as [|e0 l] eqn:Hl; [reflexivity|].
  change (Z.of_nat (length (e0 :: l)) >? 0) with true. cbv iota.
  step_with ltac:(unfold declare_OBJECT_MATERIAL; step; step; reflexivity).
  rewrite (bind_Ok _ _ _ _ _ _ _ _ (FindMaterial_spec _ _ _ _)).
  rewrite Hl. cbv beta iota.
  unfold m_pShaderManager_set, mbind, M_bind, get_this, emit. cbv beta iota.
  rewrite !Hp.
  destruct (List.find (has_tag materialTag) (e0 :: l)); reflexivity.
Qed.

Lemma SetShaderMaterial_uploads_witness :
  SetShaderMaterial "paint"
    {| m_pShaderManager := NonNull; m_basicMeshes := NonNull;
       m_textureIDs := []; m_loadedTextures := 0;
       m_objectMaterials := [red_material; blue_material] |}
    (sample_world None 1)
  = Ok (tt,
        {| m_pShaderManager := NonNull; m_basicMeshes := NonNull;
           m_textureIDs := []; m_loadedTextures := 0;
           m_objectMaterials := [red_material; blue_material] |},
        advance 1 (sample_world None 1), material_uploads red_material).
Proof.
  apply (SetShaderMaterial_uploads "paint"
           {| m_pShaderManager := NonNull; m_basicMeshes := NonNull;
              m_textureIDs := []; m_loadedTextures := 0;
              m_objectMaterials := [red_material; blue_material] |}
           (sample_world None 1)).
  reflexivity.
Defined.

Lemma find_app_first {A : Type} (f : A -> bool) (l l' : list A) :
  List.find f (l ++ l')
  = match List.find f l with Some a => Some a | None => List.find f l' end.
Proof.
  induction l as [|a l IH]; [reflexivity|].
  cbn [app List.find]. destruct (f a); [reflexivity | exact IH].
Qed.

Lemma find_app_twice {A : Type} (f : A -> bool) (l l' : list A) :
  List.find f ((l ++ l') ++ l') = List.find f (l ++ l').
Proof.
  rewrite <- app_assoc, !find_app_first.
  destruct (List.find f l); [reflexivity|].
  destruct (List.find f l'); reflexivity.
Qed.

(** [DefineObjectMaterials] appends the same four materials to
    whatever the registry holds. *)
Lemma DefineObjectMaterials_appends :
  exists four,
    map OBJECT_MATERIAL.tag four = ["metal"; "wood"; "walls"; "plastic"] /\
    forall this w,
      DefineObjectMaterials this w
      = Ok (tt, {| m_pShaderManager := m_pShaderManager this;
                   m_basicMeshes := m_basicMeshes this;
                   m_textureIDs := m_textureIDs this;
                   m_loadedTextures := m_loadedTextures this;
                   m_objectMaterials := m_objectMaterials this ++ four |}, w, []).
Proof.
  eexists. split; cycle 1.
  - intros this w. unfold DefineObjectMaterials, m_objectMaterials_push_back.
    unfold mbind, M_bind, get_this, put_this.
    cbn [m_objectMaterials m_pShaderManager m_basicMeshes m_textureIDs m_loadedTextures app].
    rewrite <- !app_assoc. cbn [app]. reflexivity.
  - reflexivity.
Qed.

(** X16. [DefineObjectMaterials] appends to whatever the registry
    holds.  Called twice it leaves eight more entries, and every lookup
    answers after the second call what it answered after the first. *)
Theorem DefineObjectMaterials_twice_keeps_lookups :
  forall this w,
  exists this1 this2,
    DefineObjectMaterials this w = Ok (tt, this1, w, []) /\
    (DefineObjectMaterials ;; DefineObjectMaterials) this w = Ok (tt, this2, w, []) /\
    length (m_objectMaterials this1) = (length (m_objectMaterials this) + 4)%nat /\
    length (m_objectMaterials this2) = (length (m_objectMaterials this) + 8)%nat /\
    forall tag material,
    exists r,
      FindMaterial tag material this1 w = Ok (r, this1, w, []) /\
      FindMaterial tag material this2 w = Ok (r, this2, w, []).
Proof.
  intros this w. destruct DefineObjectMaterials_appends as (four & Htags & Happ).
  assert (Hlen : length four = 4%nat).
  { rewrite <- (length_map OBJECT_MATERIAL.tag), Htags. reflexivity. }
  eexists _, _. split; [apply Happ|].
  split; [rewrite (bind_Ok _ _ _ _ _ _ _ _ (Happ _ _)); cbv beta; apply Happ|].
  cbn [m_objectMaterials].
  split; [rewrite !length_app; lia|].
  split; [rewrite !length_app; lia|].
  intros tag material. rewrite !FindMaterial_spec. cbn [m_objectMaterials].
  rewrite find_app_twice.
  destruct four as [|m four]; [discriminate|].
  eexists. split.
  - reflexivity.
  - destruct (m_objectMaterials this); reflexivity.
Qed.

End Materials.

(** ** Rebinding *)

(** X17. Binding a second time makes the same calls and leaves every
    unit bound as the first binding left it. *)
Theorem BindGLTextures_twice :
  forall this w,
    texture_array_ok this ->
    exists w1 w2 t,
      BindGLTextures this w = Ok (tt, this, w1, t) /\
      BindGLTextures this w1 = Ok (tt, this, w2, t) /\
      forall unit, bound_texture w2 unit = bound_texture w1 unit.
Proof.
  intros this w Hok.
  destruct (BindGLTextures_spec this w Hok) as (w1 & Hrun1 & Hin1 & _).
  destruct (BindGLTextures_spec this w1 Hok) as (w2 & Hrun2 & Hin2 & Hout2).
  exists w1, w2, (bind_calls 0 (loaded_entries this)).
  split; [exact Hrun1|]. split; [exact Hrun2|].
  intros unit.
  destruct (decide (0 <= unit < m_loadedTextures this)) as [Hu|Hu].
  - destruct (texture_array_ok_lookup this unit Hok) as [e He].
    { destruct Hok as [_ Hn]. lia. }
    rewrite (Hin1 unit e Hu He), (Hin2 unit e Hu He). reflexivity.
  - apply Hout2. exact Hu.
Qed.

Lemma BindGLTextures_twice_witness :
  exists w1 w2 t,
    BindGLTextures (registered (SceneManager_ctor NonNull) "a" 7) (sample_world None 1)
    = Ok (tt, registered (SceneManager_ctor NonNull) "a" 7, w1, t) /\
    BindGLTextures (registered (SceneManager_ctor NonNull) "a" 7) w1
    = Ok (tt, registered (SceneManager_ctor NonNull) "a" 7, w2, t) /\
    forall unit, bound_texture w2 unit = bound_texture w1 unit.
Proof.
  apply (BindGLTextures_twice (registered (SceneManager_ctor NonNull) "a" 7)
           (sample_world None 1)).
  split; [reflexivity | vm_compute; split; discriminate].
Defined.

(** ** More on the model matrix *)

Section ModelMatrixPoints.
Local Open Scope R_scope.

(** X18. Without rotation the model matrix scales a point first and
    moves it second: (x, y, z) goes to
    (sx * x + px, sy * y + py, sz * z + pz). *)
Theorem modelView_unrotated_point :
  forall sx sy sz px py pz x y z : float,
    glm.mul_vec (modelView (glm.Vec3 sx sy sz) 0 0 0 (glm.Vec3 px py pz))
                (glm.Vec4 x y z 1)
    = glm.Vec4 (sx * x + px) (sy * y + py) (sz * z + pz) 1.
Proof.
  intros sx sy sz px py pz x y z.
  rewrite modelView_unrotated, mul_vec_mul, mul_vec_scale, mul_vec_translate.
  cbn [glm.x glm.y glm.z glm.w].
  apply vec4_eq; unfold float; ring.
Qed.

Lemma affine_mul a b :
  affine a -> affine b -> affine (a * b)%mat.
Proof.
  destruct a as [[] [] [] []], b as [[] [] [] []].
  unfold affine, glm.mul, glm.mul_col, glm.smul, glm.vadd. cbn.
  intros (-> & -> & -> & ->) (-> & -> & -> & ->). repeat split; unfold float; ring.
Qed.

Lemma affine_rotate angle axis : affine (glm.rotate angle axis).
Proof.
  unfold affine, glm.rotate, glm.rotate_m, glm.identity, glm.smul, glm.vadd. cbn.
  repeat split; unfold float; ring.
Qed.

Lemma affine_translate v : affine (glm.translate v).
Proof.
  unfold affine, glm.translate, glm.translate_m, glm.identity, glm.smul, glm.vadd. cbn.
  repeat split; unfold float; ring.
Qed.

Lemma affine_scale v : affine (glm.scale v).
Proof.
  unfold affine, glm.scale, glm.scale_m, glm.identity, glm.smul. cbn.
  repeat split; unfold float; ring.
Qed.

Lemma mul_col3 a b :
  glm.col3 b = glm.Vec4 0 0 0 1 -> glm.col3 (a * b)%mat = glm.col3 a.
Proof.
  intros Hb. destruct a as [[] [] [] []].
  unfold glm.mul. cbn [glm.col3]. rewrite Hb.
  unfold glm.mul_col, glm.smul, glm.vadd. cbn.
  apply vec4_eq; unfold float; ring.
Qed.

Lemma modelView_affine scaleXYZ rx ry rz positionXYZ :
  affine (modelView scaleXYZ rx ry rz positionXYZ).
Proof.
  unfold modelView. cbv zeta.
  repeat apply affine_mul;
    auto using affine_rotate, affine_translate, affine_scale.
Qed.

Lemma modelView_col3 scaleXYZ rx ry rz px py pz :
  glm.col3 (modelView scaleXYZ rx ry rz (glm.Vec3 px py pz)) = glm.Vec4 px py pz 1.
Proof.
  unfold modelView. cbv zeta.
  rewrite mul_col3 by (destruct scaleXYZ; reflexivity).
  rewrite !mul_col3 by reflexivity.
  rewrite translate_matrix. reflexivity.
Qed.

Lemma mul_vec_origin m : glm.mul_vec m (glm.Vec4 0 0 0 1) = glm.col3 m.
Proof.
  destruct m as [[] [] [] []]. matrix_entries. apply vec4_eq; unfold float; ring.
Qed.

Lemma affine_keeps_w m v : affine m -> glm.w (glm.mul_vec m v) = glm.w v.
Proof.
  destruct m as [[] [] [] []], v. unfold affine. matrix_entries.
  intros (-> & -> & -> & ->). unfold float. ring.
Qed.

(** X19. Whatever the scale and the three rotations, the model
    matrix takes the origin of the mesh to the given position and keeps
    the fourth coordinate of every vector. *)
Theorem modelView_moves_origin_to_position :
  forall scaleXYZ rx ry rz px py pz,
    glm.mul_vec (modelView scaleXYZ rx ry rz (glm.Vec3 px py pz)) (glm.Vec4 0 0 0 1)
    = glm.Vec4 px py pz 1 /\
    (forall v, glm.w (glm.mul_vec (modelView scaleXYZ rx ry rz (glm.Vec3 px py pz)) v)
               = glm.w v).
Proof.
  intros scaleXYZ rx ry rz px py pz. split.
  - rewrite mul_vec_origin. apply modelView_col3.
  - intros v. apply affine_keeps_w, modelView_affine.
Qed.

End ModelMatrixPoints.

(** ** The render script on any object *)

Section AnyRegistry.
Variable this : SceneManager.
Hypothesis Hp : m_pShaderManager this = NonNull.
Hypothesis Hb : m_basicMeshes this = NonNull.
Hypothesis Hok : texture_array_ok this.

Lemma makes_bind c c' ds ss ds' ss' :
  makes this c ds ss -> makes this c' ds' ss' ->
  makes this (c ;; c') (ds ++ ds') (ss ++ ss').
Proof.
  intros Hc Hc' w.
  destruct (Hc w) as (w1 & t1 & Hrun1 & Hd1 & Hs1 & Hr1).
  destruct (Hc' w1) as (w2 & t2 & Hrun2 & Hd2 & Hs2 & Hr2).
  exists w2, (t1 ++ t2).
  split; [rewrite (bind_Ok _ _ _ _ _ _ _ _ Hrun1); cbv beta; rewrite Hrun2; reflexivity|].
  unfold draws, samplers in *.
  rewrite !flat_map_app, forallb_app, Hd1, Hd2, Hs1, Hs2, Hr1, Hr2. auto.
Qed.

Lemma makes_SetTransformations scaleXYZ rx ry rz positionXYZ :
  makes this (SetTransformations scaleXYZ rx ry rz positionXYZ) [] [].
Proof.
  intros w. eexists _, _. split; [apply SetTransformations_NonNull; exact Hp|].
  repeat split.
Qed.

Lemma makes_SetShaderColor r g b a : makes this (SetShaderColor r g b a) [] [].
Proof.
  intros w. eexists _, _. split; [apply SetShaderColor_NonNull; exact Hp|].
  repeat split.
Qed.

Lemma makes_SetTextureUVScale u v : makes this (SetTextureUVScale u v) [] [].
Proof.
  intros w. eexists _, _. split; [apply SetTextureUVScale_NonNull; exact Hp|].
  repeat split.
Qed.

Lemma makes_SetShaderMaterial materialTag : makes this (SetShaderMaterial materialTag) [] [].
Proof.
  intros w. destruct (SetShaderMaterial_spec materialTag this w Hp) as (w' & Hrun).
  eexists _, _. split; [exact Hrun|].
  destruct (m_objectMaterials this); repeat split.
Qed.

Lemma makes_SetShaderTexture textureTag :
  makes this (SetShaderTexture textureTag) [] [slot_of this textureTag].
Proof.
  intros w. eexists _, _. split; [apply SetShaderTexture_NonNull; assumption|].
  repeat split.
Qed.

Lemma makes_draw m : makes this (m_basicMeshes_call (DrawMesh m)) [m] [].
Proof.
  intros w. eexists _, _. split; [apply m_basicMeshes_call_NonNull; exact Hb|].
  repeat split.
Qed.

Lemma makes_quiet_then c c' ds ss :
  makes this c [] [] -> makes this c' ds ss -> makes this (c ;; c') ds ss.
Proof. intros Hc Hc'. exact (makes_bind c c' [] [] ds ss Hc Hc'). Qed.

Lemma makes_texture_then textureTag c' ds ss :
  makes this c' ds ss ->
  makes this (SetShaderTexture textureTag ;; c') ds (slot_of this textureTag :: ss).
Proof. intros Hc'. exact (makes_bind _ c' [] [_] ds ss (makes_SetShaderTexture _) Hc'). Qed.

Lemma makes_draw_then m c' ds ss :
  makes this c' ds ss ->
  makes this (m_basicMeshes_call (DrawMesh m) ;; c') (m :: ds) ss.
Proof. intros Hc'. exact (makes_bind _ c' [_] [] ds ss (makes_draw _) Hc'). Qed.

Ltac quiet_directive :=
  first [ apply makes_SetTransformations | apply makes_SetShaderColor
        | apply makes_SetTextureUVScale | apply makes_SetShaderMaterial ].

Ltac script :=
  cbv zeta; cbn [map];
  repeat first [ apply makes_draw_then | apply makes_texture_then
               | apply makes_quiet_then; [quiet_directive|] ];
  apply makes_draw.

Lemma RenderDeskandwalls_makes :
  makes this RenderDeskandwalls [PlaneMesh; PlaneMesh; PlaneMesh]
        (map (slot_of this) ["wall"; "wall"; "wood"]%string).
Proof using All. unfold RenderDeskandwalls. script. Qed.

Lemma RenderKeyboardandmat_makes :
  makes this RenderKeyboardandmat [BoxMesh; BoxMesh; PrismMesh; BoxMesh]
        (map (slot_of this) ["pad"; "pad2"; "keyboard"; "plastic"; "plastic"]%string).
Proof using All. unfold RenderKeyboardandmat. script. Qed.

Lemma RenderMouse_makes :
  makes this RenderMouse
        [CylinderMesh; SphereMesh; TorusMesh; BoxMesh; BoxMesh; BoxMesh; TorusMesh]
        (map (slot_of this) ["blackpl"; "blackpl"]%string).
Proof using All. unfold RenderMouse. script. Qed.

Lemma RenderPCexterior_makes :
  makes this RenderPCexterior
        [CylinderMesh; CylinderMesh; CylinderMesh; CylinderMesh;
         BoxMesh; BoxMesh; BoxMesh; BoxMesh; BoxMesh; BoxMesh]
        (map (slot_of this) ["metal"; "metal"; "metal"; "metal"; "mb"; "metal"]%string).
Proof using All. unfold RenderPCexterior. script. Qed.

Lemma RenderPCinterior_makes :
  makes this RenderPCinterior
        [CylinderMesh; CylinderMesh; TorusMesh;
         BoxMesh; BoxMesh; BoxMesh; BoxMesh; BoxMesh; BoxMesh;
         TorusMesh; TorusMesh; TorusMesh; BoxMesh]
        (map (slot_of this)
             ["plastic"; "PKMN"; "plastic"; "ram"; "ram"; "rgb"; "rgb"; "mbb"; "metal";
              "pink"; "blue"; "blue"; "metal"]%string).
Proof using All. unfold RenderPCinterior. script. Qed.

Lemma RenderMonitor_makes :
  makes this RenderMonitor [PrismMesh; BoxMesh; BoxMesh; BoxMesh; BoxMesh]
        (map (slot_of this) ["plastic"; "plastic"; "plastic"; "screen"; "plastic"]%string).
Proof using All. unfold RenderMonitor. script. Qed.

Lemma RenderGlass_makes : makes this RenderGlass [BoxMesh; BoxMesh] [].
Proof using All. unfold RenderGlass. script. Qed.

Lemma RenderScene_makes :
  makes this RenderScene scene_draws (map (slot_of this) scene_texture_requests).
Proof using All.
  unfold RenderScene.
  exact (makes_bind _ _ _ _ _ _ RenderDeskandwalls_makes
          (makes_bind _ _ _ _ _ _ RenderKeyboardandmat_makes
            (makes_bind _ _ _ _ _ _ RenderMouse_makes
              (makes_bind _ _ _ _ _ _ RenderPCexterior_makes
                (makes_bind _ _ _ _ _ _ RenderPCinterior_makes
                  (makes_bind _ _ _ _ _ _ RenderMonitor_makes RenderGlass_makes)))))).
Qed.

End AnyRegistry.

(** X20. On an object with both collaborators, a well-formed texture
    array and an entry for each of the five material tags the script
    asks for, [RenderScene] is defined and makes the same calls in
    every world, so no uploaded value comes from uninitialised storage.
    It leaves the object as it was, draws the same 44 meshes in the
    same order, selects for each of its 34 texture directives the slot
    [FindTextureSlot] answers, and calls nothing but the shader manager
    and the mesh library. *)
Theorem RenderScene_fixed_script :
  forall this,
    m_pShaderManager this = NonNull ->
    m_basicMeshes this = NonNull ->
    texture_array_ok this ->
    Forall (fun tag => List.find (has_tag tag) (m_objectMaterials this) <> None)
           ["walls"; "wood"; "plastic"; "metal"; "glass"]%string ->
    exists t,
      (forall w, exists w', RenderScene this w = Ok (tt, this, w', t)) /\
      draws t = scene_draws /\
      length (draws t) = 44%nat /\
      samplers t = map (slot_of this) scene_texture_requests /\
      forallb is_render_call t = true.
Proof.
  intros this Hp Hb Hok Htags.
  repeat match goal with
         | H : Forall _ (_ :: _) |- _ =>
             let Hx := fresh "Hx" in
             apply Forall_cons in H as [Hx H]
         end.
  destruct (List.find (has_tag "walls") (m_objectMaterials this)) as [e1|] eqn:H1; [|congruence].
  destruct (List.find (has_tag "wood") (m_objectMaterials this)) as [e2|] eqn:H2; [|congruence].
  destruct (List.find (has_tag "plastic") (m_objectMaterials this)) as [e3|] eqn:H3; [|congruence].
  destruct (List.find (has_tag "metal") (m_objectMaterials this)) as [e4|] eqn:H4; [|congruence].
  destruct (List.find (has_tag "glass") (m_objectMaterials this)) as [e5|] eqn:H5; [|congruence].
  destruct (RenderScene_calls this Hp Hb Hok e1 e2 e3 e4 e5 H1 H2 H3 H4 H5) as (t & Ht).
  exists t. split; [exact Ht|].
  destruct (Ht (sample_world None 0)) as (w1 & Hrun).
  destruct (RenderScene_makes this Hp Hb Hok (sample_world None 0))
    as (w2 & t' & Hrun' & Hd & Hs & Hr).
  rewrite Hrun in Hrun'. injection Hrun' as _ <-.
  rewrite Hd. auto.
Qed.

Lemma RenderScene_fixed_script_witness :
  exists t,
    (forall w, exists w', RenderScene furnished_object w = Ok (tt, furnished_object, w', t)) /\
    draws t = scene_draws /\
    length (draws t) = 44%nat /\
    samplers t = map (slot_of furnished_object) scene_texture_requests /\
    forallb is_render_call t = true.
Proof.
  apply (RenderScene_fixed_script furnished_object).
  - reflexivity.
  - reflexivity.
  - split; [reflexivity | vm_compute; split; discriminate].
  - repeat constructor; discriminate.
Defined.

(** ** The whole setup *)

Section Setup.
Local Open Scope string_scope.

(** [LoadSceneTextures] is its sixteen loads followed by the binding. *)
Lemma LoadSceneTextures_as_loads this w :
  LoadSceneTextures this w = (load_textures scene_texture_files ;; BindGLTextures) this w.
Proof.
  unfold LoadSceneTextures, scene_texture_files. cbv zeta. cbn [load_textures].
  unfold mbind, M_bind, mret, M_ret.
  repeat match goal with
         | |- context [ CreateGLTexture ?f ?tag ?this ?w ] =>
             destruct (CreateGLTexture f tag this w) as [[[[? ?] ?] ?]|];
             cbv beta iota; [|reflexivity]
         end.
  match goal with
  | |- context [ BindGLTextures ?this ?w ] =>
      destruct (BindGLTextures this w) as [[[[? ?] ?] ?]|]; [|reflexivity]
  end.
  rewrite ?app_nil_r, <- ?app_assoc. reflexivity.
Qed.

(** Loads touch the texture array and nothing else of the object. *)
Lemma load_textures_keeps calls :
  forall this w bs this' w' t,
    texture_array_ok this ->
    load_textures calls this w = Ok (bs, this', w', t) ->
    m_pShaderManager this' = m_pShaderManager this /\
    m_basicMeshes this' = m_basicMeshes this /\
    m_objectMaterials this' = m_objectMaterials this.
Proof.
  induction calls as [|[filename tag] calls IH]; intros this w bs this' w' t Hok Hrun.
  - injection Hrun as <- <- <- <-. auto.
  - cbn [load_textures] in Hrun.
    apply bind_inv in Hrun as (b & this1 & w1 & t1 & t2 & Hc & Hrest & ->).
    apply bind_inv in Hrest as (bs' & this2 & w2 & t3 & t4 & Hl & Hret & ->).
    injection Hret as <- <- <- <-.
    destruct (CreateGLTexture_outcome _ _ _ _ _ _ _ _ Hok Hc) as (Hok1 & _ & Hthis1 & _).
    destruct (IH _ _ _ _ _ _ Hok1 Hl) as (H1 & H2 & H3).
    rewrite H1, H2, H3. destruct b; rewrite Hthis1; auto.
Qed.

(** While slots are free, loads on a well-formed array are defined. *)
Lemma load_textures_defined calls :
  forall this w,
    texture_array_ok this ->
    m_loadedTextures this + Z.of_nat (length calls) <= texture_slots ->
    exists bs this' w' t, load_textures calls this w = Ok (bs, this', w', t).
Proof.
  induction calls as [|[filename tag] calls IH]; intros this w Hok Hroom.
  - eexists _, _, _, _. reflexivity.
  - cbn [length] in Hroom.
    destruct (CreateGLTexture_defined filename tag this w Hok ltac:(lia))
      as (b & this1 & w1 & t1 & Hc).
    destruct (CreateGLTexture_outcome _ _ _ _ _ _ _ _ Hok Hc) as (Hok1 & Hn1 & _).
    destruct (IH this1 w1 Hok1 ltac:(destruct b; lia)) as (bs & this2 & w2 & t2 & Hl).
    cbn [load_textures]. rewrite (bind_Ok _ _ _ _ _ _ _ _ Hc). cbv beta.
    rewrite (bind_Ok _ _ _ _ _ _ _ _ Hl). cbv beta.
    eexists _, _, _, _. reflexivity.
Qed.

(** When every file decodes to a supported image, every load
    registers. *)
Lemma load_textures_all_decodable calls :
  forall this w,
    texture_array_ok this ->
    m_loadedTextures this + Z.of_nat (length calls) <= texture_slots ->
    decodes_everything w ->
    exists this' w' t,
      load_textures calls this w = Ok (replicate (length calls) true, this', w', t).
Proof.
  induction calls as [|[filename tag] calls IH]; intros this w Hok Hroom Hall.
  - eexists _, _, _. reflexivity.
  - cbn [length] in Hroom.
    destruct (CreateGLTexture_decodable filename tag this w Hok ltac:(lia) Hall)
      as (this1 & w1 & t1 & Hc & Hok1 & Hn1 & Hall1).
    destruct (IH this1 w1 Hok1 ltac:(lia) Hall1) as (this2 & w2 & t2 & Hl).
    cbn [load_textures]. rewrite (bind_Ok _ _ _ _ _ _ _ _ Hc). cbv beta.
    rewrite (bind_Ok _ _ _ _ _ _ _ _ Hl). cbv beta.
    eexists _, _, _. reflexivity.
Qed.

Lemma registered_tags_all calls :
  registered_tags calls (replicate (length calls) true) = map snd calls.
Proof.
  induction calls as [|[filename tag] calls IH]; [reflexivity|].
  cbn. rewrite IH. reflexivity.
Qed.


(** The slot a tag is found at depends on the registered tags alone. *)
Lemma slot_of_tag_index this tag tags :
  map TEXTURE_INFO.tag (loaded_entries this) = tags ->
  slot_of this tag = tag_index tag tags 0.
Proof.
  unfold slot_of. intros <-. generalize 0.
  induction (loaded_entries this) as [|e entries IH]; intros index; [reflexivity|].
  cbn [find_texture map tag_index].
  destruct (String.eqb (TEXTURE_INFO.tag e) tag); [reflexivity | apply IH].
Qed.

Lemma m_pShaderManager_set_NonNull name v this w :
  m_pShaderManager this = NonNull ->
  m_pShaderManager_set name v this w = Ok (tt, this, w, [SetUniform name v]).
Proof. intros Hp. unfold m_pShaderManager_set. step. rewrite Hp. reflexivity. Qed.

(** With a shader manager, [SetupSceneLights] uploads its uniforms,
    the lighting switch first, and touches nothing else. *)
Lemma SetupSceneLights_NonNull this w :
  m_pShaderManager this = NonNull ->
  exists t,
    SetupSceneLights this w
    = Ok (tt, this, w, SetUniform "bUseLighting" (BoolValue true) :: t) /\
    forallb is_uniform t = true.
Proof.
  intros Hp. unfold SetupSceneLights.
  repeat (erewrite bind_Ok by (apply m_pShaderManager_set_NonNull; exact Hp); cbv beta).
  rewrite (m_pShaderManager_set_NonNull _ _ _ _ Hp).
  eexists. split; reflexivity.
Qed.

(** What follows the loads in [PrepareScene]: four materials, the
    lights, seven meshes. *)
Lemma PrepareScene_after_textures :
  exists four,
    map OBJECT_MATERIAL.tag four = ["metal"; "wood"; "walls"; "plastic"] /\
    forall this w,
      m_pShaderManager this = NonNull ->
      m_basicMeshes this = NonNull ->
      exists t,
        (DefineObjectMaterials ;; SetupSceneLights ;;
         m_basicMeshes_call (LoadMesh PlaneMesh) ;;
         m_basicMeshes_call (LoadMesh BoxMesh) ;;
         m_basicMeshes_call (LoadMesh TaperedCylinderMesh) ;;
         m_basicMeshes_call (LoadMesh SphereMesh) ;;
         m_basicMeshes_call (LoadMesh CylinderMesh) ;;
         m_basicMeshes_call (LoadMesh TorusMesh) ;;
         m_basicMeshes_call (LoadMesh PrismMesh)) this w
        = Ok (tt, set_materials this (m_objectMaterials this ++ four), w, t) /\
        mesh_loads t = [PlaneMesh; BoxMesh; TaperedCylinderMesh; SphereMesh;
                        CylinderMesh; TorusMesh; PrismMesh] /\
        List.filter is_gl_call t = [] /\
        In (SetUniform "bUseLighting" (BoolValue true)) t.
Proof.
  destruct DefineObjectMaterials_appends as (four & Htags & Happ).
  exists four. split; [exact Htags|].
  intros this w Hp Hb.
  rewrite (bind_Ok _ _ _ _ _ _ _ _ (Happ _ _)). cbv beta.
  fold (set_materials this (m_objectMaterials this ++ four)).
  assert (Hp' : m_pShaderManager (set_materials this (m_objectMaterials this ++ four))
                = NonNull) by exact Hp.
  assert (Hb' : m_basicMeshes (set_materials this (m_objectMaterials this ++ four))
                = NonNull) by exact Hb.
  generalize dependent (set_materials this (m_objectMaterials this ++ four)).
  intros this' Hp' Hb'.
  destruct (SetupSceneLights_NonNull this' w Hp') as (t & Hlights & Ht).
  rewrite (bind_Ok _ _ _ _ _ _ _ _ Hlights). cbv beta.
  repeat (erewrite bind_Ok by (apply m_basicMeshes_call_NonNull; exact Hb'); cbv beta).
  rewrite (m_basicMeshes_call_NonNull _ Hb').
  eexists. split; [reflexivity|].
  cbn [app]. unfold mesh_loads.
  assert (Hquiet : forall l : list event,
             forallb is_uniform l = true ->
             flat_map (fun e => match e with LoadMesh m => [m] | _ => [] end) l = [] /\
             List.filter is_gl_call l = []).
  { induction l as [|e l IH]; [auto|]. cbn [forallb]. intros H.
    apply andb_true_iff in H as [He Hl]. destruct (IH Hl) as [IH1 IH2].
    destruct e; try discriminate. cbn. rewrite IH1, IH2. auto. }
  destruct (Hquiet t Ht) as [Hm Hg].
  cbn [flat_map List.filter is_gl_call app].
  rewrite flat_map_app, List.filter_app, Hm, Hg.
  split; [reflexivity|]. split; [reflexivity|]. left. reflexivity.
Qed.

Lemma SetupSceneLights_NULL this w :
  m_pShaderManager this = NULL -> SetupSceneLights this w = UB.
Proof.
  intros Hp. unfold SetupSceneLights. apply bind_UB.
  unfold m_pShaderManager_set. step. rewrite Hp. reflexivity.
Qed.


(** The loads of [LoadSceneTextures] on a fresh object, whatever the
    decoder and the driver answer. *)
Lemma LoadSceneTextures_fresh p w :
  exists this w' t,
    LoadSceneTextures (SceneManager_ctor p) w = Ok (tt, this, w', t) /\
    texture_array_ok this /\
    m_pShaderManager this = p /\ m_basicMeshes this = NonNull /\
    m_objectMaterials this = [].
Proof.
  pose proof (SceneManager_ctor_ok p) as Hok.
  destruct (load_textures_defined scene_texture_files (SceneManager_ctor p) w Hok
              ltac:(cbn; unfold texture_slots; lia)) as (bs & this & w1 & t1 & Hl).
  destruct (load_textures_outcome _ _ _ _ _ _ _ Hok Hl) as (Hok1 & _).
  destruct (load_textures_keeps _ _ _ _ _ _ _ Hok Hl) as (Hp1 & Hb1 & Hm1).
  destruct (BindGLTextures_spec this w1 Hok1) as (w2 & Hbind & _).
  exists this, w2. eexists. split; [|auto].
  rewrite LoadSceneTextures_as_loads, (bind_Ok _ _ _ _ _ _ _ _ Hl). cbv beta.
  rewrite Hbind. reflexivity.
Qed.




(** X22. On an object constructed without a shader manager
    [PrepareScene] is undefined for every decoder and driver: the
    lights are uploaded through the NULL pointer. *)
Theorem PrepareScene_without_shader_manager :
  forall w, PrepareScene (SceneManager_ctor NULL) w = UB.
Proof.
  intros w.
  destruct (LoadSceneTextures_fresh NULL w) as (this1 & w1 & t1 & Hload & Hok & Hp & Hb & Hm).
  destruct DefineObjectMaterials_appends as (four & _ & Happ).
  unfold PrepareScene. rewrite (bind_Ok _ _ _ _ _ _ _ _ Hload). cbv beta.
  rewrite (bind_Ok _ _ _ _ _ _ _ _ (Happ _ _)). cbv beta.
  rewrite (bind_UB SetupSceneLights); [reflexivity|].
  apply SetupSceneLights_NULL. exact Hp.
Qed.

(** X23. When every file decodes to a supported image, the setup
    registers its sixteen tags in load order and every texture the
    script then asks for is found: each of the 34 samplers is a slot in
    [0, 16), none is -1. *)
Theorem PrepareScene_registers_every_requested_texture :
  forall w,
    decodes_everything w ->
    exists this w1 t0 w2 t,
      PrepareScene (SceneManager_ctor NonNull) w = Ok (tt, this, w1, t0) /\
      map TEXTURE_INFO.tag (loaded_entries this) = scene_texture_tags /\
      RenderScene this w1 = Ok (tt, this, w2, t) /\
      samplers t
      = [2; 2; 1; 3; 4; 13; 0; 0; 15; 15; 6; 6; 6; 6; 7; 6; 0; 8; 0; 14; 14;
         9; 9; 10; 6; 12; 11; 11; 6; 0; 0; 0; 5; 0] /\
      Forall (fun slot => 0 <= slot < 16) (samplers t).
Proof.
  intros w Hall.
  pose proof (SceneManager_ctor_ok NonNull) as Hok.
  destruct (load_textures_all_decodable scene_texture_files (SceneManager_ctor NonNull) w Hok
              ltac:(cbn; unfold texture_slots; lia) Hall) as (this1 & w1 & t1 & Hl).
  destruct (load_textures_outcome _ _ _ _ _ _ _ Hok Hl) as (Hok1 & _).
  destruct (load_textures_keeps _ _ _ _ _ _ _ Hok Hl) as (Hp1 & Hb1 & Hm1).
  pose proof (load_textures_entries _ _ _ _ _ _ _ Hok Hl) as Htags.
  rewrite registered_tags_all in Htags. cbn in Htags.
  destruct (BindGLTextures_spec this1 w1 Hok1) as (w2 & Hbind & _).
  destruct PrepareScene_after_textures as (four & _ & Hrest).
  destruct (Hrest this1 w2 Hp1 Hb1) as (t2 & Hrun2 & _).
  rewrite Hm1 in Hrun2. cbn [app m_objectMaterials SceneManager_ctor] in Hrun2.
  destruct (RenderScene_makes (set_materials this1 four) Hp1 Hb1 Hok1 w2)
    as (w3 & t & Hrender & _ & Hs & _).
  assert (Hsamplers : samplers t
            = [2; 2; 1; 3; 4; 13; 0; 0; 15; 15; 6; 6; 6; 6; 7; 6; 0; 8; 0; 14; 14;
               9; 9; 10; 6; 12; 11; 11; 6; 0; 0; 0; 5; 0]).
  { rewrite Hs.
    rewrite (map_ext (slot_of (set_materials this1 four))
                     (fun tag => tag_index tag scene_texture_tags 0)).
    - reflexivity.
    - intros tag. apply slot_of_tag_index. exact Htags. }
  assert (Hload : exists t1',
             LoadSceneTextures (SceneManager_ctor NonNull) w = Ok (tt, this1, w2, t1')).
  { eexists. rewrite LoadSceneTextures_as_loads, (bind_Ok _ _ _ _ _ _ _ _ Hl). cbv beta.
    rewrite Hbind. reflexivity. }
  destruct Hload as (t1' & Hload).
  exists (set_materials this1 four), w2, (t1' ++ t2)%list, w3, t.
  split.
  { unfold PrepareScene. rewrite (bind_Ok _ _ _ _ _ _ _ _ Hload). cbv beta.
    rewrite Hrun2. reflexivity. }
  split; [exact Htags|]. split; [exact Hrender|]. split; [exact Hsamplers|].
  rewrite Hsamplers. repeat constructor; lia.
Qed.

Lemma PrepareScene_registers_every_requested_texture_witness :
  exists this w1 t0 w2 t,
    PrepareScene (SceneManager_ctor NonNull) (sample_world (Some rgb_image) 1)
    = Ok (tt, this, w1, t0) /\
    map TEXTURE_INFO.tag (loaded_entries this) = scene_texture_tags /\
    RenderScene this w1 = Ok (tt, this, w2, t) /\
    samplers t
    = [2; 2; 1; 3; 4; 13; 0; 0; 15; 15; 6; 6; 6; 6; 7; 6; 0; 8; 0; 14; 14;
       9; 9; 10; 6; 12; 11; 11; 6; 0; 0; 0; 5; 0] /\
    Forall (fun slot => 0 <= slot < 16) (samplers t).
Proof.
  apply (PrepareScene_registers_every_requested_texture (sample_world (Some rgb_image) 1)).
  intros filename. exists rgb_image. split; [reflexivity | left; reflexivity].
Defined.



End Setup.

(** ** A fresh object *)

(** X25. On a freshly constructed object no lookup finds anything,
    not even the tag the constructor stored in each of the sixteen
    slots (with the name 0xFFFFFFFF). *)
Theorem fresh_object_finds_nothing :
  forall p tag material w,
    FindTextureID tag (SceneManager_ctor p) w = Ok (-1, SceneManager_ctor p, w, []) /\
    FindTextureSlot tag (SceneManager_ctor p) w = Ok (-1, SceneManager_ctor p, w, []) /\
    FindMaterial tag material (SceneManager_ctor p) w
    = Ok ((false, material), SceneManager_ctor p, w, []) /\
    Forall (fun e => e = TEXTURE_INFO.Build "/0" (2 ^ 32 - 1))
           (m_textureIDs (SceneManager_ctor p)) /\
    length (m_textureIDs (SceneManager_ctor p)) = 16%nat.
Proof.
  intros p tag material w.
  split; [reflexivity|]. split; [reflexivity|]. split; [reflexivity|].
  split; [|reflexivity].
  cbn. repeat constructor.
Qed.

(** ** The render script without a shader manager *)

Section NoShaderManager.
Variable this : SceneManager.
Hypothesis Hp : m_pShaderManager this = NULL.
Hypothesis Hb : m_basicMeshes this = NonNull.

Lemma yields_bind c c' t t' :
  yields this c t -> yields this c' t' -> yields this (c ;; c') (t ++ t').
Proof.
  intros Hc Hc' w. rewrite (bind_Ok _ _ _ _ _ _ _ _ (Hc w)). cbv beta.
  rewrite (Hc' w). reflexivity.
Qed.

Lemma yields_SetTransformations scaleXYZ rx ry rz positionXYZ :
  yields this (SetTransformations scaleXYZ rx ry rz positionXYZ) [].
Proof. intros w. unfold SetTransformations. step. rewrite Hp. reflexivity. Qed.

Lemma yields_SetShaderColor r g b a : yields this (SetShaderColor r g b a) [].
Proof. intros w. unfold SetShaderColor. step. rewrite Hp. reflexivity. Qed.

Lemma yields_SetShaderTexture textureTag : yields this (SetShaderTexture textureTag) [].
Proof. intros w. unfold SetShaderTexture. step. rewrite Hp. reflexivity. Qed.

Lemma yields_SetTextureUVScale u v : yields this (SetTextureUVScale u v) [].
Proof. intros w. unfold SetTextureUVScale. step. rewrite Hp. reflexivity. Qed.

Lemma yields_draw m : yields this (m_basicMeshes_call (DrawMesh m)) [DrawMesh m].
Proof. intros w. apply m_basicMeshes_call_NonNull. exact Hb. Qed.

Lemma yields_quiet_then c c' t :
  yields this c [] -> yields this c' t -> yields this (c ;; c') t.
Proof. intros Hc Hc'. exact (yields_bind c c' [] t Hc Hc'). Qed.

Lemma yields_draw_then m c' t :
  yields this c' t -> yields this (m_basicMeshes_call (DrawMesh m) ;; c') (DrawMesh m :: t).
Proof. intros Hc'. exact (yields_bind _ c' [_] t (yields_draw m) Hc'). Qed.

Section EmptyRegistry.
Hypothesis Hm : m_objectMaterials this = [].

Lemma yields_SetShaderMaterial materialTag : yields this (SetShaderMaterial materialTag) [].
Proof. intros w. unfold SetShaderMaterial. step. rewrite Hm. reflexivity. Qed.

Ltac silent_directive :=
  first [ apply yields_SetTransformations | apply yields_SetShaderColor
        | apply yields_SetShaderTexture | apply yields_SetTextureUVScale
        | apply yields_SetShaderMaterial ].

Ltac silent_script :=
  cbv zeta; cbn [map];
  repeat first [ apply yields_draw_then | apply yields_quiet_then; [silent_directive|] ];
  apply yields_draw.

Lemma RenderDeskandwalls_yields :
  yields this RenderDeskandwalls (map DrawMesh [PlaneMesh; PlaneMesh; PlaneMesh]).
Proof using All. unfold RenderDeskandwalls. silent_script. Qed.

Lemma RenderKeyboardandmat_yields :
  yields this RenderKeyboardandmat (map DrawMesh [BoxMesh; BoxMesh; PrismMesh; BoxMesh]).
Proof using All. unfold RenderKeyboardandmat. silent_script. Qed.

Lemma RenderMouse_yields :
  yields this RenderMouse
    (map DrawMesh [CylinderMesh; SphereMesh; TorusMesh; BoxMesh; BoxMesh; BoxMesh; TorusMesh]).
Proof using All. unfold RenderMouse. silent_script. Qed.

Lemma RenderPCexterior_yields :
  yields this RenderPCexterior
    (map DrawMesh [CylinderMesh; CylinderMesh; CylinderMesh; CylinderMesh;
                   BoxMesh; BoxMesh; BoxMesh; BoxMesh; BoxMesh; BoxMesh]).
Proof using All. unfold RenderPCexterior. silent_script. Qed.

Lemma RenderPCinterior_yields :
  yields this RenderPCinterior
    (map DrawMesh [CylinderMesh; CylinderMesh; TorusMesh;
                   BoxMesh; BoxMesh; BoxMesh; BoxMesh; BoxMesh; BoxMesh;
                   TorusMesh; TorusMesh; TorusMesh; BoxMesh]).
Proof using All. unfold RenderPCinterior. silent_script. Qed.

Lemma RenderMonitor_yields :
  yields this RenderMonitor (map DrawMesh [PrismMesh; BoxMesh; BoxMesh; BoxMesh; BoxMesh]).
Proof using All. unfold RenderMonitor. silent_script. Qed.

Lemma RenderGlass_yields : yields this RenderGlass (map DrawMesh [BoxMesh; BoxMesh]).
Proof using All. unfold RenderGlass. silent_script. Qed.

Lemma RenderScene_yields : yields this RenderScene (map DrawMesh scene_draws).
Proof using All.
  unfold RenderScene.
  exact (yields_bind _ _ _ _ RenderDeskandwalls_yields
          (yields_bind _ _ _ _ RenderKeyboardandmat_yields
            (yields_bind _ _ _ _ RenderMouse_yields
              (yields_bind _ _ _ _ RenderPCexterior_yields
                (yields_bind _ _ _ _ RenderPCinterior_yields
                  (yields_bind _ _ _ _ RenderMonitor_yields RenderGlass_yields)))))).
Qed.

End EmptyRegistry.

Lemma RenderScene_NULL_with_materials w :
  m_objectMaterials this <> [] -> RenderScene this w = UB.
Proof using Hp.
  intros Hm.
  assert (Hub : forall materialTag, SetShaderMaterial materialTag this w = UB).
  { intros materialTag. unfold SetShaderMaterial. step.
    destruct (m_objectMaterials this) as [|e0 l] eqn:Hl; [contradiction|].
    change (Z.of_nat (length (e0 :: l)) >? 0) with true. cbv iota.
    step_with ltac:(unfold declare_OBJECT_MATERIAL; step; step; reflexivity).
    rewrite (bind_Ok _ _ _ _ _ _ _ _ (FindMaterial_spec _ _ _ _)).
    rewrite Hl. cbv beta iota.
    unfold m_pShaderManager_set, mbind, M_bind, get_this, undefined. cbv beta iota.
    rewrite !Hp. reflexivity. }
  unfold RenderScene. apply bind_UB.
  unfold RenderDeskandwalls. cbv zeta.
  rewrite (bind_Ok _ _ _ _ _ _ _ _ (yields_SetTransformations _ _ _ _ _ w)). cbv beta.
  rewrite (bind_Ok _ _ _ _ _ _ _ _ (yields_SetShaderTexture _ w)). cbv beta.
  rewrite (bind_Ok _ _ _ _ _ _ _ _ (yields_SetTextureUVScale _ _ w)). cbv beta.
  rewrite (bind_UB (SetShaderMaterial _)) by apply Hub. reflexivity.
Qed.

End NoShaderManager.

(** X26. Without a shader manager [RenderScene] depends on the
    material registry: with no material defined it only draws its 44
    meshes and uploads nothing; with any material defined it is
    undefined, because [SetShaderMaterial] uploads through the NULL
    pointer. *)
Theorem RenderScene_without_shader_manager :
  forall this w,
    m_pShaderManager this = NULL ->
    m_basicMeshes this = NonNull ->
    RenderScene this w
    = match m_objectMaterials this with
      | [] => Ok (tt, this, w, map DrawMesh scene_draws)
      | _ :: _ => UB
      end.
Proof.
  intros this w Hp Hb.
  destruct (m_objectMaterials this) as [|e0 l] eqn:Hm.
  - apply RenderScene_yields; assumption.
  - apply RenderScene_NULL_with_materials; [exact Hp | rewrite Hm; discriminate].
Qed.

Lemma RenderScene_without_shader_manager_witness :
  RenderScene (SceneManager_ctor NULL) (sample_world None 1)
  = Ok (tt, SceneManager_ctor NULL, sample_world None 1, map DrawMesh scene_draws).
Proof.
  apply (RenderScene_without_shader_manager (SceneManager_ctor NULL) (sample_world None 1));
    reflexivity.
Defined.
